(** * Statement-to-report assembly: a shallow embedding of
      [Colab_Q_A_fin_re.py] and [financial_report_generator.py]

    Numbers.  The statement values handled by the two scripts are the
    [float64] entries of pandas data frames, the Python [int] literals [0]
    and the results of arithmetic on them.  A finite number is modelled by
    the rational it denotes, [NaN] (pandas' marker of a missing entry) by a
    constructor of its own.  Arithmetic is exact: rounding error, infinities
    and signed zeros are outside the model.

    Effects.  Both scripts fill an openpyxl worksheet in place.  The
    worksheet is a finite map from cell addresses to cells, threaded through
    a state-and-exception monad [M]; the clock read by [datetime.now()] is
    an argument of the report.

    The two scripts are embedded in the modules [Colab_Q_A_fin_re] and
    [financial_report_generator], with the names of the source; the
    properties follow the definitions. *)

From Stdlib Require Import QArith Qabs ZArith String Ascii List Lia Lqa.
From stdpp Require Import gmap strings list pretty.

Local Open Scope string_scope.

(** ** Values *)

Inductive value : Type :=
  | NaN
  | Num (q : Q).

(** [pd.isna(value)] *)
Definition isna (v : value) : bool :=
  match v with NaN => true | Num _ => false end.

Definition Qltb (x y : Q) : bool := negb (Qle_bool y x).

(** Python's [==], [!=] and [<] on numbers: every comparison with [NaN] is
    [False], except [!=], which is [True]. *)
Definition value_eqb (a b : value) : bool :=
  match a, b with
  | Num x, Num y => Qeq_bool x y
  | _, _ => false
  end.

Definition value_neqb (a b : value) : bool := negb (value_eqb a b).

Definition value_ltb (a b : value) : bool :=
  match a, b with
  | Num x, Num y => Qltb x y
  | _, _ => false
  end.

Definition value_add (a b : value) : value :=
  match a, b with
  | Num x, Num y => Num (x + y)
  | _, _ => NaN
  end.

Definition value_sub (a b : value) : value :=
  match a, b with
  | Num x, Num y => Num (x - y)
  | _, _ => NaN
  end.

(** [a / b].  Every division of the two scripts is guarded by a test of its
    divisor against [0], so the zero-divisor case (where numpy yields an
    infinity or [nan] and a Python float raises) is never reached; the model
    makes it [NaN]. *)
Definition value_div (a b : value) : value :=
  match a, b with
  | Num x, Num y => if Qeq_bool y 0 then NaN else Num (x / y)
  | _, _ => NaN
  end.

Definition value_abs (a : value) : value :=
  match a with
  | Num x => Num (Qabs x)
  | NaN => NaN
  end.

Definition zero : value := Num 0.

(** Two model values denote the same number (or are both missing). *)
Definition same_value (a b : value) : Prop :=
  match a, b with
  | NaN, NaN => True
  | Num x, Num y => x == y
  | _, _ => False
  end.

(** ** Rounding and number formatting *)

(** Round to the nearest integer, ties to the even one: the rounding of
    [format(x, '.0f')], of [round(x, n)] and of [numpy.rint]. *)
Definition round_half_even (q : Q) : Z :=
  let n := Qnum q in
  let d := Zpos (Qden q) in
  let f := (n / d)%Z in
  let r2 := (2 * (n mod d))%Z in
  if (r2 <? d)%Z then f
  else if (d <? r2)%Z then (f + 1)%Z
  else if Z.even f then f else (f + 1)%Z.

(** [round(x, 2)] *)
Definition round2 (v : value) : value :=
  match v with
  | NaN => NaN
  | Num q => Num (inject_Z (round_half_even (q * 100)) / 100)
  end.

Definition comma : ascii := ","%char.

(** Thousands separators, on the digits least significant first. *)
Fixpoint group3 (rev_digits : list ascii) : list ascii :=
  match rev_digits with
  | a :: b :: c :: ((_ :: _) as more) => a :: b :: c :: comma :: group3 more
  | _ => rev_digits
  end.

Definition digits (n : N) : list ascii := list_ascii_of_string (pretty n).

Definition thousands (n : N) : string :=
  string_of_list_ascii (rev (group3 (rev (digits n)))).

(** [f"{value:,.0f}"] *)
Definition format_comma_0f (v : value) : string :=
  match v with
  | NaN => "nan"
  | Num q =>
      (if Qltb q 0 then "-" else "")
        ++ thousands (Z.to_N (round_half_even (Qabs q)))
  end.

(** ** Data frames

    A statement table as yfinance delivers it: the period-end dates are the
    columns, most recent first, and each line item is a row of the index.
    The labels of the index are unique, so the rows form a finite map from
    the label to the entries of the row. *)

Record Timestamp : Type := mkTimestamp
  { ts_year : N; ts_month : N; ts_day : N }.

Definition pad2 (n : N) : string :=
  if (n <? 10)%N then "0" ++ pretty n else pretty n.

(** [ts.strftime('%m/%d/%Y')] *)
Definition strftime_mdY (t : Timestamp) : string :=
  pad2 (ts_month t) ++ "/" ++ pad2 (ts_day t) ++ "/" ++ pretty (ts_year t).

Record DataFrame : Type := mkDataFrame
  { columns : list Timestamp;
    rows : gmap string (list value) }.

(** [name in dataframe.index] *)
Definition in_index (name : string) (df : DataFrame) : bool :=
  bool_decide (is_Some (rows df !! name)).

(** [dataframe.loc[name].values[:3]] and the other places where the scripts
    take the leading three entries of a row. *)
Definition first3 {A : Type} (l : list A) : list A := take 3 l.

(** ** Worksheets

    The part of an openpyxl worksheet the scripts use: cells addressed by
    column letter and row number, each with a value, a number format, a font
    and an alignment; the merged ranges; the column widths.  A cell exists
    from the first time it is assigned or one of its attributes is set.
    Merging a range is recorded in [merged_cells] only: the placeholder
    cells openpyxl keeps for the rest of the range are not modelled. *)

Inductive cell_value : Type :=
  | VNone
  | VStr (s : string)
  | VNum (v : value).

Record Font : Type := mkFont { bold : bool; size : N }.

Record Cell : Type := mkCell
  { c_value : cell_value;
    c_number_format : string;
    c_font : option Font;
    c_alignment : option string }.

Definition empty_cell : Cell :=
  {| c_value := VNone; c_number_format := "General";
     c_font := None; c_alignment := None |}.

Record Worksheet : Type := mkWorksheet
  { title : string;
    cells : gmap (string * N) Cell;
    merged_cells : list string;
    column_widths : gmap string N }.

Definition new_worksheet : Worksheet :=
  {| title := "Sheet"; cells := ∅; merged_cells := []; column_widths := ∅ |}.

Definition cell_at (ws : Worksheet) (a : string * N) : Cell :=
  default empty_cell (cells ws !! a).

Definition with_cell (a : string * N) (f : Cell → Cell) (ws : Worksheet)
  : Worksheet :=
  {| title := title ws;
     cells := <[a := f (cell_at ws a)]> (cells ws);
     merged_cells := merged_cells ws;
     column_widths := column_widths ws |}.

(** ** Effects

    The scripts mutate one worksheet in place and raise exceptions, which
    [try ... except Exception] blocks catch after some cells were already
    written.  A computation takes the worksheet and returns the worksheet
    with either a result or the exception raised. *)

Inductive exception : Type := IndexError | KeyError | AttributeError.

Definition M (A : Type) : Type := Worksheet → (exception + A) * Worksheet.

#[export] Instance M_ret : MRet M := λ A a ws, (inr a, ws).

#[export] Instance M_bind : MBind M := λ A B k m ws,
  match m ws with
  | (inr a, ws') => k a ws'
  | (inl e, ws') => (inl e, ws')
  end.

#[export] Instance M_fmap : FMap M := λ A B f m ws,
  match m ws with
  | (inr a, ws') => (inr (f a), ws')
  | (inl e, ws') => (inl e, ws')
  end.

Definition raise {A : Type} (e : exception) : M A := λ ws, (inl e, ws).

Definition of_option {A : Type} (e : exception) (o : option A) : M A :=
  match o with
  | Some a => mret a
  | None => raise e
  end.

(** [try: body except Exception as e: logger.warning(...)]: the cells
    written before the exception stay, and the run goes on.  The warning
    goes to the log, which is not part of the model. *)
Definition try_except (body : M unit) : M unit :=
  λ ws, (inr tt, (body ws).2).

(** The worksheet a computation leaves behind, started on [ws]. *)
Definition exec {A : Type} (m : M A) (ws : Worksheet) : Worksheet := (m ws).2.

Definition outcome {A : Type} (m : M A) (ws : Worksheet) : exception + A :=
  (m ws).1.

(** [dataframe.loc[name].values] *)
Definition loc (df : DataFrame) (name : string) : M (list value) :=
  of_option KeyError (rows df !! name).

(** [l[i]] for [i >= 0] *)
Definition getitem {A : Type} (l : list A) (i : nat) : M A :=
  of_option IndexError (l !! i).

Definition set_value (v : cell_value) (c : Cell) : Cell :=
  {| c_value := v; c_number_format := c_number_format c;
     c_font := c_font c; c_alignment := c_alignment c |}.

Definition set_number_format (fmt : string) (c : Cell) : Cell :=
  {| c_value := c_value c; c_number_format := fmt;
     c_font := c_font c; c_alignment := c_alignment c |}.

Definition set_font (font : Font) (c : Cell) : Cell :=
  {| c_value := c_value c; c_number_format := c_number_format c;
     c_font := Some font; c_alignment := c_alignment c |}.

Definition set_alignment (h : string) (c : Cell) : Cell :=
  {| c_value := c_value c; c_number_format := c_number_format c;
     c_font := c_font c; c_alignment := Some h |}.

(** [ws[f'{col}{row}'] = v] *)
Definition ws_set (a : string * N) (v : cell_value) : M unit :=
  λ ws, (inr tt, with_cell a (set_value v) ws).

(** [ws[f'{col}{row}'].number_format = fmt] *)
Definition ws_set_number_format (a : string * N) (fmt : string) : M unit :=
  λ ws, (inr tt, with_cell a (set_number_format fmt) ws).

(** [ws[f'{col}{row}'].font = font] *)
Definition ws_set_font (a : string * N) (font : Font) : M unit :=
  λ ws, (inr tt, with_cell a (set_font font) ws).

(** [ws[f'{col}{row}'].alignment = Alignment(horizontal=h)] *)
Definition ws_set_alignment (a : string * N) (h : string) : M unit :=
  λ ws, (inr tt, with_cell a (set_alignment h) ws).

(** [ws.title = t] *)
Definition ws_set_title (t : string) : M unit :=
  λ ws, (inr tt,
    {| title := t; cells := cells ws; merged_cells := merged_cells ws;
       column_widths := column_widths ws |}).

(** [ws.merge_cells(range)] *)
Definition ws_merge_cells (range : string) : M unit :=
  λ ws, (inr tt,
    {| title := title ws; cells := cells ws;
       merged_cells := merged_cells ws ++ [range];
       column_widths := column_widths ws |}).

(** [ws.column_dimensions[col].width = w] *)
Definition ws_set_width (col : string) (w : N) : M unit :=
  λ ws, (inr tt,
    {| title := title ws; cells := cells ws; merged_cells := merged_cells ws;
       column_widths := <[col := w]> (column_widths ws) |}).

(** [for i, x in enumerate(l): body], counting from [start]. *)
Fixpoint for_enumerate {A : Type} (start : nat) (l : list A)
    (body : nat → A → M unit) : M unit :=
  match l with
  | [] => mret tt
  | x :: l' => body start x;; for_enumerate (S start) l' body
  end.

(** [for x in l: body; row += 1]: returns the row after the loop. *)
Fixpoint for_rows {A : Type} (l : list A) (row : N)
    (body : N → A → M unit) : M N :=
  match l with
  | [] => mret row
  | x :: l' => body row x;; for_rows l' (row + 1)%N body
  end.

(** Truth value of an optional string, as in [if field_name]. *)
Definition truthy (o : option string) : bool :=
  match o with
  | Some s => negb (String.eqb s "")
  | None => false
  end.

(** ** [Colab_Q_A_fin_re.py] *)

Module Colab_Q_A_fin_re.

(** The statement tables held by a [TeslaFinancialReportGenerator]; [None]
    until fetched. *)
Record TeslaFinancialReportGenerator : Type := mkGenerator
  { quarterly_balance_sheet : option DataFrame;
    annual_balance_sheet : option DataFrame;
    quarterly_income : option DataFrame;
    annual_income : option DataFrame;
    quarterly_cashflow : option DataFrame;
    annual_cashflow : option DataFrame }.

(** [_calculate_pct_change] *)
Definition _calculate_pct_change (current previous : value) : value :=
  if value_eqb previous zero then zero
  else value_div (value_sub current previous) (value_abs previous).

(** [_format_currency] *)
Definition _format_currency (v : value) : string :=
  if isna v || value_eqb v zero then "$0"
  else if value_ltb v zero then "$(" ++ format_comma_0f (value_abs v) ++ ")"
  else "$" ++ format_comma_0f v.

(** [_add_quarterly_data] *)
Definition _add_quarterly_data (row : N) (dataframe : option DataFrame)
    (field_name : string) (col1 col2 col3 col4 col5 col6 : string) : M unit :=
  match dataframe with
  | None => mret tt
  | Some df =>
    if negb (in_index field_name df) then mret tt
    else try_except (
      values ← first3 <$> loc df field_name;
      v0 ← getitem values 0;
      ws_set (col1, row) (VStr (_format_currency v0));;
      v1 ← getitem values 1;
      ws_set (col3, row) (VStr (_format_currency v1));;
      v2 ← getitem values 2;
      ws_set (col5, row) (VStr (_format_currency v2));;
      (if bool_decide (2 ≤ length values)%nat then
         a ← getitem values 0;
         b ← getitem values 1;
         let pct_change1 := _calculate_pct_change a b in
         ws_set (col2, row) (VNum pct_change1);;
         ws_set_number_format (col2, row)
           (if value_ltb (value_abs pct_change1) (Num 10)
            then "0.00%" else "0.0")
       else mret tt);;
      (if bool_decide (3 ≤ length values)%nat then
         a ← getitem values 1;
         b ← getitem values 2;
         let pct_change2 := _calculate_pct_change a b in
         ws_set (col4, row) (VNum pct_change2);;
         ws_set_number_format (col4, row)
           (if value_ltb (value_abs pct_change2) (Num 10)
            then "0.00%" else "0.0")
       else mret tt))
  end.

(** [_add_annual_data] *)
Definition _add_annual_data (row : N) (dataframe : option DataFrame)
    (field_name : string) (col1 col2 col3 col4 col5 : string) : M unit :=
  match dataframe with
  | None => mret tt
  | Some df =>
    if negb (in_index field_name df) then mret tt
    else try_except (
      values ← first3 <$> loc df field_name;
      v0 ← getitem values 0;
      ws_set (col1, row) (VStr (_format_currency v0));;
      v1 ← getitem values 1;
      ws_set (col3, row) (VStr (_format_currency v1));;
      v2 ← getitem values 2;
      ws_set (col5, row) (VStr (_format_currency v2));;
      (if bool_decide (2 ≤ length values)%nat then
         a ← getitem values 0;
         b ← getitem values 1;
         let pct_change1 := _calculate_pct_change a b in
         ws_set (col2, row) (VNum pct_change1);;
         ws_set_number_format (col2, row)
           (if value_ltb (value_abs pct_change1) (Num 10)
            then "0.00%" else "0.0")
       else mret tt);;
      (if bool_decide (3 ≤ length values)%nat then
         a ← getitem values 1;
         b ← getitem values 2;
         let pct_change2 := _calculate_pct_change a b in
         ws_set (col4, row) (VNum pct_change2);;
         ws_set_number_format (col4, row)
           (if value_ltb (value_abs pct_change2) (Num 10)
            then "0.00%" else "0.0")
       else mret tt))
  end.

(** The body shared by the quarterly and the annual half of
    [_calculate_working_capital]; they differ in the table and in the
    column letters. *)
Definition working_capital_block (row : N) (table : option DataFrame)
    (cols pct_cols : list string) : M unit :=
  match table with
  | None => mret tt
  | Some df =>
    try_except (
      current_assets ← first3 <$> loc df "Total Current Assets";
      current_liabilities ← first3 <$> loc df "Total Current Liabilities";
      for_enumerate 0 (zip current_assets current_liabilities)
        (λ i '(ca, cl),
           let working_capital := value_sub ca cl in
           col ← getitem cols i;
           ws_set (col, row) (VStr (_format_currency working_capital));;
           if bool_decide (0 < i)%nat then
             pa ← getitem current_assets (i - 1);
             pl ← getitem current_liabilities (i - 1);
             let prev_wc := value_sub pa pl in
             let pct_change := _calculate_pct_change working_capital prev_wc in
             pct_col ← getitem pct_cols (i - 1);
             ws_set (pct_col, row) (VNum pct_change);;
             ws_set_number_format (pct_col, row)
               (if value_ltb (value_abs pct_change) (Num 10)
                then "0.00%" else "0.0")
           else mret tt))
  end.

(** [_calculate_working_capital] *)
Definition _calculate_working_capital (self : TeslaFinancialReportGenerator)
    (row : N) : M unit :=
  working_capital_block row (quarterly_balance_sheet self)
    ["E"; "G"; "I"] ["F"; "H"];;
  working_capital_block row (annual_balance_sheet self)
    ["K"; "M"; "O"] ["L"; "N"].

(** One half of [_calculate_current_ratio]. *)
Definition current_ratio_block (row : N) (table : option DataFrame)
    (cols : list string) : M unit :=
  match table with
  | None => mret tt
  | Some df =>
    try_except (
      current_assets ← first3 <$> loc df "Total Current Assets";
      current_liabilities ← first3 <$> loc df "Total Current Liabilities";
      for_enumerate 0 (zip current_assets current_liabilities)
        (λ i '(ca, cl),
           if value_neqb cl zero then
             let ratio := value_div ca cl in
             col ← getitem cols i;
             ws_set (col, row) (VNum (round2 ratio))
           else mret tt))
  end.

(** [_calculate_current_ratio] *)
Definition _calculate_current_ratio (self : TeslaFinancialReportGenerator)
    (row : N) : M unit :=
  current_ratio_block row (quarterly_balance_sheet self) ["E"; "G"; "I"];;
  current_ratio_block row (annual_balance_sheet self) ["K"; "M"; "O"].

(** [dataframe.loc[name].values[:3] if name in dataframe.index else [0, 0, 0]] *)
Definition loc_or_zeros (df : DataFrame) (name : string) : M (list value) :=
  if in_index name df then first3 <$> loc df name
  else mret [zero; zero; zero].

(** One half of [_calculate_quick_ratio]. *)
Definition quick_ratio_block (row : N) (table : option DataFrame)
    (cols : list string) : M unit :=
  match table with
  | None => mret tt
  | Some df =>
    try_except (
      current_assets ← first3 <$> loc df "Total Current Assets";
      inventory ← loc_or_zeros df "Inventory";
      current_liabilities ← first3 <$> loc df "Total Current Liabilities";
      for_enumerate 0 (zip current_assets (zip inventory current_liabilities))
        (λ i '(ca, (inv, cl)),
           if value_neqb cl zero then
             let ratio := value_div (value_sub ca inv) cl in
             col ← getitem cols i;
             ws_set (col, row) (VNum (round2 ratio))
           else mret tt))
  end.

(** [_calculate_quick_ratio] *)
Definition _calculate_quick_ratio (self : TeslaFinancialReportGenerator)
    (row : N) : M unit :=
  quick_ratio_block row (quarterly_balance_sheet self) ["E"; "G"; "I"];;
  quick_ratio_block row (annual_balance_sheet self) ["K"; "M"; "O"].

(** One half of [_calculate_gross_margin]. *)
Definition gross_margin_block (row : N) (table : option DataFrame)
    (cols : list string) : M unit :=
  match table with
  | None => mret tt
  | Some df =>
    try_except (
      revenue ← first3 <$> loc df "Total Revenue";
      gross_profit ← first3 <$> loc df "Gross Profit";
      for_enumerate 0 (zip revenue gross_profit)
        (λ i '(rev, gp),
           if value_neqb rev zero then
             let margin := value_div gp rev in
             col ← getitem cols i;
             ws_set (col, row) (VNum margin);;
             ws_set_number_format (col, row) "0.0%"
           else mret tt))
  end.

(** [_calculate_gross_margin] *)
Definition _calculate_gross_margin (self : TeslaFinancialReportGenerator)
    (row : N) : M unit :=
  gross_margin_block row (quarterly_income self) ["E"; "G"; "I"];;
  gross_margin_block row (annual_income self) ["K"; "M"; "O"].

(** One half of [_calculate_net_cash_flow]. *)
Definition net_cash_flow_block (row : N) (table : option DataFrame)
    (cols : list string) : M unit :=
  match table with
  | None => mret tt
  | Some df =>
    try_except (
      operating ← loc_or_zeros df "Operating Cash Flow";
      investing ← loc_or_zeros df "Investing Cash Flow";
      financing ← loc_or_zeros df "Financing Cash Flow";
      for_enumerate 0 (zip operating (zip investing financing))
        (λ i '(op, (inv, fin)),
           let net_cash := value_add (value_add op inv) fin in
           col ← getitem cols i;
           ws_set (col, row) (VStr (_format_currency net_cash))))
  end.

(** [_calculate_net_cash_flow] *)
Definition _calculate_net_cash_flow (self : TeslaFinancialReportGenerator)
    (row : N) : M unit :=
  net_cash_flow_block row (quarterly_cashflow self) ["E"; "G"; "I"];;
  net_cash_flow_block row (annual_cashflow self) ["K"; "M"; "O"].

(** The loop body of the item lists whose entries all name a field:
    [ws[f'C{row}'] = item_name], then the quarterly and the annual data
    when [field_name] is truthy. *)
Definition add_item (quarterly annual : option DataFrame) (row : N)
    (item : string * option string) : M unit :=
  let '(item_name, field_name) := item in
  ws_set ("C", row) (VStr item_name);;
  if truthy field_name then
    _add_quarterly_data row quarterly (default "" field_name)
      "E" "F" "G" "H" "I" "J";;
    _add_annual_data row annual (default "" field_name)
      "K" "L" "M" "N" "O"
  else mret tt.

Definition balance_sheet_items : list (string * option string) :=
  [ ("Cash and Equivalents", Some "Cash And Cash Equivalents");
    ("Short-Term Investments", Some "Other Short Term Investments");
    ("Accounts Receivable", Some "Accounts Receivable");
    ("Inventories", Some "Inventory");
    ("Current Assets", Some "Current Assets");
    ("Total Assets", Some "Total Assets");
    ("Working Capital", None) ].

Definition liability_items : list (string * option string) :=
  [ ("Short-Term Debt", Some "Short Term Debt");
    ("Accounts Payable", Some "Accounts Payable");
    ("Other Current Liabilities", Some "Other Current Liabilities");
    ("Current Liabilities", Some "Current Liabilities");
    ("Long-Term Debt", Some "Long Term Debt");
    ("Total Liabilities", Some "Total Liabilities Net Minority Interest");
    ("Net Worth (OE)", Some "Total Stockholder Equity") ].

(** [_add_balance_sheet_items] *)
Definition _add_balance_sheet_items (self : TeslaFinancialReportGenerator)
    (start_row : N) : M N :=
  let row := start_row in
  row ← for_rows balance_sheet_items row (λ row '(item_name, field_name),
    ws_set ("C", row) (VStr item_name);;
    if truthy field_name
       && negb (bool_decide (field_name = Some "Working Capital")) then
      _add_quarterly_data row (quarterly_balance_sheet self)
        (default "" field_name) "E" "F" "G" "H" "I" "J";;
      _add_annual_data row (annual_balance_sheet self)
        (default "" field_name) "K" "L" "M" "N" "O"
    else if String.eqb item_name "Working Capital" then
      _calculate_working_capital self row
    else mret tt);
  let row := (row + 1)%N in
  ws_set ("B", row) (VStr "Liabilities:");;
  ws_set_font ("B", row) {| bold := true; size := 11 |};;
  let row := (row + 1)%N in
  row ← for_rows liability_items row
    (add_item (quarterly_balance_sheet self) (annual_balance_sheet self));
  let row := (row + 1)%N in
  ws_set ("A", row) (VStr "Current Ratio");;
  _calculate_current_ratio self row;;
  let row := (row + 1)%N in
  ws_set ("A", row) (VStr "Quick Ratio");;
  _calculate_quick_ratio self row;;
  mret row.

Definition income_items : list (string * option string) :=
  [ ("Total Revenue", Some "Total Revenue");
    ("Cost of Revenue", Some "Cost Of Revenue");
    ("Gross Profit", Some "Gross Profit");
    ("Operating Expenses", Some "Operating Expense");
    ("Operating Income", Some "Operating Income");
    ("EBITDA", Some "EBITDA");
    ("EBIT", Some "EBIT");
    ("Pretax Income", Some "Pretax Income");
    ("Tax Provision", Some "Tax Provision");
    ("Net Income", Some "Net Income");
    ("Basic EPS", Some "Basic EPS");
    ("Diluted EPS", Some "Diluted EPS");
    ("Basic Average Shares", Some "Basic Average Shares");
    ("Diluted Average Shares", Some "Diluted Average Shares");
    ("Total Operating Expenses", Some "Total Expenses");
    ("Interest Expense", Some "Interest Expense");
    ("Gross Margin", None) ].

(** [_add_income_statement_items] *)
Definition _add_income_statement_items (self : TeslaFinancialReportGenerator)
    (start_row : N) : M N :=
  let row := start_row in
  for_rows income_items row (λ row '(item_name, field_name),
    ws_set ("C", row) (VStr item_name);;
    if truthy field_name then
      _add_quarterly_data row (quarterly_income self)
        (default "" field_name) "E" "F" "G" "H" "I" "J";;
      _add_annual_data row (annual_income self)
        (default "" field_name) "K" "L" "M" "N" "O"
    else if String.eqb item_name "Gross Margin" then
      _calculate_gross_margin self row
    else mret tt).

Definition operating_items : list (string * option string) :=
  [ ("Net Income", Some "Net Income");
    ("Depreciation & Amortization", Some "Depreciation And Amortization");
    ("Stock Based Compensation", Some "Stock Based Compensation");
    ("Change in Working Capital", Some "Change In Working Capital");
    ("Other Operating Activities", Some "Other Non Cash Items") ].

Definition investing_items : list (string * option string) :=
  [ ("Capital Expenditures", Some "Capital Expenditure");
    ("Acquisitions", Some "Net Business Purchase And Sale");
    ("Investments", Some "Net Investment Purchase And Sale");
    ("Other Investing Activities", Some "Net Other Investing Changes") ].

Definition financing_items : list (string * option string) :=
  [ ("Debt Issuance/Retirement", Some "Net Issuance Payments Of Debt");
    ("Stock Issuance/Buyback", Some "Net Common Stock Issuance");
    ("Dividends Paid", Some "Cash Dividends Paid");
    ("Other Financing Activities", Some "Net Other Financing Charges") ].

(** [_add_cash_flow_items] *)
Definition _add_cash_flow_items (self : TeslaFinancialReportGenerator)
    (start_row : N) : M N :=
  let row := start_row in
  ws_set ("B", row) (VStr "Cash Flows-Operating Activities:");;
  ws_set_font ("B", row) {| bold := true; size := 11 |};;
  let row := (row + 1)%N in
  row ← for_rows operating_items row
    (add_item (quarterly_cashflow self) (annual_cashflow self));
  ws_set ("B", row) (VStr "Net Cash Flow-Operating");;
  _add_quarterly_data row (quarterly_cashflow self) "Operating Cash Flow"
    "E" "F" "G" "H" "I" "J";;
  _add_annual_data row (annual_cashflow self) "Operating Cash Flow"
    "K" "L" "M" "N" "O";;
  let row := (row + 2)%N in
  ws_set ("B", row) (VStr "Cash Flows-Investing Activities:");;
  ws_set_font ("B", row) {| bold := true; size := 11 |};;
  let row := (row + 1)%N in
  row ← for_rows investing_items row
    (add_item (quarterly_cashflow self) (annual_cashflow self));
  ws_set ("B", row) (VStr "Net Cash Flows-Investing");;
  _add_quarterly_data row (quarterly_cashflow self) "Investing Cash Flow"
    "E" "F" "G" "H" "I" "J";;
  _add_annual_data row (annual_cashflow self) "Investing Cash Flow"
    "K" "L" "M" "N" "O";;
  let row := (row + 2)%N in
  ws_set ("B", row) (VStr "Cash Flows-Financing Activities:");;
  ws_set_font ("B", row) {| bold := true; size := 11 |};;
  let row := (row + 1)%N in
  row ← for_rows financing_items row
    (add_item (quarterly_cashflow self) (annual_cashflow self));
  ws_set ("B", row) (VStr "Net Cash Flows-Financing");;
  _add_quarterly_data row (quarterly_cashflow self) "Financing Cash Flow"
    "E" "F" "G" "H" "I" "J";;
  _add_annual_data row (annual_cashflow self) "Financing Cash Flow"
    "K" "L" "M" "N" "O";;
  let row := (row + 2)%N in
  ws_set ("B", row) (VStr "Net Cash Flow");;
  _calculate_net_cash_flow self row;;
  mret row.

(** The dates of the three leading periods, written to row 6 when the
    balance sheet is there and has at least three columns. *)
Definition date_headers (table : option DataFrame) (c1 c2 c3 : string)
  : M unit :=
  match table with
  | None => mret tt
  | Some df =>
    if bool_decide (3 ≤ length (columns df))%nat then
      let dates := first3 (columns df) in
      d0 ← getitem dates 0;
      ws_set (c1, 6%N) (VStr (strftime_mdY d0));;
      d1 ← getitem dates 1;
      ws_set (c2, 6%N) (VStr (strftime_mdY d1));;
      d2 ← getitem dates 2;
      ws_set (c3, 6%N) (VStr (strftime_mdY d2))
    else mret tt
  end.

(** [f"FY {datetime.now().year-k}"] *)
Definition fiscal_year (now_year : Z) (k : Z) : string :=
  "FY " ++ pretty (now_year - k)%Z.

(** [create_excel_report], on a fresh workbook's active sheet.  The year of
    [datetime.now()] is the argument [now_year]; saving the workbook to
    [self.output_file] is not part of the model. *)
Definition create_excel_report (self : TeslaFinancialReportGenerator)
    (now_year : Z) : M unit :=
  ws_set_title "Sheet1";;
  ws_set ("A", 1%N) (VStr "FINANCIAL STATEMENTS");;
  ws_set_font ("A", 1%N) {| bold := true; size := 16 |};;
  ws_merge_cells "A1:O1";;
  ws_set_alignment ("A", 1%N) "center";;
  ws_set ("A", 3%N) (VStr "Balance Sheet Data:");;
  ws_set_font ("A", 3%N) {| bold := true; size := 14 |};;
  ws_set ("B", 5%N) (VStr "In Thousands");;
  ws_set ("C", 5%N) (VNum (Num 1000));;
  ws_set ("E", 5%N) (VStr "Q");;
  ws_set ("G", 5%N) (VStr "Q");;
  ws_set ("I", 5%N) (VStr "Q");;
  ws_set ("K", 5%N) (VStr (fiscal_year now_year 1));;
  ws_set ("M", 5%N) (VStr (fiscal_year now_year 2));;
  ws_set ("O", 5%N) (VStr (fiscal_year now_year 3));;
  date_headers (quarterly_balance_sheet self) "E" "G" "I";;
  date_headers (annual_balance_sheet self) "K" "M" "O";;
  ws_set ("B", 7%N) (VStr "Assets:");;
  ws_set_font ("B", 7%N) {| bold := true; size := 12 |};;
  ws_set ("F", 7%N) (VStr "Δ%");;
  ws_set ("H", 7%N) (VStr "Δ%");;
  ws_set ("J", 7%N) (VStr "Δ%");;
  ws_set ("L", 7%N) (VStr "Δ%");;
  ws_set ("N", 7%N) (VStr "Δ%");;
  let row := 8%N in
  _add_balance_sheet_items self row;;
  let row := 31%N in
  ws_set ("A", row) (VStr "Income Statement:");;
  ws_set_font ("A", row) {| bold := true; size := 14 |};;
  let row := 32%N in
  ws_set ("K", row) (VStr (fiscal_year now_year 1));;
  ws_set ("M", row) (VStr (fiscal_year now_year 2));;
  ws_set ("O", row) (VStr (fiscal_year now_year 3));;
  let row := 35%N in
  _add_income_statement_items self row;;
  let row := 56%N in
  ws_set ("A", row) (VStr "Cash Flows:");;
  ws_set_font ("A", row) {| bold := true; size := 14 |};;
  let row := 57%N in
  ws_set ("K", row) (VStr (fiscal_year now_year 1));;
  ws_set ("M", row) (VStr (fiscal_year now_year 2));;
  ws_set ("O", row) (VStr (fiscal_year now_year 3));;
  let row := 62%N in
  _add_cash_flow_items self row;;
  ws_set_width "A" 2;;
  ws_set_width "B" 4;;
  ws_set_width "C" 30;;
  ws_set_width "D" 2;;
  ws_set_width "E" 15;;
  ws_set_width "F" 8;;
  ws_set_width "G" 15;;
  ws_set_width "H" 8;;
  ws_set_width "I" 15;;
  ws_set_width "J" 8;;
  ws_set_width "K" 15;;
  ws_set_width "L" 8;;
  ws_set_width "M" 15;;
  ws_set_width "N" 8;;
  ws_set_width "O" 15.

End Colab_Q_A_fin_re.

(** ** [financial_report_generator.py] *)

Module financial_report_generator.

(** The dictionaries built by [FinancialDataScraper]: the keys are fixed, so
    each is a record with one field per key. *)
Record BalanceSheetData : Type := mkBalanceSheetData
  { dates : list string;
    cash_equivalents : list value;
    short_term_investments : list value;
    accounts_receivable : list value;
    inventory : list value;
    total_current_assets : list value;
    ppe : list value;
    total_assets : list value;
    accounts_payable : list value;
    short_term_debt : list value;
    total_current_liabilities : list value;
    long_term_debt : list value;
    total_liabilities : list value;
    total_equity : list value }.

Record IncomeStatementData : Type := mkIncomeStatementData
  { revenue : list value;
    cost_of_revenue : list value;
    gross_profit : list value;
    operating_expenses : list value;
    operating_income : list value;
    ebit : list value;
    interest_expense : list value;
    pretax_income : list value;
    tax_expense : list value;
    net_income : list value }.

Record CashFlowData : Type := mkCashFlowData
  { operating_cash_flow : list value;
    depreciation : list value;
    capex : list value;
    investing_cash_flow : list value;
    debt_repayment : list value;
    dividends_paid : list value;
    financing_cash_flow : list value;
    free_cash_flow : list value }.

(** [table.loc[name].tolist()[:3] if name in table.index else [0,0,0]] *)
Definition item (table : DataFrame) (name : string) : list value :=
  match rows table !! name with
  | Some values => first3 values
  | None => [zero; zero; zero]
  end.

(** [FinancialDataScraper.get_balance_sheet_data], given what
    [self.yf_ticker.quarterly_balance_sheet] delivered.  With no table the
    attribute access raises inside the [try] and the function returns
    [None]. *)
Definition get_balance_sheet_data (balance_sheet : option DataFrame)
  : option BalanceSheetData :=
  match balance_sheet with
  | None => None
  | Some balance_sheet =>
    Some {|
      dates := first3 (strftime_mdY <$> columns balance_sheet);
      cash_equivalents := item balance_sheet "Cash And Cash Equivalents";
      short_term_investments :=
        item balance_sheet "Other Short Term Investments";
      accounts_receivable := item balance_sheet "Accounts Receivable";
      inventory := item balance_sheet "Inventory";
      total_current_assets := item balance_sheet "Total Current Assets";
      ppe := item balance_sheet "Property Plant Equipment Net";
      total_assets := item balance_sheet "Total Assets";
      accounts_payable := item balance_sheet "Accounts Payable";
      short_term_debt := item balance_sheet "Short Term Debt";
      total_current_liabilities :=
        item balance_sheet "Total Current Liabilities";
      long_term_debt := item balance_sheet "Long Term Debt";
      total_liabilities := item balance_sheet "Total Liabilities";
      total_equity := item balance_sheet "Total Stockholder Equity" |}
  end.

(** [FinancialDataScraper.get_income_statement_data] *)
Definition get_income_statement_data (income_stmt : option DataFrame)
  : option IncomeStatementData :=
  match income_stmt with
  | None => None
  | Some income_stmt =>
    Some {|
      revenue := item income_stmt "Total Revenue";
      cost_of_revenue := item income_stmt "Cost Of Revenue";
      gross_profit := item income_stmt "Gross Profit";
      operating_expenses := item income_stmt "Operating Expense";
      operating_income := item income_stmt "Operating Income";
      ebit := item income_stmt "EBIT";
      interest_expense := item income_stmt "Interest Expense";
      pretax_income := item income_stmt "Pretax Income";
      tax_expense := item income_stmt "Tax Provision";
      net_income := item income_stmt "Net Income" |}
  end.

(** [FinancialDataScraper.get_cash_flow_data] *)
Definition get_cash_flow_data (cash_flow : option DataFrame)
  : option CashFlowData :=
  match cash_flow with
  | None => None
  | Some cash_flow =>
    Some {|
      operating_cash_flow := item cash_flow "Operating Cash Flow";
      depreciation := item cash_flow "Depreciation";
      capex := item cash_flow "Capital Expenditure";
      investing_cash_flow := item cash_flow "Investing Cash Flow";
      debt_repayment := item cash_flow "Repayment Of Debt";
      dividends_paid := item cash_flow "Cash Dividends Paid";
      financing_cash_flow := item cash_flow "Financing Cash Flow";
      free_cash_flow := item cash_flow "Free Cash Flow" |}
  end.

(** [ExcelReportGenerator.calculate_percentage_change] *)
Definition calculate_percentage_change (current previous : value) : value :=
  if value_eqb previous zero then zero
  else value_div (value_sub current previous) (value_abs previous).

(** [ExcelReportGenerator.format_currency] *)
Definition format_currency (v : value) : string :=
  "$" ++ format_comma_0f v.

Definition percent_format : string := "0.00%".

(** [[f(i) for i in range(3)]] *)
Definition for_range3 {A : Type} (f : nat → M A) : M (list A) :=
  x0 ← f 0%nat; x1 ← f 1%nat; x2 ← f 2%nat; mret [x0; x1; x2].

(** The working-capital list of [create_report]. *)
Definition working_capital (balance_sheet_data : BalanceSheetData)
  : M (list value) :=
  for_range3 (λ i,
    ca ← getitem (total_current_assets balance_sheet_data) i;
    cl ← getitem (total_current_liabilities balance_sheet_data) i;
    mret (value_sub ca cl)).

(** The [current_ratio] list of [create_report]. *)
Definition current_ratio (balance_sheet_data : BalanceSheetData)
  : M (list value) :=
  for_range3 (λ i,
    cl ← getitem (total_current_liabilities balance_sheet_data) i;
    if value_neqb cl zero then
      ca ← getitem (total_current_assets balance_sheet_data) i;
      cl ← getitem (total_current_liabilities balance_sheet_data) i;
      mret (value_div ca cl)
    else mret zero).

(** The [quick_assets] list of [create_report]. *)
Definition quick_assets (balance_sheet_data : BalanceSheetData)
  : M (list value) :=
  for_range3 (λ i,
    ca ← getitem (total_current_assets balance_sheet_data) i;
    inv ← getitem (inventory balance_sheet_data) i;
    mret (value_sub ca inv)).

(** The [quick_ratio] list of [create_report]. *)
Definition quick_ratio (balance_sheet_data : BalanceSheetData)
    (quick_assets : list value) : M (list value) :=
  for_range3 (λ i,
    cl ← getitem (total_current_liabilities balance_sheet_data) i;
    if value_neqb cl zero then
      qa ← getitem quick_assets i;
      cl ← getitem (total_current_liabilities balance_sheet_data) i;
      mret (value_div qa cl)
    else mret zero).

(** The [net_cash_flow] list of [create_report]. *)
Definition net_cash_flow (cash_flow_data : CashFlowData) : M (list value) :=
  for_range3 (λ i,
    op ← getitem (operating_cash_flow cash_flow_data) i;
    inv ← getitem (investing_cash_flow cash_flow_data) i;
    fin ← getitem (financing_cash_flow cash_flow_data) i;
    mret (value_add (value_add op inv) fin)).

(** The three value cells of a row: [F], [H], [J]. *)
Definition put_values (row : N) (values : list value) : M unit :=
  v0 ← getitem values 0;
  ws_set ("F", row) (VStr (format_currency v0));;
  v1 ← getitem values 1;
  ws_set ("H", row) (VStr (format_currency v1));;
  v2 ← getitem values 2;
  ws_set ("J", row) (VStr (format_currency v2)).

(** The two percentage cells of a row, [G] and [I], with their format. *)
Definition put_changes (row : N) (values : list value) : M unit :=
  v0 ← getitem values 0;
  v1 ← getitem values 1;
  ws_set ("G", row) (VNum (calculate_percentage_change v0 v1));;
  v1 ← getitem values 1;
  v2 ← getitem values 2;
  ws_set ("I", row) (VNum (calculate_percentage_change v1 v2));;
  ws_set_number_format ("G", row) percent_format;;
  ws_set_number_format ("I", row) percent_format.

(** A metric row laid out as [D], [F], [G], [I], [J]: Working Capital and
    Net Worth. *)
Definition put_metric (row : N) (label : string) (values : list value)
  : M unit :=
  ws_set ("C", row) (VStr label);;
  v0 ← getitem values 0;
  ws_set ("D", row) (VStr (format_currency v0));;
  v0 ← getitem values 0;
  v1 ← getitem values 1;
  ws_set ("F", row) (VNum (calculate_percentage_change v0 v1));;
  v1 ← getitem values 1;
  ws_set ("G", row) (VStr (format_currency v1));;
  v1 ← getitem values 1;
  v2 ← getitem values 2;
  ws_set ("I", row) (VNum (calculate_percentage_change v1 v2));;
  v2 ← getitem values 2;
  ws_set ("J", row) (VStr (format_currency v2));;
  ws_set_number_format ("F", row) percent_format;;
  ws_set_number_format ("I", row) percent_format.

(** A ratio row: the three values rounded to two places in [F], [H], [J]. *)
Definition put_ratio (row : N) (label : string) (ratio : list value)
  : M unit :=
  ws_set ("C", row) (VStr label);;
  r0 ← getitem ratio 0;
  ws_set ("F", row) (VNum (round2 r0));;
  r1 ← getitem ratio 1;
  ws_set ("H", row) (VNum (round2 r1));;
  r2 ← getitem ratio 2;
  ws_set ("J", row) (VNum (round2 r2)).

(** A cash-flow detail row: label in [D], values in [F], [H], [J]. *)
Definition put_detail (row : N) (label : string) (values : list value)
  : M unit :=
  ws_set ("D", row) (VStr label);;
  put_values row values.

(** [ExcelReportGenerator.create_report], on the sheet of a fresh
    workbook. *)
Definition create_report (balance_sheet_data : BalanceSheetData)
    (income_stmt_data : IncomeStatementData) (cash_flow_data : CashFlowData)
  : M unit :=
  let subheader_font := {| bold := true; size := 12 |} in
  let header_font := {| bold := true; size := 14 |} in
  ws_set ("B", 1%N) (VStr "FINANCIAL STATEMENTS");;
  ws_set_font ("B", 1%N) {| bold := true; size := 16 |};;
  ws_set ("B", 3%N) (VStr "Balance Sheet Data:");;
  ws_set_font ("B", 3%N) header_font;;
  ws_set ("C", 5%N) (VStr "In Thousands");;
  ws_set ("D", 5%N) (VNum (Num 1000));;
  let dates := dates balance_sheet_data in
  ws_set ("F", 5%N) (VStr "Q");;
  ws_set ("H", 5%N) (VStr "Q");;
  ws_set ("J", 5%N) (VStr "Q");;
  d0 ← getitem dates 0; ws_set ("F", 6%N) (VStr d0);;
  d1 ← getitem dates 1; ws_set ("H", 6%N) (VStr d1);;
  d2 ← getitem dates 2; ws_set ("J", 6%N) (VStr d2);;
  let row := 7%N in
  ws_set ("C", row) (VStr "Assets:");;
  ws_set_font ("C", row) subheader_font;;
  ws_set ("G", row) (VStr "Δ%");;
  ws_set ("I", row) (VStr "Δ%");;
  let asset_items :=
    [ ("Cash and Equivalents", cash_equivalents balance_sheet_data);
      ("Short-Term Investments", short_term_investments balance_sheet_data);
      ("Accounts Receivable", accounts_receivable balance_sheet_data);
      ("Inventory", inventory balance_sheet_data);
      ("Total Current Assets", total_current_assets balance_sheet_data);
      ("Property Plant and Equipment (PP&E)", ppe balance_sheet_data);
      ("Total Assets", total_assets balance_sheet_data) ] in
  let row := 8%N in
  row ← for_rows asset_items row (λ row '(item_name, values),
    ws_set ("D", row) (VStr item_name);;
    put_values row values;;
    if bool_decide (8 < row)%N then put_changes row values else mret tt);
  let row := (row + 1)%N in
  ws_set ("C", row) (VStr "Liabilities:");;
  ws_set_font ("C", row) subheader_font;;
  let row := (row + 1)%N in
  let liability_items :=
    [ ("Accounts Payable", accounts_payable balance_sheet_data);
      ("Short-Term Debt", short_term_debt balance_sheet_data);
      ("Total Current Liabilities", total_current_liabilities balance_sheet_data);
      ("Long-Term Debt", long_term_debt balance_sheet_data);
      ("Total Liabilities", total_liabilities balance_sheet_data) ] in
  row ← for_rows liability_items row (λ row '(item_name, values),
    ws_set ("D", row) (VStr item_name);;
    put_values row values;;
    put_changes row values);
  let row := (row + 1)%N in
  working_capital ← working_capital balance_sheet_data;
  put_metric row "Working Capital" working_capital;;
  let row := (row + 1)%N in
  put_metric row "Net Worth (OE)" (total_equity balance_sheet_data);;
  let row := (row + 1)%N in
  current_ratio ← current_ratio balance_sheet_data;
  put_ratio row "Current Ratio" current_ratio;;
  let row := (row + 1)%N in
  quick_assets ← quick_assets balance_sheet_data;
  quick_ratio ← quick_ratio balance_sheet_data quick_assets;
  put_ratio row "Quick Ratio" quick_ratio;;
  let row := (row + 1)%N in
  let row := (row + 3)%N in
  ws_set ("B", row) (VStr "Income Statement:");;
  ws_set_font ("B", row) header_font;;
  let row := (row + 2)%N in
  let income_items :=
    [ ("Revenue", revenue income_stmt_data);
      ("Cost of Revenue", cost_of_revenue income_stmt_data);
      ("Gross Profit", gross_profit income_stmt_data);
      ("Operating Expenses", operating_expenses income_stmt_data);
      ("Operating Income", operating_income income_stmt_data);
      ("EBIT", ebit income_stmt_data);
      ("Interest Expense", interest_expense income_stmt_data);
      ("Pretax Income", pretax_income income_stmt_data);
      ("Tax Expense", tax_expense income_stmt_data);
      ("Net Income", net_income income_stmt_data) ] in
  row ← for_rows income_items row (λ row '(item_name, values),
    ws_set ("D", row) (VStr item_name);;
    put_values row values;;
    if negb (String.eqb item_name "Revenue") then put_changes row values
    else mret tt);
  let row := (row + 3)%N in
  ws_set ("B", row) (VStr "Cash Flows:");;
  ws_set_font ("B", row) header_font;;
  let row := (row + 2)%N in
  ws_set ("C", row) (VStr "Cash Flows-Operating Activities:");;
  ws_set_font ("C", row) subheader_font;;
  let row := (row + 1)%N in
  put_detail row "Net Income" (net_income income_stmt_data);;
  let row := (row + 1)%N in
  put_detail row "Depreciation & Amortization" (depreciation cash_flow_data);;
  let row := (row + 1)%N in
  ws_set ("D", row) (VStr "Net Cash Flow-Operating");;
  (let values := operating_cash_flow cash_flow_data in
   v0 ← getitem values 0;
   ws_set ("F", row) (VStr (format_currency v0));;
   v0 ← getitem values 0;
   v1 ← getitem values 1;
   ws_set ("G", row) (VNum (calculate_percentage_change v0 v1));;
   v1 ← getitem values 1;
   ws_set ("H", row) (VStr (format_currency v1));;
   v1 ← getitem values 1;
   v2 ← getitem values 2;
   ws_set ("I", row) (VNum (calculate_percentage_change v1 v2));;
   v2 ← getitem values 2;
   ws_set ("J", row) (VStr (format_currency v2));;
   ws_set_number_format ("G", row) percent_format;;
   ws_set_number_format ("I", row) percent_format);;
  let row := (row + 2)%N in
  ws_set ("C", row) (VStr "Cash Flows-Investing Activities:");;
  ws_set_font ("C", row) subheader_font;;
  let row := (row + 1)%N in
  put_detail row "Capital Expenditures" (capex cash_flow_data);;
  let row := (row + 1)%N in
  put_detail row "Net Cash Flows-Investing"
    (investing_cash_flow cash_flow_data);;
  let row := (row + 2)%N in
  ws_set ("C", row) (VStr "Cash Flows-Financing Activities:");;
  ws_set_font ("C", row) subheader_font;;
  let row := (row + 1)%N in
  put_detail row "Debt Repayment" (debt_repayment cash_flow_data);;
  let row := (row + 1)%N in
  put_detail row "Net Cash Flows-Financing"
    (financing_cash_flow cash_flow_data);;
  let row := (row + 2)%N in
  net_cash_flow ← net_cash_flow cash_flow_data;
  put_detail row "Net Cash Flow" net_cash_flow;;
  ws_set_width "A" 2;;
  ws_set_width "B" 4;;
  ws_set_width "C" 30;;
  ws_set_width "D" 35;;
  ws_set_width "E" 2;;
  ws_set_width "F" 18;;
  ws_set_width "G" 12;;
  ws_set_width "H" 18;;
  ws_set_width "I" 12;;
  ws_set_width "J" 18.

(** [FinancialReportAutomation.generate_report], given what the three
    attributes of the ticker delivered ([None] when the access fails, as
    for the [get_..._data] functions above).  The sheet is the one of the
    workbook [ExcelReportGenerator.__init__] creates and names; nothing
    catches an exception of [create_report].  Saving the workbook and the
    log are not part of the model. *)
Definition generate_report
    (balance_sheet income_stmt cash_flow : option DataFrame) : M bool :=
  let balance_sheet_data := get_balance_sheet_data balance_sheet in
  let income_stmt_data := get_income_statement_data income_stmt in
  let cash_flow_data := get_cash_flow_data cash_flow in
  match balance_sheet_data, income_stmt_data, cash_flow_data with
  | Some balance_sheet_data, Some income_stmt_data, Some cash_flow_data =>
      ws_set_title "Sheet1";;
      create_report balance_sheet_data income_stmt_data cash_flow_data;;
      mret true
  | _, _, _ => mret false
  end.

End financial_report_generator.

(** ** Vocabulary of the statements *)

(** A decimal digit. *)
Definition is_digit (c : ascii) : Prop :=
  c ∈ ["0"; "1"; "2"; "3"; "4"; "5"; "6"; "7"; "8"; "9"]%char.

(** Two outcomes of the same kind: the same exception, or results related
    by [Ra]. *)
Definition lift_rel {A B : Type} (Ra : A → B → Prop)
    (r1 : exception + A) (r2 : exception + B) : Prop :=
  match r1, r2 with
  | inr a, inr b => Ra a b
  | inl e1, inl e2 => e1 = e2
  | _, _ => False
  end.

(** Two computations that take worksheets related by [Rs] to worksheets
    related by [Rs], with outcomes of the same kind. *)
Definition related (Rs : Worksheet → Worksheet → Prop) {A B : Type}
    (Ra : A → B → Prop) (m1 : M A) (m2 : M B) : Prop :=
  ∀ ws1 ws2, Rs ws1 ws2 →
    Rs (exec m1 ws1) (exec m2 ws2)
    ∧ lift_rel Ra (outcome m1 ws1) (outcome m2 ws2).

(** A computation that leaves the cell at [a] as it found it. *)
Definition preserves (a : string * N) {A : Type} (m : M A) : Prop :=
  ∀ ws, cells (exec m ws) !! a = cells ws !! a.

(** The cells that hold a fiscal-year label. *)
Definition fiscal_year_cells : list (string * N) :=
  [ ("K", 5%N); ("M", 5%N); ("O", 5%N);
    ("K", 32%N); ("M", 32%N); ("O", 32%N);
    ("K", 57%N); ("M", 57%N); ("O", 57%N) ].

(** Two worksheets that agree on everything but the cells listed in [S]. *)
Definition agree_off (S : list (string * N)) (ws1 ws2 : Worksheet) : Prop :=
  title ws1 = title ws2
  ∧ merged_cells ws1 = merged_cells ws2
  ∧ column_widths ws1 = column_widths ws2
  ∧ ∀ a, a ∉ S → cells ws1 !! a = cells ws2 !! a.

(** A computation that never raises. *)
Definition succeeds {A : Type} (m : M A) : Prop :=
  ∀ ws, ∃ a, outcome m ws = inr a.

(** Two worksheets with the same set of cells. *)
Definition same_cells (ws1 ws2 : Worksheet) : Prop :=
  dom (cells ws1) = dom (cells ws2).

(** The rows whose zero entries decide whether a ratio or margin cell is
    written. *)
Definition is_denominator (name : string) : bool :=
  bool_decide (name = "Total Current Liabilities" ∨ name = "Total Revenue").

(** Both entries are zero, or neither is. *)
Definition same_zero (a b : value) : bool :=
  Bool.eqb (value_eqb a zero) (value_eqb b zero).

(** The same number of periods, and, when [check_zeros] is set, zeros in
    the same places. *)
Fixpoint same_periods (check_zeros : bool) (l1 l2 : list value) : bool :=
  match l1, l2 with
  | [], [] => true
  | a :: l1, b :: l2 =>
      (negb check_zeros || same_zero a b) && same_periods check_zeros l1 l2
  | _, _ => false
  end.

Definition same_shape_row (name : string) (l1 l2 : list value) : bool :=
  same_periods (is_denominator name) (first3 l1) (first3 l2).

(** Two tables of the same shape: three dated columns in both or in
    neither, the same line items, and for every line item the same number
    of leading periods (up to three), with zeros in the same places in the
    denominator rows.  The values are otherwise free, missing or not. *)
Definition same_shape_table (d1 d2 : DataFrame) : bool :=
  Bool.eqb (bool_decide (3 ≤ length (columns d1))%nat)
           (bool_decide (3 ≤ length (columns d2))%nat)
  && bool_decide (dom (rows d1) = dom (rows d2))
  && forallb (λ '(name, l1),
       match rows d2 !! name with
       | Some l2 => same_shape_row name l1 l2
       | None => false
       end) (map_to_list (rows d1)).

Definition same_shape_option (t1 t2 : option DataFrame) : bool :=
  match t1, t2 with
  | None, None => true
  | Some d1, Some d2 => same_shape_table d1 d2
  | _, _ => false
  end.

Definition same_shape
    (g1 g2 : Colab_Q_A_fin_re.TeslaFinancialReportGenerator) : bool :=
  same_shape_option (Colab_Q_A_fin_re.quarterly_balance_sheet g1)
                    (Colab_Q_A_fin_re.quarterly_balance_sheet g2)
  && same_shape_option (Colab_Q_A_fin_re.annual_balance_sheet g1)
                       (Colab_Q_A_fin_re.annual_balance_sheet g2)
  && same_shape_option (Colab_Q_A_fin_re.quarterly_income g1)
                       (Colab_Q_A_fin_re.quarterly_income g2)
  && same_shape_option (Colab_Q_A_fin_re.annual_income g1)
                       (Colab_Q_A_fin_re.annual_income g2)
  && same_shape_option (Colab_Q_A_fin_re.quarterly_cashflow g1)
                       (Colab_Q_A_fin_re.quarterly_cashflow g2)
  && same_shape_option (Colab_Q_A_fin_re.annual_cashflow g1)
                       (Colab_Q_A_fin_re.annual_cashflow g2).

(** The relation between the entries of two rows named [name] of tables
    of the same shape. *)
Definition period_rel (name : string) (a b : value) : Prop :=
  is_denominator name = true → same_zero a b = true.

(** Pairs related componentwise. *)
Definition pair_rel {A A' B B' : Type} (R1 : A → A' → Prop)
    (R2 : B → B' → Prop) (p : A * B) (q : A' * B') : Prop :=
  R1 p.1 q.1 ∧ R2 p.2 q.2.

(** The leading periods of a line item, or three zeros when the table does
    not have it: what [loc_or_zeros] returns. *)
Definition leading_or_zeros (df : DataFrame) (name : string) : list value :=
  match rows df !! name with
  | Some l => first3 l
  | None => [zero; zero; zero]
  end.

(** Whatever the worksheet it starts on, the computation ends with the
    value [v] in the cell at [a]. *)
Definition ends_with (a : string * N) (v : cell_value) {A : Type} (m : M A)
  : Prop :=
  ∀ ws, c_value <$> cells (exec m ws) !! a = Some v.

(** The fiscal-year cells with the number of years each label looks
    back. *)
Definition fiscal_year_labels : list (string * N * Z) :=
  [ ("K", 5%N, 1%Z); ("M", 5%N, 2%Z); ("O", 5%N, 3%Z);
    ("K", 32%N, 1%Z); ("M", 32%N, 2%Z); ("O", 32%N, 3%Z);
    ("K", 57%N, 1%Z); ("M", 57%N, 2%Z); ("O", 57%N, 3%Z) ].

(** The columns the report writes, apart from the header in [J7]. *)
Definition report_columns : list string :=
  [ "A"; "B"; "C"; "E"; "F"; "G"; "H"; "I"; "K"; "L"; "M"; "N"; "O" ].

(** The rows the report writes: the title and headers, the balance-sheet
    rows, the income rows and the cash-flow rows. *)
Definition report_row (row : N) : Prop :=
  (row = 1 ∨ row = 3 ∨ 5 ≤ row ≤ 14 ∨ 16 ≤ row ≤ 23 ∨ 25 ≤ row ≤ 26
   ∨ 31 ≤ row ≤ 32 ∨ 35 ≤ row ≤ 51 ∨ 56 ≤ row ≤ 57 ∨ 62 ≤ row ≤ 68
   ∨ 70 ≤ row ≤ 75 ∨ 77 ≤ row ≤ 82 ∨ row = 84)%N.

#[global] Instance report_row_dec (row : N) : Decision (report_row row).
Proof. unfold report_row. apply _. Defined.

(** Two worksheets with the same title, merged ranges and column widths,
    and the same cell at every address that satisfies [P]. *)
Definition alike (P : string * N → Prop) (ws1 ws2 : Worksheet) : Prop :=
  title ws1 = title ws2
  ∧ merged_cells ws1 = merged_cells ws2
  ∧ column_widths ws1 = column_widths ws2
  ∧ ∀ a, P a → cells ws1 !! a = cells ws2 !! a.

(** A computation that leaves the title, the merged ranges and the column
    widths as they are. *)
Definition keeps_frame {A : Type} (m : M A) : Prop :=
  ∀ ws, title (exec m ws) = title ws
        ∧ merged_cells (exec m ws) = merged_cells ws
        ∧ column_widths (exec m ws) = column_widths ws.

(** The cells that show entries of the statement tables: the value and
    delta columns, in the row of the dates and in the rows of the line
    items and derived metrics. *)
Definition data_columns : list string :=
  [ "E"; "F"; "G"; "H"; "I"; "K"; "L"; "M"; "N"; "O" ].

Definition data_row (row : N) : Prop :=
  (row = 6 ∨ 8 ≤ row ≤ 14 ∨ 17 ≤ row ≤ 23 ∨ 25 ≤ row ≤ 26 ∨ 35 ≤ row ≤ 51
   ∨ 63 ≤ row ≤ 68 ∨ 71 ≤ row ≤ 75 ∨ 78 ≤ row ≤ 82 ∨ row = 84)%N.

Definition data_area (a : string * N) : Prop :=
  a.1 ∈ data_columns ∧ data_row a.2.

(** The three most recent periods of a table: its leading three dates and
    the leading three entries of every line item. *)
Definition leading3 (df : DataFrame) : DataFrame :=
  {| columns := first3 (columns df); rows := first3 <$> rows df |}.

Definition leading_periods
    (g : Colab_Q_A_fin_re.TeslaFinancialReportGenerator)
  : Colab_Q_A_fin_re.TeslaFinancialReportGenerator :=
  Colab_Q_A_fin_re.mkGenerator
    (leading3 <$> Colab_Q_A_fin_re.quarterly_balance_sheet g)
    (leading3 <$> Colab_Q_A_fin_re.annual_balance_sheet g)
    (leading3 <$> Colab_Q_A_fin_re.quarterly_income g)
    (leading3 <$> Colab_Q_A_fin_re.annual_income g)
    (leading3 <$> Colab_Q_A_fin_re.quarterly_cashflow g)
    (leading3 <$> Colab_Q_A_fin_re.annual_cashflow g).

(** Two worksheets with the same cell at [a]. *)
Definition same_at (a : string * N) (ws1 ws2 : Worksheet) : Prop :=
  cells ws1 !! a = cells ws2 !! a.

(** The cell at [a] after [m] is the cell at [a] after [b] alone. *)
Definition placed (a : string * N) {A B : Type} (b : M B) (m : M A) : Prop :=
  ∀ ws, cells (exec m ws) !! a = cells (exec b ws) !! a.

(** The cells of the row of a line item are placed by [m]: the label by
    its assignment, the cells of the quarterly data by
    [_add_quarterly_data] and those of the annual data by
    [_add_annual_data]. *)
Definition item_placed {A : Type} (m : M A) (label_col : string) (row : N)
    (name : string) (field : option string) (tq ta : option DataFrame)
  : Prop :=
  placed (label_col, row) (ws_set (label_col, row) (VStr name)) m
  ∧ ∀ f, field = Some f →
      (∀ c, c ∈ ["E"; "F"; "G"; "H"; "I"] →
         placed (c, row)
           (Colab_Q_A_fin_re._add_quarterly_data row tq f
              "E" "F" "G" "H" "I" "J") m)
      ∧ (∀ c, c ∈ ["K"; "L"; "M"; "N"; "O"] →
         placed (c, row)
           (Colab_Q_A_fin_re._add_annual_data row ta f
              "K" "L" "M" "N" "O") m).

(** A list of line items of the report: the column of the labels, the row
    of the first item, the items with their field names, and the quarterly
    and the annual table they are read from. *)
Record item_list : Type := mkItemList
  { label_column : string;
    first_row : N;
    items : list (string * option string);
    quarterly : option DataFrame;
    annual : option DataFrame }.

Definition line_item_lists
    (self : Colab_Q_A_fin_re.TeslaFinancialReportGenerator)
  : list item_list :=
  let qb := Colab_Q_A_fin_re.quarterly_balance_sheet self in
  let ab := Colab_Q_A_fin_re.annual_balance_sheet self in
  let qi := Colab_Q_A_fin_re.quarterly_income self in
  let ai := Colab_Q_A_fin_re.annual_income self in
  let qc := Colab_Q_A_fin_re.quarterly_cashflow self in
  let ac := Colab_Q_A_fin_re.annual_cashflow self in
  [ mkItemList "C" 8 Colab_Q_A_fin_re.balance_sheet_items qb ab;
    mkItemList "C" 17 Colab_Q_A_fin_re.liability_items qb ab;
    mkItemList "C" 35 Colab_Q_A_fin_re.income_items qi ai;
    mkItemList "C" 63 Colab_Q_A_fin_re.operating_items qc ac;
    mkItemList "B" 68
      [("Net Cash Flow-Operating", Some "Operating Cash Flow")] qc ac;
    mkItemList "C" 71 Colab_Q_A_fin_re.investing_items qc ac;
    mkItemList "B" 75
      [("Net Cash Flows-Investing", Some "Investing Cash Flow")] qc ac;
    mkItemList "C" 78 Colab_Q_A_fin_re.financing_items qc ac;
    mkItemList "B" 82
      [("Net Cash Flows-Financing", Some "Financing Cash Flow")] qc ac ].

(** The rows of the derived metrics: the row, the cell and text of the
    label, and the function that fills the row. *)
Definition derived_rows
    (self : Colab_Q_A_fin_re.TeslaFinancialReportGenerator)
  : list (N * (string * string) * M unit) :=
  [ (14%N, ("C", "Working Capital"),
     Colab_Q_A_fin_re._calculate_working_capital self 14);
    (25%N, ("A", "Current Ratio"),
     Colab_Q_A_fin_re._calculate_current_ratio self 25);
    (26%N, ("A", "Quick Ratio"),
     Colab_Q_A_fin_re._calculate_quick_ratio self 26);
    (51%N, ("C", "Gross Margin"),
     Colab_Q_A_fin_re._calculate_gross_margin self 51);
    (84%N, ("B", "Net Cash Flow"),
     Colab_Q_A_fin_re._calculate_net_cash_flow self 84) ].

(** The cells of a line item with three leading periods: value, delta,
    value, delta, value. *)
Definition line_item_cells (v0 v1 v2 : value) : list cell_value :=
  [ VStr (Colab_Q_A_fin_re._format_currency v0);
    VNum (Colab_Q_A_fin_re._calculate_pct_change v0 v1);
    VStr (Colab_Q_A_fin_re._format_currency v1);
    VNum (Colab_Q_A_fin_re._calculate_pct_change v1 v2);
    VStr (Colab_Q_A_fin_re._format_currency v2) ].

(** The table is absent, or it has no row for one of the names. *)
Definition lacks (t : option DataFrame) (names : list string) : Prop :=
  t = None ∨ ∃ df name, t = Some df ∧ name ∈ names ∧ rows df !! name = None.

(** The lists of values [create_report] shows: all of the balance-sheet
    and income data, and six of the eight cash-flow lists. *)
Definition shown_lists (b : financial_report_generator.BalanceSheetData)
    (i : financial_report_generator.IncomeStatementData)
    (c : financial_report_generator.CashFlowData) : list (list value) :=
  [ financial_report_generator.cash_equivalents b;
    financial_report_generator.short_term_investments b;
    financial_report_generator.accounts_receivable b;
    financial_report_generator.inventory b;
    financial_report_generator.total_current_assets b;
    financial_report_generator.ppe b;
    financial_report_generator.total_assets b;
    financial_report_generator.accounts_payable b;
    financial_report_generator.short_term_debt b;
    financial_report_generator.total_current_liabilities b;
    financial_report_generator.long_term_debt b;
    financial_report_generator.total_liabilities b;
    financial_report_generator.total_equity b;
    financial_report_generator.revenue i;
    financial_report_generator.cost_of_revenue i;
    financial_report_generator.gross_profit i;
    financial_report_generator.operating_expenses i;
    financial_report_generator.operating_income i;
    financial_report_generator.ebit i;
    financial_report_generator.interest_expense i;
    financial_report_generator.pretax_income i;
    financial_report_generator.tax_expense i;
    financial_report_generator.net_income i;
    financial_report_generator.operating_cash_flow c;
    financial_report_generator.depreciation c;
    financial_report_generator.capex c;
    financial_report_generator.investing_cash_flow c;
    financial_report_generator.debt_repayment c;
    financial_report_generator.financing_cash_flow c ].

(** A computation that succeeds only when [P] holds. *)
Definition needs (P : Prop) {A : Type} (m : M A) : Prop :=
  ∀ ws x, outcome m ws = inr x → P.

(** A computation that can raise nothing but [IndexError]. *)
Definition index_error_only {A : Type} (m : M A) : Prop :=
  ∀ ws, (∃ x, outcome m ws = inr x) ∨ outcome m ws = inl IndexError.

(** Every line item of a table has one entry per dated column. *)
Definition well_formed (df : DataFrame) : Prop :=
  map_Forall (λ _ l, length l = length (columns df)) (rows df).

(** ** Sample inputs *)

Definition sample_dates : list Timestamp :=
  [ mkTimestamp 2025 6 30; mkTimestamp 2025 3 31; mkTimestamp 2024 12 31;
    mkTimestamp 2024 9 30 ].

Definition sample_balance_sheet : DataFrame :=
  {| columns := sample_dates;
     rows := list_to_map
       [ ("Total Assets", [Num 1000; Num 900; Num 800; Num 700]);
         ("Inventory", [Num 10; Num 10; Num 20; Num 5]);
         ("Total Current Assets", [Num 100; Num 90; Num 80; Num 70]);
         ("Total Current Liabilities", [Num 50; Num 45; Num 40; Num 35]) ] |}.

Definition sample_income : DataFrame :=
  {| columns := sample_dates;
     rows := list_to_map
       [ ("Total Revenue", [Num 0; Num 100; Num 100; Num 100]);
         ("Gross Profit", [Num 0; Num 40; Num 50; Num 50]) ] |}.

Definition sample_cashflow : DataFrame :=
  {| columns := sample_dates;
     rows := list_to_map
       [ ("Operating Cash Flow", [NaN; Num 50; Num 60; Num 70]);
         ("Investing Cash Flow",
            [Num (-10); Num (-10); Num (-10); Num (-10)]);
         ("Financing Cash Flow", [Num 5; Num 5; Num 5; Num 5]) ] |}.

Definition sample : Colab_Q_A_fin_re.TeslaFinancialReportGenerator :=
  Colab_Q_A_fin_re.mkGenerator
    (Some sample_balance_sheet) (Some sample_balance_sheet)
    (Some sample_income) (Some sample_income)
    (Some sample_cashflow) (Some sample_cashflow).

(** The sample with other figures in the fourth, oldest period. *)
Definition sample_restated : Colab_Q_A_fin_re.TeslaFinancialReportGenerator :=
  Colab_Q_A_fin_re.mkGenerator
    (Some {| columns :=
               [ mkTimestamp 2025 6 30; mkTimestamp 2025 3 31;
                 mkTimestamp 2024 12 31; mkTimestamp 2024 6 30 ];
             rows := list_to_map
               [ ("Total Assets", [Num 1000; Num 900; Num 800; Num 1]);
                 ("Inventory", [Num 10; Num 10; Num 20; NaN]);
                 ("Total Current Assets", [Num 100; Num 90; Num 80; Num 2]);
                 ("Total Current Liabilities",
                    [Num 50; Num 45; Num 40; Num 0]) ] |})
    (Some sample_balance_sheet)
    (Some sample_income) (Some sample_income)
    (Some sample_cashflow) (Some sample_cashflow).

(** The sample with more data missing: entries replaced by [NaN]. *)
Definition sample_with_gaps : Colab_Q_A_fin_re.TeslaFinancialReportGenerator :=
  Colab_Q_A_fin_re.mkGenerator
    (Some {| columns := sample_dates;
             rows := list_to_map
               [ ("Total Assets", [NaN; Num 900; NaN; Num 700]);
                 ("Inventory", [NaN; NaN; NaN; NaN]);
                 ("Total Current Assets", [Num 100; NaN; Num 80; Num 70]);
                 ("Total Current Liabilities",
                    [Num 50; Num 45; NaN; Num 35]) ] |})
    (Some sample_balance_sheet)
    (Some sample_income) (Some sample_income)
    (Some {| columns := sample_dates;
             rows := list_to_map
               [ ("Operating Cash Flow", [NaN; NaN; NaN; NaN]);
                 ("Investing Cash Flow",
                    [Num (-10); NaN; Num (-10); NaN]);
                 ("Financing Cash Flow", [NaN; Num 5; Num 5; Num 5]) ] |})
    (Some sample_cashflow).

(** The sample balance sheet without its inventory line. *)
Definition balance_sheet_without_inventory : DataFrame :=
  {| columns := sample_dates;
     rows := delete "Inventory" (rows sample_balance_sheet) |}.

(** The sample whose quarterly balance sheet has no inventory line. *)
Definition sample_without_inventory
  : Colab_Q_A_fin_re.TeslaFinancialReportGenerator :=
  Colab_Q_A_fin_re.mkGenerator
    (Some balance_sheet_without_inventory)
    (Some sample_balance_sheet)
    (Some sample_income) (Some sample_income)
    (Some sample_cashflow) (Some sample_cashflow).

(** A balance sheet with the lines [Current Assets] and
    [Current Liabilities], and without the lines [Total Current Assets],
    [Total Current Liabilities] and [Inventory]. *)
Definition balance_sheet_current_lines : DataFrame :=
  {| columns := sample_dates;
     rows := list_to_map
       [ ("Total Assets", [Num 1000; Num 900; Num 800; Num 700]);
         ("Current Assets", [Num 100; Num 90; Num 80; Num 70]);
         ("Current Liabilities", [Num 50; Num 45; Num 40; Num 35]) ] |}.

(** A line item whose two deltas sit on either side of the format
    threshold: 9.9999 and 10. *)
Definition threshold_table : DataFrame :=
  {| columns := sample_dates;
     rows := list_to_map
       [ ("Total Assets",
            [Num (1209989 # 10); Num 11000; Num 1000; Num 1000]) ] |}.

(** A balance sheet with two periods only. *)
Definition short_balance_sheet : DataFrame :=
  {| columns := [mkTimestamp 2025 6 30; mkTimestamp 2025 3 31];
     rows := list_to_map
       [ ("Total Assets", [Num 1000; Num 900]);
         ("Total Current Assets", [Num 100; Num 90]);
         ("Total Current Liabilities", [Num 50; Num 45]) ] |}.

(** A balance sheet whose current liabilities are zero in the latest
    period and missing in the one before. *)
Definition zero_liabilities_balance_sheet : DataFrame :=
  {| columns := sample_dates;
     rows := list_to_map
       [ ("Total Assets", [Num 1000; Num 900; Num 800; Num 700]);
         ("Inventory", [Num 10; Num 10; Num 20; Num 5]);
         ("Total Current Assets", [Num 100; Num 90; Num 80; Num 70]);
         ("Total Current Liabilities", [Num 0; NaN; Num 40; Num 35]) ] |}.

(** Dictionaries of the older script, as its scraper builds them from
    tables of three periods. *)
Definition sample_balance_sheet_data
  : financial_report_generator.BalanceSheetData :=
  let zeros := [zero; zero; zero] in
  financial_report_generator.mkBalanceSheetData
    ["06/30/2025"; "03/31/2025"; "12/31/2024"]
    zeros zeros zeros [Num 10; Num 10; Num 20]
    [Num 100; Num 90; Num 80] zeros [Num 1000; Num 900; Num 800]
    zeros zeros [Num 50; Num 45; Num 40] zeros zeros zeros.

Definition sample_income_data
  : financial_report_generator.IncomeStatementData :=
  let zeros := [zero; zero; zero] in
  financial_report_generator.mkIncomeStatementData
    [Num 0; Num 100; Num 100] zeros [Num 0; Num 40; Num 50]
    zeros zeros zeros zeros zeros zeros zeros.

Definition sample_cash_flow_data
  : financial_report_generator.CashFlowData :=
  let zeros := [zero; zero; zero] in
  financial_report_generator.mkCashFlowData
    [NaN; Num 50; Num 60] zeros zeros [Num (-10); Num (-10); Num (-10)]
    zeros zeros [Num 5; Num 5; Num 5] zeros.

(** The same cash flows with other dividends and no free cash flow. *)
Definition sample_cash_flow_data_with_dividends
  : financial_report_generator.CashFlowData :=
  let zeros := [zero; zero; zero] in
  financial_report_generator.mkCashFlowData
    [NaN; Num 50; Num 60] zeros zeros [Num (-10); Num (-10); Num (-10)]
    zeros [Num (-3); Num (-3); NaN] [Num 5; Num 5; Num 5] [].

(** * Properties *)

Import Colab_Q_A_fin_re financial_report_generator.

(** ** The sample inputs *)

Example samples_well_formed :
  Forall well_formed
    [ sample_balance_sheet; sample_income; sample_cashflow;
      balance_sheet_without_inventory; threshold_table;
      short_balance_sheet; zero_liabilities_balance_sheet ].
Proof.
  repeat constructor; apply map_Forall_to_list; compute_done.
Qed.

(** ** Numbers *)

Section Numbers.

Local Open Scope Q_scope.

Implicit Types (x y c p q : Q) (v : value).

Lemma Qeq_bool_false x y : Qeq_bool x y = false ↔ ¬ x == y.
Proof.
  split.
  - apply Qeq_bool_neq.
  - intros H. destruct (Qeq_bool x y) eqn:E; [|reflexivity].
    apply Qeq_bool_iff in E. contradiction.
Qed.

Lemma value_eqb_zero v :
  value_eqb v zero = true ↔ ∃ q, v = Num q ∧ q == 0.
Proof.
  destruct v as [|q]; simpl.
  - split; [discriminate | intros (q & ? & _); discriminate].
  - rewrite Qeq_bool_iff. split.
    + intros H. exists q. auto.
    + intros (q' & [= <-] & H). exact H.
Qed.

Lemma Qabs_zero_iff p : Qabs p == 0 ↔ p == 0.
Proof.
  split; intros H.
  - destruct (Qlt_le_dec p 0) as [Hn|Hp].
    + rewrite Qabs_neg in H by lra. lra.
    + rewrite Qabs_pos in H by lra. exact H.
  - rewrite H. reflexivity.
Qed.

Lemma Qabs_pos_lt p : ¬ p == 0 → 0 < Qabs p.
Proof.
  intros H. destruct (Qlt_le_dec 0 (Qabs p)) as [|Hle]; [assumption|].
  exfalso. apply H, Qabs_zero_iff.
  apply Qle_antisym; [exact Hle | apply Qabs_nonneg].
Qed.

Lemma Qltb_lt x y : Qltb x y = true ↔ x < y.
Proof.
  unfold Qltb. rewrite negb_true_iff. split.
  - intros H. apply Qnot_le_lt. intros Hle.
    apply Qle_bool_iff in Hle. congruence.
  - intros H. destruct (Qle_bool y x) eqn:E; [|reflexivity].
    apply Qle_bool_iff in E. exfalso. exact (Qlt_not_le _ _ H E).
Qed.

Lemma Qdiv_pos_iff c p : 0 < p → (0 < c / p ↔ 0 < c).
Proof.
  intros Hp. split; intros H.
  - assert (E : c == (c / p) * p) by (field; lra).
    rewrite E. nra.
  - apply Qlt_shift_div_l; lra.
Qed.

Lemma Qdiv_neg_iff c p : 0 < p → (c / p < 0 ↔ c < 0).
Proof.
  intros Hp. split; intros H.
  - assert (E : c == (c / p) * p) by (field; lra).
    rewrite E. nra.
  - apply Qlt_shift_div_r; lra.
Qed.

(** The percentage change of two numbers with a non-zero base. *)
Lemma pct_change_Num c p :
  ¬ p == 0 →
  _calculate_pct_change (Num c) (Num p) = Num ((c - p) / Qabs p).
Proof.
  intros Hp. unfold _calculate_pct_change. simpl.
  assert (E1 : Qeq_bool p 0 = false) by (by apply Qeq_bool_false).
  assert (E2 : Qeq_bool (Qabs p) 0 = false).
  { apply Qeq_bool_false. by rewrite Qabs_zero_iff. }
  by rewrite E1, E2.
Qed.

Lemma pct_change_zero_base v q :
  q == 0 → _calculate_pct_change v (Num q) = zero.
Proof.
  intros Hq. unfold _calculate_pct_change. simpl.
  by rewrite (Qeq_eq_bool _ _ Hq).
Qed.

(** The two scripts compute the change by the same expression. *)
Lemma calculate_percentage_change_eq (current previous : value) :
  calculate_percentage_change current previous
  = _calculate_pct_change current previous.
Proof. reflexivity. Qed.

End Numbers.

(** ** The delta engine *)

Section Delta.

Local Open Scope Q_scope.

(** C1 (as stated, refuted).  With a missing current value and a base of
    exactly zero the change is the number 0, not missing: the zero test on
    the base comes first. *)
Lemma pct_change_missing_current_zero_base :
  ¬ (isna (_calculate_pct_change NaN (Num 0)) = true
     ↔ isna NaN = true ∨ isna (Num 0) = true).
Proof.
  intros [_ H]. specialize (H (or_introl eq_refl)). discriminate H.
Qed.

(** C1 (as amended).  Both scripts compute the same change; it is exactly 0
    when the base is zero, whatever the current value;
    [(current - previous) / abs(previous)] for two numbers with a non-zero
    base; and it is missing exactly when the base is missing, or the current
    value is missing and the base is not zero. *)
Theorem pct_change_spec (current previous : value) :
  calculate_percentage_change current previous
    = _calculate_pct_change current previous
  ∧ (∀ p, previous = Num p → p == 0 →
       _calculate_pct_change current previous = zero)
  ∧ (∀ c p, current = Num c → previous = Num p → ¬ p == 0 →
       _calculate_pct_change current previous = Num ((c - p) / Qabs p))
  ∧ (isna (_calculate_pct_change current previous) = true
     ↔ isna previous = true
       ∨ (isna current = true ∧ value_eqb previous zero = false)).
Proof.
  split; [reflexivity|]. split; [|split].
  - intros p -> Hp. by apply pct_change_zero_base.
  - intros c p -> -> Hp. by apply pct_change_Num.
  - destruct previous as [|p].
    + destruct current; simpl; split; auto.
    + destruct (Qeq_bool p 0) eqn:E.
      * apply Qeq_bool_iff in E as Hp.
        rewrite (pct_change_zero_base _ _ Hp). simpl. rewrite E.
        split; [discriminate|]. intros [H|[_ H]]; discriminate H.
      * apply Qeq_bool_false in E as Hp. destruct current as [|c].
        -- unfold _calculate_pct_change. simpl. rewrite E. simpl.
           split; auto.
        -- rewrite (pct_change_Num _ _ Hp). simpl. rewrite E.
           split; [discriminate|]. intros [H|[H _]]; discriminate H.
Qed.

Lemma pct_change_spec_witness :
  _calculate_pct_change (Num 42) (Num 0) = zero
  ∧ _calculate_pct_change (Num 100) (Num 90) = Num ((100 - 90) / Qabs 90).
Proof.
  split.
  - apply (proj1 (proj2 (pct_change_spec (Num 42) (Num 0))) 0);
      reflexivity.
  - apply (proj1 (proj2 (proj2 (pct_change_spec (Num 100) (Num 90)))) 100 90);
      [reflexivity | reflexivity | discriminate].
Defined.

(** C9.  A value that did not change has a change of zero, also when the
    value itself is zero. *)
Theorem pct_change_unchanged (x : Q) :
  same_value (_calculate_pct_change (Num x) (Num x)) zero.
Proof.
  destruct (Qeq_bool x 0) eqn:E.
  - apply Qeq_bool_iff in E. rewrite (pct_change_zero_base _ _ E).
    simpl. reflexivity.
  - apply Qeq_bool_false in E. rewrite (pct_change_Num _ _ E). simpl.
    pose proof (Qabs_pos_lt _ E). field. lra.
Qed.

(** C10.  With a non-zero base the change has the sign of
    [current - previous], in both scripts, also for a negative base. *)
Theorem pct_change_sign (current previous : Q) :
  ¬ previous == 0 →
  ∃ r, _calculate_pct_change (Num current) (Num previous) = Num r
     ∧ calculate_percentage_change (Num current) (Num previous) = Num r
     ∧ (0 < r ↔ previous < current)
     ∧ (r < 0 ↔ current < previous).
Proof.
  intros Hp. exists ((current - previous) / Qabs previous).
  pose proof (Qabs_pos_lt _ Hp) as Habs.
  split; [by apply pct_change_Num|].
  split; [rewrite calculate_percentage_change_eq; by apply pct_change_Num|].
  split.
  - rewrite (Qdiv_pos_iff _ _ Habs). split; intros; lra.
  - rewrite (Qdiv_neg_iff _ _ Habs). split; intros; lra.
Qed.

Lemma pct_change_sign_witness :
  ∃ r, _calculate_pct_change (Num 5) (Num (-10)) = Num r
     ∧ calculate_percentage_change (Num 5) (Num (-10)) = Num r
     ∧ (0 < r ↔ -10 < 5)
     ∧ (r < 0 ↔ 5 < -10).
Proof. apply (pct_change_sign 5 (-10)). discriminate. Defined.

End Delta.

(** ** Thousands separators *)

Section Thousands.

Implicit Types (l : list ascii) (n : N).

Lemma is_digit_not_comma c : is_digit c → c ≠ comma.
Proof.
  unfold is_digit. intros H ->. revert H. unfold comma.
  rewrite !elem_of_cons, elem_of_nil. intros H.
  repeat (destruct H as [H|H]; [discriminate H|]). exact H.
Qed.

Lemma pretty_N_char_digit n : is_digit (pretty_N_char n).
Proof.
  unfold is_digit, pretty_N_char.
  repeat case_match; rewrite !elem_of_cons;
    repeat ((left; reflexivity) || right).
Qed.

Lemma pretty_N_go_digits n (s : string) :
  Forall is_digit (list_ascii_of_string s) →
  Forall is_digit (list_ascii_of_string (pretty_N_go n s)).
Proof.
  revert s. induction (N.lt_wf_0 n) as [n _ IH]. intros s Hs.
  destruct (decide (n = 0)%N) as [->|Hn].
  - by rewrite pretty_N_go_0.
  - rewrite pretty_N_go_step by lia. apply IH.
    + apply N.div_lt; lia.
    + simpl. constructor; [apply pretty_N_char_digit | exact Hs].
Qed.

Lemma digits_are_digits n : Forall is_digit (digits n).
Proof.
  unfold digits, pretty, pretty_N. case_decide.
  - simpl. repeat constructor.
  - apply pretty_N_go_digits. constructor.
Qed.

(** Induction in steps of three, following [group3]. *)
Lemma group3_ind (P : list ascii → Prop) :
  P [] → (∀ a, P [a]) → (∀ a b, P [a; b]) → (∀ a b c, P [a; b; c]) →
  (∀ a b c d l, P (d :: l) → P (a :: b :: c :: d :: l)) →
  ∀ l, P l.
Proof.
  intros H0 H1 H2 H3 Hstep l.
  remember (length l) as k eqn:Hk. revert l Hk.
  induction (lt_wf k) as [k _ IH]. intros l ->.
  destruct l as [|a [|b [|c [|d l]]]]; auto.
  apply Hstep. eapply IH; [|reflexivity]. simpl. lia.
Qed.

Lemma group3_step a b c d l :
  group3 (a :: b :: c :: d :: l) = a :: b :: c :: comma :: group3 (d :: l).
Proof. reflexivity. Qed.

Lemma lookup_short_mod4 (i k : nat) :
  (k ≤ 3)%nat → ¬ ((i < k)%nat ∧ (i mod 4 = 3)%nat).
Proof.
  intros Hk [Hi Hm]. rewrite Nat.mod_small in Hm by lia. lia.
Qed.

(** What [group3] does to a list free of separators: dropping the separators
    gives the list back, one separator is added for every three elements
    that have an element after them, and the separators sit at the positions
    3, 7, 11, ... *)
Lemma group3_spec l :
  Forall (λ c, c ≠ comma) l →
  filter (λ c, c ≠ comma) (group3 l) = l
  ∧ length (group3 l) = (length l + (length l - 1) / 3)%nat
  ∧ ∀ i : nat, group3 l !! i = Some comma
        ↔ (i < length (group3 l))%nat ∧ (i mod 4 = 3)%nat.
Proof.
  induction l as [|a|a b|a b c|a b c d l IH] using group3_ind; intros Hl.
  - repeat split; try done. intros [? _]. simpl in *. lia.
  - apply Forall_cons in Hl as [Ha _].
    cbn [group3]. split; [by rewrite filter_cons_True|]. split; [done|].
    intros i. split.
    + destruct i as [|[|]]; simpl; intros H; inversion H; congruence.
    + intros H. exfalso. eapply lookup_short_mod4; [|exact H]. simpl; lia.
  - apply Forall_cons in Hl as [Ha Hl]. apply Forall_cons in Hl as [Hb _].
    cbn [group3]. split; [by rewrite !filter_cons_True|]. split; [done|].
    intros i. split.
    + destruct i as [|[|[|]]]; simpl; intros H; inversion H; congruence.
    + intros H. exfalso. eapply lookup_short_mod4; [|exact H]. simpl; lia.
  - apply Forall_cons in Hl as [Ha Hl]. apply Forall_cons in Hl as [Hb Hl].
    apply Forall_cons in Hl as [Hc _].
    cbn [group3]. split; [by rewrite !filter_cons_True|]. split; [done|].
    intros i. split.
    + destruct i as [|[|[|[|]]]]; simpl; intros H; inversion H; congruence.
    + intros H. exfalso. eapply lookup_short_mod4; [|exact H]. simpl; lia.
  - apply Forall_cons in Hl as [Ha Hl]. apply Forall_cons in Hl as [Hb Hl].
    apply Forall_cons in Hl as [Hc Hl].
    destruct (IH Hl) as (IH1 & IH2 & IH3). clear IH.
    rewrite group3_step. split; [|split].
    + rewrite !filter_cons_True by done.
      rewrite filter_cons_False by (intros H; by apply H).
      by rewrite IH1.
    + cbn [length] in *. rewrite IH2.
      replace (S (S (S (S (length l)))) - 1)%nat
        with (length l + 1 * 3)%nat by lia.
      rewrite Nat.div_add by lia.
      replace (S (length l) - 1)%nat with (length l) by lia. lia.
    + intros i. destruct i as [|[|[|[|j]]]].
      * simpl. split; [intros H; inversion H; congruence | intros [_ H]; done].
      * simpl. split; [intros H; inversion H; congruence | intros [_ H]; done].
      * simpl. split; [intros H; inversion H; congruence | intros [_ H]; done].
      * simpl. split; [intros _; split; [lia | done] | done].
      * change ((a :: b :: c :: comma :: group3 (d :: l))
                  !! S (S (S (S j)))) with (group3 (d :: l) !! j).
        rewrite IH3.
        replace (S (S (S (S j)))) with (j + 1 * 4)%nat by lia.
        rewrite Nat.Div0.mod_add. cbn [length]. split; intros [? ?]; split; lia || done.
Qed.

Lemma filter_rev {A : Type} (P : A → Prop) `{!∀ x, Decision (P x)}
    (l : list A) :
  filter P (rev l) = rev (filter P l).
Proof.
  rewrite !rev_alt. change (filter P (reverse l) = reverse (filter P l)).
  apply filter_reverse.
Qed.

(** [thousands n] is the decimal numeral of [n] with a separator before
    every group of three digits counted from the right. *)
Lemma thousands_spec n :
  let s := list_ascii_of_string (thousands n) in
  filter (λ c, c ≠ comma) s = digits n
  ∧ Forall is_digit (digits n)
  ∧ length s = (length (digits n) + (length (digits n) - 1) / 3)%nat
  ∧ ∀ i : nat, rev s !! i = Some comma
        ↔ (i < length s)%nat ∧ (i mod 4 = 3)%nat.
Proof.
  intros s. unfold s, thousands.
  rewrite list_ascii_of_string_of_list_ascii.
  pose proof (digits_are_digits n) as Hd.
  assert (Hnc : Forall (λ c, c ≠ comma) (rev (digits n))).
  { apply Forall_rev. induction Hd; constructor;
      auto using is_digit_not_comma. }
  destruct (group3_spec _ Hnc) as (H1 & H2 & H3).
  split; [|split; [done|split]].
  - rewrite filter_rev, H1. apply rev_involutive.
  - rewrite length_rev, H2, length_rev. done.
  - intros i. rewrite rev_involutive, length_rev. apply H3.
Qed.

End Thousands.

(** ** Rounding *)

Section Rounding.

Local Open Scope Q_scope.

(** [round_half_even] picks an integer at distance at most one half. *)
Lemma round_half_even_near (q : Q) :
  Qabs (inject_Z (round_half_even q) - q) <= 1 # 2.
Proof.
  apply Qabs_Qle_condition. destruct q as [n d].
  unfold round_half_even. cbn [Qnum Qden].
  pose proof (Z.div_mod n (Zpos d) ltac:(lia)) as Hdm.
  pose proof (Z.mod_pos_bound n (Zpos d) ltac:(lia)) as Hb.
  set (f := (n / Zpos d)%Z) in *. set (r := (n mod Zpos d)%Z) in *.
  destruct (Z.ltb_spec (2 * r) (Zpos d));
    [|destruct (Z.ltb_spec (Zpos d) (2 * r)); [|destruct (Z.even f)]];
    unfold Qle, Qminus, Qplus, Qopp, inject_Z; cbn [Qnum Qden];
    split; nia.
Qed.

Lemma round_half_even_nonneg (q : Q) : 0 <= q → (0 ≤ round_half_even q)%Z.
Proof.
  destruct q as [n d]. unfold Qle. cbn [Qnum Qden]. intros Hn.
  assert (0 ≤ n)%Z by lia. unfold round_half_even. cbn [Qnum Qden].
  pose proof (Z.div_pos n (Zpos d) ltac:(lia) ltac:(lia)).
  repeat case_match; lia.
Qed.

Lemma round_half_even_zero (q : Q) : q == 0 → round_half_even q = 0%Z.
Proof.
  destruct q as [n d]. unfold Qeq. cbn [Qnum Qden]. intros Hn.
  assert (n = 0%Z) as -> by lia. reflexivity.
Qed.

Lemma Qabs_idemp (q : Q) : Qabs (Qabs q) = Qabs q.
Proof. destruct q as [n d]. simpl. by rewrite Z.abs_idemp. Qed.

Lemma Qltb_Qabs_zero (q : Q) : Qltb (Qabs q) 0 = false.
Proof.
  destruct (Qltb (Qabs q) 0) eqn:E; [|done].
  apply Qltb_lt in E. pose proof (Qabs_nonneg q). lra.
Qed.

(** The natural number printed for [q]: the rounding of its magnitude. *)
Lemma nearest_magnitude (q : Q) :
  Qabs (inject_Z (Z.of_N (Z.to_N (round_half_even (Qabs q)))) - Qabs q)
    <= 1 # 2.
Proof.
  rewrite Z2N.id by (apply round_half_even_nonneg, Qabs_nonneg).
  apply round_half_even_near.
Qed.

End Rounding.

(** ** Currency cells *)

Section Currency.

Local Open Scope Q_scope.

Lemma format_comma_0f_nonneg (q : Q) :
  0 <= q →
  format_comma_0f (Num q) = thousands (Z.to_N (round_half_even (Qabs q))).
Proof.
  intros Hq. unfold format_comma_0f.
  destruct (Qltb q 0) eqn:E; [|reflexivity].
  apply Qltb_lt in E. lra.
Qed.

Lemma format_comma_0f_neg (q : Q) :
  q < 0 →
  format_comma_0f (Num q)
  = "-" ++ thousands (Z.to_N (round_half_even (Qabs q))).
Proof.
  intros Hq. unfold format_comma_0f.
  by apply Qltb_lt in Hq as ->.
Qed.

Lemma format_currency_Colab_pos (q : Q) :
  0 < q →
  _format_currency (Num q)
  = "$" ++ thousands (Z.to_N (round_half_even (Qabs q))).
Proof.
  intros Hq. unfold _format_currency, zero.
  cbn [isna value_eqb value_ltb value_abs orb].
  assert (Qeq_bool q 0 = false) as -> by (apply Qeq_bool_false; lra).
  destruct (Qltb q 0) eqn:E; [apply Qltb_lt in E; lra|].
  rewrite format_comma_0f_nonneg by lra. reflexivity.
Qed.

Lemma format_currency_Colab_neg (q : Q) :
  q < 0 →
  _format_currency (Num q)
  = "$(" ++ thousands (Z.to_N (round_half_even (Qabs q))) ++ ")".
Proof.
  intros Hq. unfold _format_currency, zero.
  cbn [isna value_eqb value_ltb value_abs orb].
  assert (Qeq_bool q 0 = false) as -> by (apply Qeq_bool_false; lra).
  apply Qltb_lt in Hq as ->.
  rewrite format_comma_0f_nonneg by apply Qabs_nonneg.
  by rewrite Qabs_idemp.
Qed.

(** C7 (as stated, refuted).  [format_currency] of
    [financial_report_generator.py] prints a negative amount with a minus
    sign, not in parentheses, and a missing amount as ["$nan"], not
    ["$0"]. *)
Lemma format_currency_negative_and_missing :
  format_currency (Num (-1234)) = "$-1,234"
  ∧ format_currency (Num (-1234)) ≠ "$(1,234)"
  ∧ format_currency NaN = "$nan"
  ∧ format_currency NaN ≠ "$0".
Proof. repeat split; (reflexivity || discriminate). Qed.

(** C7 (as amended).  [_format_currency] of [Colab_Q_A_fin_re.py] prints
    ["$0"] for a missing or zero amount, ["$"] and the grouped nearest
    integer for a positive amount, and ["$("], the grouped nearest integer
    of the magnitude and [")"] for a negative one.  [format_currency] of
    [financial_report_generator.py] prints zero and positive amounts the
    same way, a negative amount as ["$-"] and the grouped magnitude, and a
    missing amount as ["$nan"].  The grouped numeral has no decimals: it is
    the decimal digits of the integer with a comma before every group of
    three digits counted from the right. *)
Theorem format_currency_style (v : value) :
  (isna v = true ∨ value_eqb v zero = true → _format_currency v = "$0")
  ∧ (value_eqb v zero = true → format_currency v = "$0")
  ∧ (isna v = true → format_currency v = "$nan")
  ∧ (∀ q, v = Num q → 0 < q →
       ∃ n : N, Qabs (inject_Z (Z.of_N n) - Qabs q) <= 1 # 2
         ∧ _format_currency v = "$" ++ thousands n
         ∧ format_currency v = "$" ++ thousands n)
  ∧ (∀ q, v = Num q → q < 0 →
       ∃ n : N, Qabs (inject_Z (Z.of_N n) - Qabs q) <= 1 # 2
         ∧ _format_currency v = "$(" ++ thousands n ++ ")"
         ∧ format_currency v = "$-" ++ thousands n)
  ∧ (∀ n : N,
       let s := list_ascii_of_string (thousands n) in
       filter (λ c, c ≠ comma) s = digits n
       ∧ Forall is_digit (digits n)
       ∧ length s = (length (digits n) + (length (digits n) - 1) / 3)%nat
       ∧ ∀ i : nat, rev s !! i = Some comma
             ↔ (i < length s)%nat ∧ (i mod 4 = 3)%nat).
Proof.
  repeat apply conj.
  - intros [H|H]; unfold _format_currency; rewrite H; [done|].
    by rewrite orb_true_r.
  - intros (q & -> & Hq)%value_eqb_zero. unfold format_currency.
    rewrite format_comma_0f_nonneg by lra.
    assert (Hz : Qabs q == 0) by (by apply Qabs_zero_iff).
    by rewrite (round_half_even_zero _ Hz).
  - destruct v; [done | discriminate].
  - intros q -> Hq. exists (Z.to_N (round_half_even (Qabs q))).
    split; [apply nearest_magnitude|]. split.
    + by apply format_currency_Colab_pos.
    + unfold format_currency. rewrite format_comma_0f_nonneg by lra. done.
  - intros q -> Hq. exists (Z.to_N (round_half_even (Qabs q))).
    split; [apply nearest_magnitude|]. split.
    + by apply format_currency_Colab_neg.
    + unfold format_currency. by rewrite format_comma_0f_neg.
  - apply thousands_spec.
Qed.

Lemma format_currency_style_witness :
  _format_currency NaN = "$0"
  ∧ format_currency (Num 0) = "$0"
  ∧ (∃ n : N, Qabs (inject_Z (Z.of_N n) - Qabs (2469 # 2)) <= 1 # 2
       ∧ _format_currency (Num (2469 # 2)) = "$" ++ thousands n
       ∧ format_currency (Num (2469 # 2)) = "$" ++ thousands n)
  ∧ (∃ n : N, Qabs (inject_Z (Z.of_N n) - Qabs (-1234)) <= 1 # 2
       ∧ _format_currency (Num (-1234)) = "$(" ++ thousands n ++ ")"
       ∧ format_currency (Num (-1234)) = "$-" ++ thousands n).
Proof.
  split; [|split; [|split]].
  - apply (proj1 (format_currency_style NaN)). left. reflexivity.
  - apply (proj1 (proj2 (format_currency_style (Num 0)))). reflexivity.
  - apply (proj1 (proj2 (proj2 (proj2
             (format_currency_style (Num (2469 # 2)))))) (2469 # 2));
      reflexivity.
  - apply (proj1 (proj2 (proj2 (proj2 (proj2
             (format_currency_style (Num (-1234))))))) (-1234));
      reflexivity.
Defined.

Example format_currency_examples :
  _format_currency (Num 1234) = "$1,234"
  ∧ _format_currency (Num (-1234)) = "$(1,234)"
  ∧ _format_currency (Num (2469 # 2)) = "$1,234"
  ∧ _format_currency (Num 1234567) = "$1,234,567"
  ∧ _format_currency (Num (1 # 3)) = "$0"
  ∧ _format_currency (Num (-1 # 3)) = "$(0)"
  ∧ _format_currency zero = "$0"
  ∧ _format_currency NaN = "$0".
Proof. repeat split. Qed.

End Currency.

(** ** Running computations *)

Section Run.

Context {A B : Type}.
Implicit Types (m : M A) (k : A → M B) (ws : Worksheet).

Lemma exec_ret (a : A) ws : exec (mret a) ws = ws.
Proof. reflexivity. Qed.

Lemma outcome_ret (a : A) ws : outcome (mret a) ws = inr a.
Proof. reflexivity. Qed.

Lemma run_bind m k ws :
  (m ≫= k) ws
  = match outcome m ws with
    | inr a => k a (exec m ws)
    | inl e => (inl e, exec m ws)
    end.
Proof.
  unfold mbind, M_bind, outcome, exec. by destruct (m ws) as [[e|a] ws'].
Qed.

Lemma exec_bind m k ws :
  exec (m ≫= k) ws
  = match outcome m ws with
    | inr a => exec (k a) (exec m ws)
    | inl e => exec m ws
    end.
Proof.
  unfold exec at 1. rewrite run_bind. by destruct (outcome m ws).
Qed.

Lemma outcome_bind m k ws :
  outcome (m ≫= k) ws
  = match outcome m ws with
    | inr a => outcome (k a) (exec m ws)
    | inl e => inl e
    end.
Proof.
  unfold outcome at 1. rewrite run_bind. by destruct (outcome m ws).
Qed.

Lemma run_fmap (f : A → B) m ws :
  (f <$> m) ws
  = match outcome m ws with
    | inr a => (inr (f a), exec m ws)
    | inl e => (inl e, exec m ws)
    end.
Proof.
  unfold fmap, M_fmap, outcome, exec. by destruct (m ws) as [[e|a] ws'].
Qed.

End Run.

Lemma exec_try_except (body : M unit) ws :
  exec (try_except body) ws = exec body ws.
Proof. reflexivity. Qed.

Lemma outcome_try_except (body : M unit) ws :
  outcome (try_except body) ws = inr tt.
Proof. reflexivity. Qed.

(** ** Related runs *)

Section Related.

Variable Rs : Worksheet → Worksheet → Prop.

Lemma related_ret {A B : Type} (Ra : A → B → Prop) (a : A) (b : B) :
  Ra a b → related Rs Ra (mret a) (mret b).
Proof. intros H ws1 ws2 Hws. by split. Qed.

Lemma related_raise {A B : Type} (Ra : A → B → Prop) (e : exception) :
  related Rs Ra (raise e) (raise e).
Proof. intros ws1 ws2 Hws. by split. Qed.

Lemma related_bind {A A' B B' : Type} (Ra : A → A' → Prop)
    (Rb : B → B' → Prop) (m1 : M A) (m2 : M A')
    (k1 : A → M B) (k2 : A' → M B') :
  related Rs Ra m1 m2 →
  (∀ a a', Ra a a' → related Rs Rb (k1 a) (k2 a')) →
  related Rs Rb (m1 ≫= k1) (m2 ≫= k2).
Proof.
  intros Hm Hk ws1 ws2 Hws. destruct (Hm ws1 ws2 Hws) as [Hs Ho].
  rewrite !exec_bind, !outcome_bind.
  destruct (outcome m1 ws1) as [e1|a], (outcome m2 ws2) as [e2|a'];
    simpl in Ho; try done.
  by apply Hk.
Qed.

Lemma related_fmap {A A' B B' : Type} (Ra : A → A' → Prop)
    (Rb : B → B' → Prop) (f : A → B) (g : A' → B') (m1 : M A) (m2 : M A') :
  related Rs Ra m1 m2 →
  (∀ a a', Ra a a' → Rb (f a) (g a')) →
  related Rs Rb (f <$> m1) (g <$> m2).
Proof.
  intros Hm Hf ws1 ws2 Hws. destruct (Hm ws1 ws2 Hws) as [Hs Ho].
  unfold exec, outcome in *. rewrite !run_fmap. unfold exec, outcome.
  destruct (m1 ws1) as [[e1|a] ws1'], (m2 ws2) as [[e2|a'] ws2'];
    simpl in *; try done.
  split; [done | by apply Hf].
Qed.

Lemma related_of_option {A B : Type} (Ra : A → B → Prop) (e : exception)
    (o1 : option A) (o2 : option B) :
  option_Forall2 Ra o1 o2 →
  related Rs Ra (of_option e o1) (of_option e o2).
Proof.
  intros [a b Hab|]; [by apply related_ret | apply related_raise].
Qed.

Lemma related_try_except (R : unit → unit → Prop) (m1 m2 : M unit) :
  related Rs R m1 m2 →
  related Rs eq (try_except m1) (try_except m2).
Proof.
  intros Hm ws1 ws2 Hws. destruct (Hm ws1 ws2 Hws) as [Hs _].
  by split.
Qed.

Lemma related_for_enumerate {A B : Type} (Rx : A → B → Prop)
    (l1 : list A) (l2 : list B) (body1 : nat → A → M unit)
    (body2 : nat → B → M unit) (start : nat) :
  Forall2 Rx l1 l2 →
  (∀ i x y, Rx x y → related Rs eq (body1 i x) (body2 i y)) →
  related Rs eq (for_enumerate start l1 body1) (for_enumerate start l2 body2).
Proof.
  intros Hl Hbody. revert start.
  induction Hl as [|x y l1 l2 Hxy Hl IH]; intros start; simpl.
  - by apply related_ret.
  - eapply related_bind; [by apply Hbody|]. intros _ _ _. apply IH.
Qed.

Lemma related_for_rows {A : Type} (l : list A) (row : N)
    (body1 body2 : N → A → M unit) :
  (∀ r x, related Rs eq (body1 r x) (body2 r x)) →
  related Rs eq (for_rows l row body1) (for_rows l row body2).
Proof.
  intros Hbody. revert row. induction l as [|x l IH]; intros row; simpl.
  - by apply related_ret.
  - eapply related_bind; [apply Hbody|]. intros _ _ _. apply IH.
Qed.

Lemma related_getitem {A B : Type} (Ra : A → B → Prop)
    (l1 : list A) (l2 : list B) (i : nat) :
  Forall2 Ra l1 l2 → related Rs Ra (getitem l1 i) (getitem l2 i).
Proof.
  intros Hl. apply related_of_option.
  destruct (l1 !! i) as [a|] eqn:E1.
  - destruct (Forall2_lookup_l _ _ _ _ _ Hl E1) as (b & -> & Hab).
    by constructor.
  - apply lookup_ge_None in E1.
    rewrite (Forall2_length _ _ _ Hl) in E1.
    apply lookup_ge_None in E1 as ->. constructor.
Qed.

End Related.

(** ** Independence of the clock *)

Section Clock.

Variable S : list (string * N).

Lemma agree_off_refl ws : agree_off S ws ws.
Proof. by repeat split. Qed.

Lemma cell_at_agree ws1 ws2 a :
  agree_off S ws1 ws2 → a ∉ S → cell_at ws1 a = cell_at ws2 a.
Proof. intros (_ & _ & _ & H) Ha. unfold cell_at. by rewrite H. Qed.

(** Updating the same cell in the same way keeps two worksheets in
    agreement. *)
Lemma agree_with_cell ws1 ws2 a (f : Cell → Cell) :
  agree_off S ws1 ws2 →
  agree_off S (with_cell a f ws1) (with_cell a f ws2).
Proof.
  intros Hws. pose proof Hws as (Ht & Hm & Hw & Hc).
  repeat split; try done. simpl. intros b Hb.
  destruct (decide (a = b)) as [->|Hab].
  - rewrite !lookup_insert_eq. f_equal. f_equal. by apply cell_at_agree.
  - rewrite !lookup_insert_ne by done. by apply Hc.
Qed.

(** Updating a cell of [S], in whatever way, keeps them in agreement too. *)
Lemma agree_with_cell_in ws1 ws2 a (f g : Cell → Cell) :
  a ∈ S →
  agree_off S ws1 ws2 →
  agree_off S (with_cell a f ws1) (with_cell a g ws2).
Proof.
  intros Ha (Ht & Hm & Hw & Hc).
  repeat split; try done. simpl. intros b Hb.
  assert (a ≠ b) by (intros ->; done).
  rewrite !lookup_insert_ne by done. by apply Hc.
Qed.

Lemma agree_ws_set a v :
  related (agree_off S) eq (ws_set a v) (ws_set a v).
Proof. intros ws1 ws2 H. split; [by apply agree_with_cell | done]. Qed.

Lemma agree_ws_set_in a v1 v2 :
  a ∈ S → related (agree_off S) eq (ws_set a v1) (ws_set a v2).
Proof. intros Ha ws1 ws2 H. split; [by apply agree_with_cell_in | done]. Qed.

Lemma agree_ws_set_number_format a fmt :
  related (agree_off S) eq
    (ws_set_number_format a fmt) (ws_set_number_format a fmt).
Proof. intros ws1 ws2 H. split; [by apply agree_with_cell | done]. Qed.

Lemma agree_ws_set_font a font :
  related (agree_off S) eq (ws_set_font a font) (ws_set_font a font).
Proof. intros ws1 ws2 H. split; [by apply agree_with_cell | done]. Qed.

Lemma agree_ws_set_alignment a h :
  related (agree_off S) eq (ws_set_alignment a h) (ws_set_alignment a h).
Proof. intros ws1 ws2 H. split; [by apply agree_with_cell | done]. Qed.

Lemma agree_ws_set_title t :
  related (agree_off S) eq (ws_set_title t) (ws_set_title t).
Proof. intros ws1 ws2 (Ht & Hm & Hw & Hc). by repeat split. Qed.

Lemma agree_ws_merge_cells range :
  related (agree_off S) eq (ws_merge_cells range) (ws_merge_cells range).
Proof.
  intros ws1 ws2 (Ht & Hm & Hw & Hc). repeat split; try done.
  simpl. by rewrite Hm.
Qed.

Lemma agree_ws_set_width col w :
  related (agree_off S) eq (ws_set_width col w) (ws_set_width col w).
Proof.
  intros ws1 ws2 (Ht & Hm & Hw & Hc). repeat split; try done.
  simpl. by rewrite Hw.
Qed.

Lemma agree_of_option {A : Type} (e : exception) (o : option A) :
  related (agree_off S) eq (of_option e o) (of_option e o).
Proof. apply related_of_option. destruct o; by constructor. Qed.

End Clock.

(** A computation run twice on the same arguments is related to itself:
    split sequences, enter handlers and loops, decide tests, and close the
    worksheet operations with the lemmas of the hint database. *)
Create HintDb agree discriminated.

#[local] Hint Resolve agree_ws_set agree_ws_set_number_format
  agree_ws_set_font agree_ws_set_alignment agree_ws_set_title
  agree_ws_merge_cells agree_ws_set_width agree_of_option : agree.

Ltac agree_auto :=
  lazymatch goal with
  | |- related _ _ (mret _) (mret _) => by apply related_ret
  | |- related _ _ (_ ≫= _) (_ ≫= _) =>
      eapply (related_bind _ eq); [agree_auto | intros ? ? <-; agree_auto]
  | |- related _ _ (_ <$> _) (_ <$> _) =>
      eapply (related_fmap _ eq eq); [agree_auto | intros ? ? <-; reflexivity]
  | |- related _ _ (try_except _) (try_except _) =>
      eapply (related_try_except _ eq); agree_auto
  | |- related _ _ (for_enumerate _ _ _) (for_enumerate _ _ _) =>
      eapply (related_for_enumerate _ eq);
        [reflexivity | intros ? ? ? <-; agree_auto]
  | |- related _ _ (for_rows _ _ _) (for_rows _ _ _) =>
      eapply related_for_rows; intros ? ?; agree_auto
  | |- related _ _ (ws_set ?a _) (ws_set ?a _) =>
      first [ apply agree_ws_set
            | apply agree_ws_set_in; compute_done ]
  | |- related _ _ (getitem _ _) (getitem _ _) => apply agree_of_option
  | |- related _ _ (loc _ _) (loc _ _) => apply agree_of_option
  | |- related _ _ (if ?b then _ else _) _ => destruct b; agree_auto
  | |- related _ _ (match ?x with _ => _ end) _ => destruct x; agree_auto
  | |- _ => solve [eauto with agree]
  end.

Section ClockHelpers.

Variable S : list (string * N).
Abbreviation Rs := (agree_off S).

Lemma agree_add_quarterly_data row dataframe field_name c1 c2 c3 c4 c5 c6 :
  related Rs eq
    (_add_quarterly_data row dataframe field_name c1 c2 c3 c4 c5 c6)
    (_add_quarterly_data row dataframe field_name c1 c2 c3 c4 c5 c6).
Proof. unfold _add_quarterly_data. agree_auto. Qed.

Lemma agree_add_annual_data row dataframe field_name c1 c2 c3 c4 c5 :
  related Rs eq
    (_add_annual_data row dataframe field_name c1 c2 c3 c4 c5)
    (_add_annual_data row dataframe field_name c1 c2 c3 c4 c5).
Proof. unfold _add_annual_data. agree_auto. Qed.

Lemma agree_working_capital_block row table cols pct_cols :
  related Rs eq (working_capital_block row table cols pct_cols)
    (working_capital_block row table cols pct_cols).
Proof. unfold working_capital_block. agree_auto. Qed.

Lemma agree_current_ratio_block row table cols :
  related Rs eq (current_ratio_block row table cols)
    (current_ratio_block row table cols).
Proof. unfold current_ratio_block. agree_auto. Qed.

Lemma agree_quick_ratio_block row table cols :
  related Rs eq (quick_ratio_block row table cols)
    (quick_ratio_block row table cols).
Proof. unfold quick_ratio_block, loc_or_zeros. agree_auto. Qed.

Lemma agree_gross_margin_block row table cols :
  related Rs eq (gross_margin_block row table cols)
    (gross_margin_block row table cols).
Proof. unfold gross_margin_block. agree_auto. Qed.

Lemma agree_net_cash_flow_block row table cols :
  related Rs eq (net_cash_flow_block row table cols)
    (net_cash_flow_block row table cols).
Proof. unfold net_cash_flow_block, loc_or_zeros. agree_auto. Qed.

Lemma agree_date_headers table c1 c2 c3 :
  related Rs eq (date_headers table c1 c2 c3) (date_headers table c1 c2 c3).
Proof. unfold date_headers. agree_auto. Qed.

End ClockHelpers.

#[local] Hint Resolve agree_add_quarterly_data agree_add_annual_data
  agree_working_capital_block agree_current_ratio_block
  agree_quick_ratio_block agree_gross_margin_block
  agree_net_cash_flow_block agree_date_headers : agree.

Lemma agree_add_item S quarterly annual row item :
  related (agree_off S) eq (add_item quarterly annual row item)
    (add_item quarterly annual row item).
Proof. unfold add_item. agree_auto. Qed.

Lemma agree_add_balance_sheet_items S self start_row :
  related (agree_off S) eq (_add_balance_sheet_items self start_row)
    (_add_balance_sheet_items self start_row).
Proof.
  pose proof (agree_add_item S).
  unfold _add_balance_sheet_items, _calculate_working_capital,
    _calculate_current_ratio, _calculate_quick_ratio.
  agree_auto.
Qed.

Lemma agree_add_income_statement_items S self start_row :
  related (agree_off S) eq (_add_income_statement_items self start_row)
    (_add_income_statement_items self start_row).
Proof.
  unfold _add_income_statement_items, _calculate_gross_margin. agree_auto.
Qed.

Lemma agree_add_cash_flow_items S self start_row :
  related (agree_off S) eq (_add_cash_flow_items self start_row)
    (_add_cash_flow_items self start_row).
Proof.
  pose proof (agree_add_item S).
  unfold _add_cash_flow_items, _calculate_net_cash_flow. agree_auto.
Qed.

#[local] Hint Resolve agree_add_balance_sheet_items
  agree_add_income_statement_items agree_add_cash_flow_items : agree.

(** Two runs on the same tables, in whatever years, are related: they
    differ at most in the fiscal-year cells. *)
Lemma agree_create_excel_report self (y1 y2 : Z) :
  related (agree_off fiscal_year_cells) eq
    (create_excel_report self y1) (create_excel_report self y2).
Proof. unfold create_excel_report. agree_auto. Qed.

(** ** Which cells exist *)

Section Shape.

Lemma same_periods_Forall2 (cz : bool) (l1 l2 : list value) :
  same_periods cz l1 l2 = true →
  Forall2 (λ a b, cz = true → same_zero a b = true) l1 l2.
Proof.
  revert l2. induction l1 as [|a l1 IH]; intros [|b l2]; simpl;
    try discriminate; [constructor|].
  intros [H1 H2]%andb_true_iff. constructor; [|by apply IH].
  intros ->. by rewrite orb_false_l in H1.
Qed.

Lemma same_shape_row_Forall2 name (l1 l2 : list value) :
  same_shape_row name l1 l2 = true →
  Forall2 (period_rel name) (first3 l1) (first3 l2).
Proof. apply same_periods_Forall2. Qed.

(** Tables of the same shape have the same line items, with rows of the
    same shape. *)
Lemma same_shape_table_lookup (d1 d2 : DataFrame) (name : string) :
  same_shape_table d1 d2 = true →
  option_Forall2 (λ l1 l2, same_shape_row name l1 l2 = true)
    (rows d1 !! name) (rows d2 !! name).
Proof.
  unfold same_shape_table.
  intros [[_ Hdom%bool_decide_eq_true]%andb_true_iff Hall]%andb_true_iff.
  rewrite forallb_forall in Hall.
  destruct (rows d1 !! name) as [l1|] eqn:E1.
  - assert (Hin : In (name, l1) (map_to_list (rows d1))).
    { apply list_elem_of_In. by apply elem_of_map_to_list. }
    specialize (Hall _ Hin). simpl in Hall.
    destruct (rows d2 !! name) as [l2|]; [by constructor | discriminate].
  - apply not_elem_of_dom in E1. rewrite Hdom in E1.
    apply not_elem_of_dom in E1 as ->. constructor.
Qed.

Lemma same_shape_table_in_index (d1 d2 : DataFrame) (name : string) :
  same_shape_table d1 d2 = true → in_index name d1 = in_index name d2.
Proof.
  intros H. unfold in_index.
  destruct (same_shape_table_lookup _ _ name H) as [l1 l2 _|]; [|done].
  rewrite !bool_decide_eq_true_2; eauto.
Qed.

Lemma same_shape_table_columns (d1 d2 : DataFrame) :
  same_shape_table d1 d2 = true →
  bool_decide (3 ≤ length (columns d1))%nat
  = bool_decide (3 ≤ length (columns d2))%nat.
Proof.
  unfold same_shape_table.
  intros [[H _]%andb_true_iff _]%andb_true_iff. by apply eqb_prop.
Qed.

Lemma period_rel_neqb name (a b : value) :
  is_denominator name = true → period_rel name a b →
  value_neqb a zero = value_neqb b zero.
Proof.
  intros Hd H. unfold value_neqb. f_equal. apply eqb_prop. by apply H.
Qed.

Lemma period_rel_zero name : period_rel name zero zero.
Proof. intros _. reflexivity. Qed.

Lemma Forall2_zip_rel {A A' B B' : Type} (R1 : A → A' → Prop)
    (R2 : B → B' → Prop) l1 l2 m1 m2 :
  Forall2 R1 l1 l2 → Forall2 R2 m1 m2 →
  Forall2 (pair_rel R1 R2) (zip l1 m1) (zip l2 m2).
Proof.
  intros H1. revert m1 m2.
  induction H1 as [|a a' l1 l2 Ha Hl IH]; intros m1 m2 H2;
    [constructor|].
  destruct H2 as [|b b' m1 m2 Hb Hm]; simpl; [constructor|].
  constructor; [by split | by apply IH].
Qed.

(** Worksheet operations keep the set of cells the same on both sides,
    whatever they write. *)
Lemma same_cells_with_cell ws1 ws2 a (f g : Cell → Cell) :
  same_cells ws1 ws2 → same_cells (with_cell a f ws1) (with_cell a g ws2).
Proof.
  unfold same_cells. simpl. intros H. by rewrite !dom_insert_L, H.
Qed.

Lemma shape_ws_set a v1 v2 :
  related same_cells eq (ws_set a v1) (ws_set a v2).
Proof. intros ws1 ws2 H. split; [by apply same_cells_with_cell | done]. Qed.

Lemma shape_ws_set_number_format a f1 f2 :
  related same_cells eq
    (ws_set_number_format a f1) (ws_set_number_format a f2).
Proof. intros ws1 ws2 H. split; [by apply same_cells_with_cell | done]. Qed.

Lemma shape_ws_set_font a f1 f2 :
  related same_cells eq (ws_set_font a f1) (ws_set_font a f2).
Proof. intros ws1 ws2 H. split; [by apply same_cells_with_cell | done]. Qed.

Lemma shape_ws_set_alignment a h1 h2 :
  related same_cells eq (ws_set_alignment a h1) (ws_set_alignment a h2).
Proof. intros ws1 ws2 H. split; [by apply same_cells_with_cell | done]. Qed.

Lemma shape_ws_set_title t1 t2 :
  related same_cells eq (ws_set_title t1) (ws_set_title t2).
Proof. intros ws1 ws2 H. by split. Qed.

Lemma shape_ws_merge_cells r1 r2 :
  related same_cells eq (ws_merge_cells r1) (ws_merge_cells r2).
Proof. intros ws1 ws2 H. by split. Qed.

Lemma shape_ws_set_width c1 w1 c2 w2 :
  related same_cells eq (ws_set_width c1 w1) (ws_set_width c2 w2).
Proof. intros ws1 ws2 H. by split. Qed.

Lemma shape_getitem_same {A : Type} (l : list A) (i : nat) :
  related same_cells eq (getitem l i) (getitem l i).
Proof. apply related_of_option. destruct (l !! i); by constructor. Qed.

(** Reading the same row of two tables of the same shape. *)
Lemma shape_loc3 (d1 d2 : DataFrame) (name : string) :
  same_shape_table d1 d2 = true →
  related same_cells (Forall2 (period_rel name))
    (first3 <$> loc d1 name) (first3 <$> loc d2 name).
Proof.
  intros H.
  eapply (related_fmap _ (λ l1 l2, same_shape_row name l1 l2 = true)).
  - apply related_of_option. by apply same_shape_table_lookup.
  - intros l1 l2. apply same_shape_row_Forall2.
Qed.

Lemma shape_loc_or_zeros (d1 d2 : DataFrame) (name : string) :
  same_shape_table d1 d2 = true →
  related same_cells (Forall2 (period_rel name))
    (loc_or_zeros d1 name) (loc_or_zeros d2 name).
Proof.
  intros H. unfold loc_or_zeros.
  rewrite (same_shape_table_in_index _ _ name H).
  destruct (in_index name d2); [by apply shape_loc3|].
  apply related_ret. repeat constructor; apply period_rel_zero.
Qed.

End Shape.

Create HintDb shape discriminated.

#[local] Hint Resolve shape_ws_set shape_ws_set_number_format
  shape_ws_set_font shape_ws_set_alignment shape_ws_set_title
  shape_ws_merge_cells shape_ws_set_width : shape.

(** Make the tests of the two sides the same test. *)
Ltac shape_cond :=
  match goal with
  | H : period_rel ?n ?a ?b |- context [value_neqb ?a zero] =>
      rewrite (period_rel_neqb n a b eq_refl H)
  | H : Forall2 _ ?l1 ?l2 |- context [length ?l1] =>
      rewrite (Forall2_length _ _ _ H)
  | H : same_shape_table ?d1 ?d2 = true |- context [in_index ?n ?d1] =>
      rewrite (same_shape_table_in_index d1 d2 n H)
  | H : same_shape_table ?d1 ?d2 = true
    |- context [length (columns ?d1)] =>
      rewrite (same_shape_table_columns d1 d2 H)
  end.

Ltac shape_pairs :=
  repeat match goal with
         | p : (_ * _)%type |- _ => destruct p
         end;
  repeat match goal with
         | H : pair_rel _ _ _ _ |- _ =>
             unfold pair_rel in H; cbn [fst snd] in H
         | H : _ ∧ _ |- _ => destruct H
         end.

(** Two runs of the same code on tables of the same shape: follow the code
    on both sides at once. *)
Ltac shape_auto :=
  lazymatch goal with
  | |- related _ _ (mret _) (mret _) => by apply related_ret
  | |- related _ _ (_ ≫= _) (_ ≫= _) =>
      eapply related_bind;
        [shape_auto | intros ? ? ?; try subst; shape_auto]
  | |- related _ _ (try_except _) (try_except _) =>
      eapply (related_try_except _ eq); shape_auto
  | |- related _ _ (for_enumerate _ _ _) (for_enumerate _ _ _) =>
      eapply related_for_enumerate;
        [ repeat first [eassumption | apply Forall2_zip_rel]
        | intros ? ? ? ?; shape_pairs; shape_auto ]
  | |- related _ _ (for_rows _ _ _) (for_rows _ _ _) =>
      eapply related_for_rows; intros ? [? ?]; shape_auto
  | |- related _ _ (getitem ?l _) (getitem ?l _) => apply shape_getitem_same
  | |- related _ _ (getitem _ _) (getitem _ _) =>
      eapply related_getitem; eassumption
  | |- related _ _ (first3 <$> loc _ _) (first3 <$> loc _ _) =>
      eapply shape_loc3; eassumption
  | |- related _ _ (loc_or_zeros _ _) (loc_or_zeros _ _) =>
      eapply shape_loc_or_zeros; eassumption
  | |- related _ _ (if ?b then _ else _) (if ?b then _ else _) =>
      destruct b; shape_auto
  | |- related _ _ (if _ then _ else _) (if _ then _ else _) =>
      shape_cond; shape_auto
  | |- _ => solve [eauto with shape]
  end.

Section ShapeHelpers.

Implicit Types (t : option DataFrame) (row : N).

Lemma shape_add_quarterly_data row t1 t2 field_name c1 c2 c3 c4 c5 c6 :
  same_shape_option t1 t2 = true →
  related same_cells eq
    (_add_quarterly_data row t1 field_name c1 c2 c3 c4 c5 c6)
    (_add_quarterly_data row t2 field_name c1 c2 c3 c4 c5 c6).
Proof.
  intros H. destruct t1 as [d1|], t2 as [d2|]; try discriminate;
    simpl in H; unfold _add_quarterly_data; shape_auto.
Qed.

Lemma shape_add_annual_data row t1 t2 field_name c1 c2 c3 c4 c5 :
  same_shape_option t1 t2 = true →
  related same_cells eq
    (_add_annual_data row t1 field_name c1 c2 c3 c4 c5)
    (_add_annual_data row t2 field_name c1 c2 c3 c4 c5).
Proof.
  intros H. destruct t1 as [d1|], t2 as [d2|]; try discriminate;
    simpl in H; unfold _add_annual_data; shape_auto.
Qed.

Lemma shape_working_capital_block row t1 t2 cols pct_cols :
  same_shape_option t1 t2 = true →
  related same_cells eq (working_capital_block row t1 cols pct_cols)
    (working_capital_block row t2 cols pct_cols).
Proof.
  intros H. destruct t1 as [d1|], t2 as [d2|]; try discriminate;
    simpl in H; unfold working_capital_block; shape_auto.
Qed.

Lemma shape_current_ratio_block row t1 t2 cols :
  same_shape_option t1 t2 = true →
  related same_cells eq (current_ratio_block row t1 cols)
    (current_ratio_block row t2 cols).
Proof.
  intros H. destruct t1 as [d1|], t2 as [d2|]; try discriminate;
    simpl in H; unfold current_ratio_block; shape_auto.
Qed.

Lemma shape_quick_ratio_block row t1 t2 cols :
  same_shape_option t1 t2 = true →
  related same_cells eq (quick_ratio_block row t1 cols)
    (quick_ratio_block row t2 cols).
Proof.
  intros H. destruct t1 as [d1|], t2 as [d2|]; try discriminate;
    simpl in H; unfold quick_ratio_block; shape_auto.
Qed.

Lemma shape_gross_margin_block row t1 t2 cols :
  same_shape_option t1 t2 = true →
  related same_cells eq (gross_margin_block row t1 cols)
    (gross_margin_block row t2 cols).
Proof.
  intros H. destruct t1 as [d1|], t2 as [d2|]; try discriminate;
    simpl in H; unfold gross_margin_block; shape_auto.
Qed.

Lemma shape_net_cash_flow_block row t1 t2 cols :
  same_shape_option t1 t2 = true →
  related same_cells eq (net_cash_flow_block row t1 cols)
    (net_cash_flow_block row t2 cols).
Proof.
  intros H. destruct t1 as [d1|], t2 as [d2|]; try discriminate;
    simpl in H; unfold net_cash_flow_block; shape_auto.
Qed.

End ShapeHelpers.

#[local] Hint Resolve shape_add_quarterly_data shape_add_annual_data
  shape_working_capital_block shape_current_ratio_block
  shape_quick_ratio_block shape_gross_margin_block
  shape_net_cash_flow_block : shape.

Lemma shape_date_headers (t1 t2 : option DataFrame) c1 c2 c3 :
  same_shape_option t1 t2 = true →
  related same_cells eq (date_headers t1 c1 c2 c3) (date_headers t2 c1 c2 c3).
Proof.
  intros H. destruct t1 as [d1|], t2 as [d2|]; try discriminate;
    simpl in H; unfold date_headers; [|shape_auto].
  pose proof (same_shape_table_columns _ _ H) as Hc. rewrite Hc.
  destruct (bool_decide (3 ≤ length (columns d2))%nat) eqn:E2;
    [|shape_auto].
  apply bool_decide_eq_true in Hc, E2.
  assert (Forall2 (λ _ _ : Timestamp, True)
            (first3 (columns d1)) (first3 (columns d2))).
  { apply Forall2_true; [done|]. unfold first3. rewrite !length_take. lia. }
  shape_auto.
Qed.

Lemma shape_add_item (q1 q2 a1 a2 : option DataFrame) row item :
  same_shape_option q1 q2 = true → same_shape_option a1 a2 = true →
  related same_cells eq (add_item q1 a1 row item) (add_item q2 a2 row item).
Proof. intros Hq Ha. unfold add_item. destruct item. shape_auto. Qed.

#[local] Hint Resolve shape_date_headers shape_add_item : shape.

Section ShapeReport.

Variables g1 g2 : TeslaFinancialReportGenerator.
Hypothesis Hqb :
  same_shape_option (quarterly_balance_sheet g1) (quarterly_balance_sheet g2)
  = true.
Hypothesis Hab :
  same_shape_option (annual_balance_sheet g1) (annual_balance_sheet g2)
  = true.
Hypothesis Hqi :
  same_shape_option (quarterly_income g1) (quarterly_income g2) = true.
Hypothesis Hai :
  same_shape_option (annual_income g1) (annual_income g2) = true.
Hypothesis Hqc :
  same_shape_option (quarterly_cashflow g1) (quarterly_cashflow g2) = true.
Hypothesis Hac :
  same_shape_option (annual_cashflow g1) (annual_cashflow g2) = true.

Lemma shape_add_balance_sheet_items start_row :
  related same_cells eq (_add_balance_sheet_items g1 start_row)
    (_add_balance_sheet_items g2 start_row).
Proof using Hqb Hab.
  unfold _add_balance_sheet_items, _calculate_working_capital,
    _calculate_current_ratio, _calculate_quick_ratio.
  shape_auto.
Qed.

Lemma shape_add_income_statement_items start_row :
  related same_cells eq (_add_income_statement_items g1 start_row)
    (_add_income_statement_items g2 start_row).
Proof using Hqi Hai.
  unfold _add_income_statement_items, _calculate_gross_margin. shape_auto.
Qed.

Lemma shape_add_cash_flow_items start_row :
  related same_cells eq (_add_cash_flow_items g1 start_row)
    (_add_cash_flow_items g2 start_row).
Proof using Hqc Hac.
  unfold _add_cash_flow_items, _calculate_net_cash_flow. shape_auto.
Qed.

Lemma shape_create_excel_report (y1 y2 : Z) :
  related same_cells eq (create_excel_report g1 y1)
    (create_excel_report g2 y2).
Proof using All.
  pose proof shape_add_balance_sheet_items.
  pose proof shape_add_income_statement_items.
  pose proof shape_add_cash_flow_items.
  unfold create_excel_report. shape_auto.
Qed.

End ShapeReport.

(** ** Cells a computation leaves alone *)

Section Preserves.

Variable a : string * N.

Lemma preserves_ret {A : Type} (x : A) : preserves a (mret x).
Proof. by intros ws. Qed.

Lemma preserves_of_option {A : Type} (e : exception) (o : option A) :
  preserves a (of_option e o).
Proof. intros ws. by destruct o. Qed.

Lemma preserves_bind {A B : Type} (m : M A) (k : A → M B) :
  preserves a m → (∀ x, preserves a (k x)) → preserves a (m ≫= k).
Proof.
  intros Hm Hk ws. rewrite exec_bind.
  destruct (outcome m ws); [apply Hm|]. rewrite Hk. apply Hm.
Qed.

(** An element read from a list is an element of the list. *)
Lemma preserves_bind_getitem {A B : Type} (l : list A) (i : nat)
    (k : A → M B) :
  (∀ x, x ∈ l → preserves a (k x)) → preserves a (getitem l i ≫= k).
Proof.
  intros Hk ws. rewrite exec_bind. unfold getitem, of_option.
  destruct (l !! i) as [x|] eqn:E; [|done].
  simpl. apply Hk. by eapply list_elem_of_lookup_2.
Qed.

Lemma preserves_fmap {A B : Type} (f : A → B) (m : M A) :
  preserves a m → preserves a (f <$> m).
Proof.
  intros Hm ws. unfold exec. rewrite run_fmap.
  specialize (Hm ws). by destruct (outcome m ws).
Qed.

Lemma preserves_try_except (m : M unit) :
  preserves a m → preserves a (try_except m).
Proof. intros Hm ws. apply Hm. Qed.

Lemma preserves_for_enumerate {A : Type} (l : list A) (start : nat)
    (body : nat → A → M unit) :
  (∀ i x, preserves a (body i x)) →
  preserves a (for_enumerate start l body).
Proof.
  intros Hb. revert start. induction l as [|x l IH]; intros start; simpl.
  - apply preserves_ret.
  - apply preserves_bind; [apply Hb | intros _; apply IH].
Qed.

Lemma preserves_for_rows {A : Type} (l : list A) (row : N)
    (body : N → A → M unit) :
  (∀ r x, (row ≤ r)%N → preserves a (body r x)) →
  preserves a (for_rows l row body).
Proof.
  revert row. induction l as [|x l IH]; intros row Hb; simpl.
  - apply preserves_ret.
  - apply preserves_bind; [apply Hb; lia|]. intros _. apply IH.
    intros r y Hr. apply Hb. lia.
Qed.

Lemma preserves_with_cell b (f : Cell → Cell) ws :
  b ≠ a → cells (with_cell b f ws) !! a = cells ws !! a.
Proof. intros Hb. simpl. by rewrite lookup_insert_ne. Qed.

Lemma preserves_ws_set b v : b ≠ a → preserves a (ws_set b v).
Proof. intros Hb ws. by apply preserves_with_cell. Qed.

Lemma preserves_ws_set_number_format b fmt :
  b ≠ a → preserves a (ws_set_number_format b fmt).
Proof. intros Hb ws. by apply preserves_with_cell. Qed.

Lemma preserves_ws_set_font b font : b ≠ a → preserves a (ws_set_font b font).
Proof. intros Hb ws. by apply preserves_with_cell. Qed.

Lemma preserves_ws_set_alignment b h :
  b ≠ a → preserves a (ws_set_alignment b h).
Proof. intros Hb ws. by apply preserves_with_cell. Qed.

Lemma preserves_ws_set_title t : preserves a (ws_set_title t).
Proof. by intros ws. Qed.

Lemma preserves_ws_merge_cells range : preserves a (ws_merge_cells range).
Proof. by intros ws. Qed.

Lemma preserves_ws_set_width col w : preserves a (ws_set_width col w).
Proof. by intros ws. Qed.

End Preserves.

Create HintDb preserves discriminated.

#[local] Hint Resolve preserves_ret preserves_of_option preserves_ws_set_title
  preserves_ws_merge_cells preserves_ws_set_width : preserves.

(** The cell written is not the cell watched: they differ in the row, or
    the column written is one of a list the watched column is not in. *)
Ltac other_cell :=
  let E := fresh in
  intros E;
  first [ discriminate E
        | injection E; intros; subst; lia
        | subst; cbn [fst snd] in *;
          match goal with
          | H : _ ∨ _ |- _ =>
              destruct H as [H|H];
                [ congruence
                | apply H; rewrite ?elem_of_app, ?elem_of_cons; auto 10 ]
          end ].

Ltac preserves_auto :=
  lazymatch goal with
  | |- preserves _ (mret _) => apply preserves_ret
  | |- preserves _ (getitem _ _ ≫= _) =>
      apply preserves_bind_getitem; intros ? ?; preserves_auto
  | |- preserves _ (_ ≫= _) =>
      apply preserves_bind; [preserves_auto | intros ?; preserves_auto]
  | |- preserves _ (_ <$> _) => apply preserves_fmap; preserves_auto
  | |- preserves _ (try_except _) =>
      apply preserves_try_except; preserves_auto
  | |- preserves _ (for_enumerate _ _ _) =>
      apply preserves_for_enumerate; intros ? ?; preserves_auto
  | |- preserves _ (ws_set _ _) => apply preserves_ws_set; other_cell
  | |- preserves _ (ws_set_number_format _ _) =>
      apply preserves_ws_set_number_format; other_cell
  | |- preserves _ (ws_set_font _ _) =>
      apply preserves_ws_set_font; other_cell
  | |- preserves _ (ws_set_alignment _ _) =>
      apply preserves_ws_set_alignment; other_cell
  | |- preserves _ (if ?b then _ else _) => destruct b; preserves_auto
  | |- preserves _ (match ?x with _ => _ end) => destruct x; preserves_auto
  | |- _ => solve [eauto with preserves]
  end.

Section PreservesHelpers.

Implicit Types (a : string * N) (row : N) (t : option DataFrame).

Lemma preserves_loc a df name : preserves a (loc df name).
Proof. apply preserves_of_option. Qed.

Lemma preserves_loc_or_zeros a df name : preserves a (loc_or_zeros df name).
Proof.
  unfold loc_or_zeros. destruct (in_index name df).
  - apply preserves_fmap, preserves_loc.
  - apply preserves_ret.
Qed.

Hint Resolve preserves_loc preserves_loc_or_zeros : preserves.

Lemma preserves_add_quarterly_data a row t field c1 c2 c3 c4 c5 c6 :
  a.2 ≠ row ∨ a.1 ∉ [c1; c2; c3; c4; c5] →
  preserves a (_add_quarterly_data row t field c1 c2 c3 c4 c5 c6).
Proof. intros Hoff. unfold _add_quarterly_data. preserves_auto. Qed.

Lemma preserves_add_annual_data a row t field c1 c2 c3 c4 c5 :
  a.2 ≠ row ∨ a.1 ∉ [c1; c2; c3; c4; c5] →
  preserves a (_add_annual_data row t field c1 c2 c3 c4 c5).
Proof. intros Hoff. unfold _add_annual_data. preserves_auto. Qed.

Lemma preserves_working_capital_block a row t cols pct_cols :
  a.2 ≠ row ∨ a.1 ∉ (cols ++ pct_cols)%list →
  preserves a (working_capital_block row t cols pct_cols).
Proof. intros Hoff. unfold working_capital_block. preserves_auto. Qed.

Lemma preserves_current_ratio_block a row t cols :
  a.2 ≠ row ∨ a.1 ∉ cols →
  preserves a (current_ratio_block row t cols).
Proof. intros Hoff. unfold current_ratio_block. preserves_auto. Qed.

Lemma preserves_quick_ratio_block a row t cols :
  a.2 ≠ row ∨ a.1 ∉ cols →
  preserves a (quick_ratio_block row t cols).
Proof. intros Hoff. unfold quick_ratio_block. preserves_auto. Qed.

Lemma preserves_gross_margin_block a row t cols :
  a.2 ≠ row ∨ a.1 ∉ cols →
  preserves a (gross_margin_block row t cols).
Proof. intros Hoff. unfold gross_margin_block. preserves_auto. Qed.

Lemma preserves_net_cash_flow_block a row t cols :
  a.2 ≠ row ∨ a.1 ∉ cols →
  preserves a (net_cash_flow_block row t cols).
Proof. intros Hoff. unfold net_cash_flow_block. preserves_auto. Qed.

End PreservesHelpers.

(** ** Loops that fill one cell per period *)

Section Slots.

Context {A : Type}.
Variables (test : A → bool) (g : A → Cell → Cell).
Variables (body : nat → A → M unit) (cols : list string) (row : N).

Hypothesis body_spec : ∀ i x ws,
  body i x ws =
    if test x then
      match cols !! i with
      | Some col => (inr tt, with_cell (col, row) (g x) ws)
      | None => (inl IndexError, ws)
      end
    else (inr tt, ws).

Hypothesis cols_NoDup : NoDup cols.

Lemma cell_at_with_cell_ne b c (f : Cell → Cell) ws :
  b ≠ c → cell_at (with_cell b f ws) c = cell_at ws c.
Proof. intros H. unfold cell_at. simpl. by rewrite lookup_insert_ne. Qed.

(** A loop whose body writes, for the periods that pass [test], the cell of
    the period's column in row [row]: it does not raise; the cell of a
    period holds [g x] applied to what the cell was when the period passes
    the test and is left alone when not; the other columns of the row are
    left alone. *)
Lemma slots_loop (l : list A) (start : nat) ws :
  (start + length l ≤ length cols)%nat →
  outcome (for_enumerate start l body) ws = inr tt
  ∧ (∀ j x col, l !! j = Some x → cols !! (start + j)%nat = Some col →
       cells (exec (for_enumerate start l body) ws) !! (col, row)
       = if test x then Some (g x (cell_at ws (col, row)))
         else cells ws !! (col, row))
  ∧ (∀ col, (∀ j, (j < length l)%nat → cols !! (start + j)%nat ≠ Some col) →
       cells (exec (for_enumerate start l body) ws) !! (col, row)
       = cells ws !! (col, row)).
Proof using body_spec cols_NoDup.
  revert start ws. induction l as [|x l' IH]; intros start ws Hlen.
  { split; [done|]. split; [|done].
    intros j x col Hj. by rewrite lookup_nil in Hj. }
  simpl in Hlen.
  destruct (lookup_lt_is_Some_2 cols start ltac:(lia)) as [c0 Hc0].
  set (ws1 := if test x then with_cell (c0, row) (g x) ws else ws).
  assert (Hstep : for_enumerate start (x :: l') body ws
                  = for_enumerate (S start) l' body ws1).
  { cbn [for_enumerate]. rewrite run_bind. unfold outcome, exec.
    rewrite body_spec, Hc0. unfold ws1. by destruct (test x). }
  unfold outcome, exec. rewrite Hstep.
  change (for_enumerate (S start) l' body ws1).1
    with (outcome (for_enumerate (S start) l' body) ws1).
  change (for_enumerate (S start) l' body ws1).2
    with (exec (for_enumerate (S start) l' body) ws1).
  destruct (IH (S start) ws1 ltac:(lia)) as (IHo & IHi & IHu).
  assert (Hlater : ∀ j, (j < length l')%nat →
            cols !! (S start + j)%nat ≠ Some c0).
  { intros j Hj Hc. pose proof (NoDup_lookup _ _ _ _ cols_NoDup Hc0 Hc). lia. }
  split; [exact IHo|]. split.
  - intros [|j] y col Hj Hcol.
    + rewrite Nat.add_0_r, Hc0 in Hcol. simpl in Hj. simplify_eq.
      rewrite (IHu _ Hlater). unfold ws1. destruct (test y); [|done].
      simpl. by rewrite lookup_insert_eq.
    + simpl in Hj. rewrite <- Nat.add_succ_comm in Hcol.
      rewrite (IHi _ _ _ Hj Hcol).
      assert (c0 ≠ col).
      { intros ->. pose proof (NoDup_lookup _ _ _ _ cols_NoDup Hc0 Hcol).
        lia. }
      assert (Hcell : cell_at ws1 (col, row) = cell_at ws (col, row)).
      { unfold ws1. destruct (test x); [|done].
        apply cell_at_with_cell_ne. congruence. }
      assert (Hlook : cells ws1 !! (col, row) = cells ws !! (col, row)).
      { unfold ws1. destruct (test x); [|done].
        apply preserves_with_cell. congruence. }
      by rewrite Hcell, Hlook.
  - intros col Hcol. rewrite IHu.
    + unfold ws1. destruct (test x); [|done].
      apply preserves_with_cell. intros [= ->].
      apply (Hcol 0%nat); [simpl; lia|]. by rewrite Nat.add_0_r.
    + intros j Hj. rewrite Nat.add_succ_comm. apply Hcol. simpl. lia.
Qed.

End Slots.

(** ** The derived metrics, cell by cell *)

Section Blocks.

Implicit Types (df : DataFrame) (ws : Worksheet) (row : N).

Lemma run_bind_ok {A B : Type} (m : M A) (k : A → M B) ws x ws' :
  m ws = (inr x, ws') → (m ≫= k) ws = k x ws'.
Proof. intros H. unfold mbind, M_bind. by rewrite H. Qed.

Lemma run_bind_raise {A B : Type} (m : M A) (k : A → M B) ws e ws' :
  m ws = (inl e, ws') → (m ≫= k) ws = (inl e, ws').
Proof. intros H. unfold mbind, M_bind. by rewrite H. Qed.

Lemma run_loc3 df name l ws :
  rows df !! name = Some l →
  (first3 <$> loc df name) ws = (inr (first3 l), ws).
Proof. intros H. unfold fmap, M_fmap, loc, of_option. by rewrite H. Qed.

Lemma run_loc3_missing df name ws :
  rows df !! name = None →
  (first3 <$> loc df name) ws = (inl KeyError, ws).
Proof. intros H. unfold fmap, M_fmap, loc, of_option. by rewrite H. Qed.

Lemma run_loc_or_zeros df name ws :
  loc_or_zeros df name ws = (inr (leading_or_zeros df name), ws).
Proof.
  unfold loc_or_zeros, leading_or_zeros, in_index.
  destruct (rows df !! name) as [l|] eqn:E.
  - rewrite bool_decide_eq_true_2 by eauto. by apply run_loc3.
  - rewrite bool_decide_eq_false_2; [done|]. by intros [? ?].
Qed.

Lemma with_cell_twice b (f g : Cell → Cell) ws :
  with_cell b f (with_cell b g ws) = with_cell b (f ∘ g) ws.
Proof.
  unfold with_cell, cell_at. simpl.
  by rewrite lookup_insert_eq, insert_insert_eq.
Qed.

Lemma lookup_zip_Some {A B : Type} (l : list A) (k : list B) j x y :
  l !! j = Some x → k !! j = Some y → zip l k !! j = Some (x, y).
Proof. intros Hl Hk. rewrite lookup_zip_with, Hl. simpl. by rewrite Hk. Qed.

Lemma first3_lookup {A : Type} (l : list A) (j : nat) :
  (j < 3)%nat → first3 l !! j = l !! j.
Proof. apply lookup_take_lt. Qed.

Lemma length_first3 {A : Type} (l : list A) : (length (first3 l) ≤ 3)%nat.
Proof. unfold first3. rewrite length_take. lia. Qed.

Lemma length_zip_le_l {A B : Type} (l : list A) (k : list B) :
  (length (zip l k) ≤ length l)%nat.
Proof. rewrite length_zip_with. lia. Qed.

Lemma cols_lookup_lt (cols : list string) j col :
  cols !! j = Some col → (j < length cols)%nat.
Proof. intros H. apply lookup_lt_is_Some. eauto. Qed.

(** One half of the current ratio: the cell of period [j] holds the rounded
    quotient when the liabilities are not equal to zero, and is left as it
    was when they are. *)
Lemma current_ratio_block_slot row df cols cas cls ws j ca cl col :
  NoDup cols → (3 ≤ length cols)%nat → (j < 3)%nat →
  rows df !! "Total Current Assets" = Some cas →
  rows df !! "Total Current Liabilities" = Some cls →
  cas !! j = Some ca → cls !! j = Some cl → cols !! j = Some col →
  cells (exec (current_ratio_block row (Some df) cols) ws) !! (col, row)
  = if value_neqb cl zero
    then Some (set_value (VNum (round2 (value_div ca cl)))
                 (cell_at ws (col, row)))
    else cells ws !! (col, row).
Proof.
  intros Hnd Hlen Hj Hcas Hcls Hca Hcl Hcol.
  unfold current_ratio_block. rewrite exec_try_except. unfold exec.
  rewrite (run_bind_ok _ _ _ _ _ (run_loc3 _ _ _ _ Hcas)).
  rewrite (run_bind_ok _ _ _ _ _ (run_loc3 _ _ _ _ Hcls)).
  match goal with |- context [for_enumerate 0 ?lst ?b] =>
    unshelve epose proof (slots_loop (λ p : value * value, value_neqb p.2 zero)
      (λ p, set_value (VNum (round2 (value_div p.1 p.2)))) b cols row _ Hnd lst 0%nat ws _)
      as (_ & Hslot & _)
  end.
  - intros i [a b] ws0. cbn [fst snd]. destruct (value_neqb b zero); [|done].
    unfold getitem, of_option. by destruct (cols !! i).
  - pose proof (length_zip_le_l (first3 cas) (first3 cls)).
    pose proof (length_first3 cas). simpl. lia.
  - unfold exec in Hslot. erewrite (Hslot j (ca, cl) col); [done|..].
    + apply lookup_zip_Some; by rewrite first3_lookup.
    + done.
Qed.

(** One half of the quick ratio. *)
Lemma quick_ratio_block_slot row df cols cas cls ws j ca inv cl col :
  NoDup cols → (3 ≤ length cols)%nat → (j < 3)%nat →
  rows df !! "Total Current Assets" = Some cas →
  rows df !! "Total Current Liabilities" = Some cls →
  cas !! j = Some ca → leading_or_zeros df "Inventory" !! j = Some inv →
  cls !! j = Some cl → cols !! j = Some col →
  cells (exec (quick_ratio_block row (Some df) cols) ws) !! (col, row)
  = if value_neqb cl zero
    then Some (set_value (VNum (round2 (value_div (value_sub ca inv) cl)))
                 (cell_at ws (col, row)))
    else cells ws !! (col, row).
Proof.
  intros Hnd Hlen Hj Hcas Hcls Hca Hinv Hcl Hcol.
  unfold quick_ratio_block. rewrite exec_try_except. unfold exec.
  rewrite (run_bind_ok _ _ _ _ _ (run_loc3 _ _ _ _ Hcas)).
  rewrite (run_bind_ok _ _ _ _ _ (run_loc_or_zeros _ _ _)).
  rewrite (run_bind_ok _ _ _ _ _ (run_loc3 _ _ _ _ Hcls)).
  match goal with |- context [for_enumerate 0 ?lst ?b] =>
    unshelve epose proof (slots_loop
      (λ p : value * (value * value), value_neqb p.2.2 zero)
      (λ p, set_value
              (VNum (round2 (value_div (value_sub p.1 p.2.1) p.2.2))))
      b cols row _ Hnd lst 0%nat ws _)
      as (_ & Hslot & _)
  end.
  - intros i [a [b c]] ws0. cbn [fst snd].
    destruct (value_neqb c zero); [|done].
    unfold getitem, of_option. by destruct (cols !! i).
  - pose proof (length_zip_le_l (first3 cas)
                  (zip (leading_or_zeros df "Inventory") (first3 cls))).
    pose proof (length_first3 cas). simpl. lia.
  - unfold exec in Hslot. erewrite (Hslot j (ca, (inv, cl)) col); [done|..].
    + apply lookup_zip_Some; [by rewrite first3_lookup|].
      apply lookup_zip_Some; [done | by rewrite first3_lookup].
    + done.
Qed.

(** One half of the gross margin. *)
Lemma gross_margin_block_slot row df cols revs gps ws j rev gp col :
  NoDup cols → (3 ≤ length cols)%nat → (j < 3)%nat →
  rows df !! "Total Revenue" = Some revs →
  rows df !! "Gross Profit" = Some gps →
  revs !! j = Some rev → gps !! j = Some gp → cols !! j = Some col →
  cells (exec (gross_margin_block row (Some df) cols) ws) !! (col, row)
  = if value_neqb rev zero
    then Some (set_number_format "0.0%"
                 (set_value (VNum (value_div gp rev))
                    (cell_at ws (col, row))))
    else cells ws !! (col, row).
Proof.
  intros Hnd Hlen Hj Hrevs Hgps Hrev Hgp Hcol.
  unfold gross_margin_block. rewrite exec_try_except. unfold exec.
  rewrite (run_bind_ok _ _ _ _ _ (run_loc3 _ _ _ _ Hrevs)).
  rewrite (run_bind_ok _ _ _ _ _ (run_loc3 _ _ _ _ Hgps)).
  match goal with |- context [for_enumerate 0 ?lst ?b] =>
    unshelve epose proof (slots_loop (λ p : value * value, value_neqb p.1 zero)
      (λ p, set_number_format "0.0%"
              ∘ set_value (VNum (value_div p.2 p.1))) b cols row _ Hnd lst 0%nat ws _)
      as (_ & Hslot & _)
  end.
  - intros i [a b] ws0. cbn [fst snd]. destruct (value_neqb a zero); [|done].
    unfold getitem, of_option. destruct (cols !! i); [|done].
    unfold mbind, M_bind, mret, M_ret, ws_set, ws_set_number_format.
    by rewrite with_cell_twice.
  - pose proof (length_zip_le_l (first3 revs) (first3 gps)).
    pose proof (length_first3 revs). simpl. lia.
  - unfold exec in Hslot. erewrite (Hslot j (rev, gp) col); [done|..].
    + apply lookup_zip_Some; by rewrite first3_lookup.
    + done.
Qed.

(** One half of the net cash flow: every period gets its cell. *)
Lemma net_cash_flow_block_slot row df cols ws j op inv fin col :
  NoDup cols → (3 ≤ length cols)%nat →
  leading_or_zeros df "Operating Cash Flow" !! j = Some op →
  leading_or_zeros df "Investing Cash Flow" !! j = Some inv →
  leading_or_zeros df "Financing Cash Flow" !! j = Some fin →
  cols !! j = Some col →
  cells (exec (net_cash_flow_block row (Some df) cols) ws) !! (col, row)
  = Some (set_value
            (VStr (_format_currency (value_add (value_add op inv) fin)))
            (cell_at ws (col, row))).
Proof.
  intros Hnd Hlen Hop Hinv Hfin Hcol.
  unfold net_cash_flow_block. rewrite exec_try_except. unfold exec.
  rewrite !(run_bind_ok _ _ _ _ _ (run_loc_or_zeros _ _ _)).
  match goal with |- context [for_enumerate 0 ?lst ?b] =>
    unshelve epose proof (slots_loop (λ p : value * (value * value), true)
      (λ p, set_value (VStr (_format_currency
              (value_add (value_add p.1 p.2.1) p.2.2)))) b cols row _ Hnd lst 0%nat ws _)
      as (_ & Hslot & _)
  end.
  - intros i [a [b c]] ws0. cbn [fst snd].
    unfold getitem, of_option. by destruct (cols !! i).
  - pose proof (length_zip_le_l (leading_or_zeros df "Operating Cash Flow")
                  (zip (leading_or_zeros df "Investing Cash Flow")
                       (leading_or_zeros df "Financing Cash Flow"))).
    assert (length (leading_or_zeros df "Operating Cash Flow") ≤ 3)%nat.
    { unfold leading_or_zeros. destruct (rows df !! _); [|simpl; lia].
      apply length_first3. }
    simpl. lia.
  - unfold exec in Hslot. erewrite (Hslot j (op, (inv, fin)) col); [done|..].
    + by repeat apply lookup_zip_Some.
    + done.
Qed.

End Blocks.

(** ** Value and delta cells of a line item *)

Section LineItem.

Implicit Types (df : DataFrame) (ws : Worksheet) (row : N).

Lemma in_index_true df name l :
  rows df !! name = Some l → in_index name df = true.
Proof. intros H. unfold in_index. rewrite bool_decide_eq_true_2; eauto. Qed.

Lemma in_index_false df name :
  rows df !! name = None → in_index name df = false.
Proof.
  intros H. unfold in_index. rewrite bool_decide_eq_false_2; [done|].
  rewrite H. by intros [? ?].
Qed.

(** What [_add_quarterly_data] leaves behind, by the number of leading
    periods of the line item. *)
Lemma add_quarterly_data_run row df field c1 c2 c3 c4 c5 c6 ws vals :
  rows df !! field = Some vals →
  _add_quarterly_data row (Some df) field c1 c2 c3 c4 c5 c6 ws
  = (inr tt,
     match first3 vals with
     | [] => ws
     | [v0] => exec (ws_set (c1, row) (VStr (_format_currency v0))) ws
     | [v0; v1] =>
         exec (ws_set (c1, row) (VStr (_format_currency v0));;
               ws_set (c3, row) (VStr (_format_currency v1))) ws
     | v0 :: v1 :: v2 :: _ =>
         exec (ws_set (c1, row) (VStr (_format_currency v0));;
               ws_set (c3, row) (VStr (_format_currency v1));;
               ws_set (c5, row) (VStr (_format_currency v2));;
               ws_set (c2, row) (VNum (_calculate_pct_change v0 v1));;
               ws_set_number_format (c2, row)
                 (if value_ltb (value_abs (_calculate_pct_change v0 v1))
                       (Num 10)
                  then "0.00%" else "0.0");;
               ws_set (c4, row) (VNum (_calculate_pct_change v1 v2));;
               ws_set_number_format (c4, row)
                 (if value_ltb (value_abs (_calculate_pct_change v1 v2))
                       (Num 10)
                  then "0.00%" else "0.0")) ws
     end).
Proof.
  intros H. unfold _add_quarterly_data.
  rewrite (in_index_true _ _ _ H). cbn [negb].
  unfold try_except. f_equal.
  rewrite (run_bind_ok _ _ _ _ _ (run_loc3 _ _ _ _ H)).
  destruct (first3 vals) as [|v0 [|v1 [|v2 rest]]]; reflexivity.
Qed.

Lemma add_annual_data_run row df field c1 c2 c3 c4 c5 ws :
  _add_annual_data row (Some df) field c1 c2 c3 c4 c5 ws
  = _add_quarterly_data row (Some df) field c1 c2 c3 c4 c5 "" ws.
Proof. reflexivity. Qed.

Lemma add_quarterly_data_absent row t field c1 c2 c3 c4 c5 c6 ws :
  t = None ∨ (∃ df, t = Some df ∧ rows df !! field = None) →
  _add_quarterly_data row t field c1 c2 c3 c4 c5 c6 ws = (inr tt, ws).
Proof.
  intros [->|(df & -> & H)]; [done|].
  unfold _add_quarterly_data. by rewrite (in_index_false _ _ H).
Qed.

(** The number format chosen for a delta. *)
Lemma delta_number_format (delta : value) :
  let fmt := if value_ltb (value_abs delta) (Num 10)
             then "0.00%" else "0.0" in
  (fmt = "0.00%" ↔ ∃ q, delta = Num q ∧ (Qabs q < 10)%Q)
  ∧ (fmt = "0.0" ↔ ¬ ∃ q, delta = Num q ∧ (Qabs q < 10)%Q).
Proof.
  destruct delta as [|q]; simpl.
  - split; split; try done.
    + intros (q & ? & _); done.
    + intros _ (q & ? & _); done.
  - destruct (Qltb (Qabs q) 10) eqn:E.
    + apply Qltb_lt in E. split; split; try done.
      * intros _. by exists q.
      * intros H. destruct H. by exists q.
    + split; split; try done.
      * intros (q' & [= <-] & Hq). apply Qltb_lt in Hq. congruence.
      * intros _ (q' & [= <-] & Hq). apply Qltb_lt in Hq. congruence.
Qed.

End LineItem.

(** ** The claims about single cells *)

Section Cells.

Implicit Types (df : DataFrame) (ws : Worksheet) (row : N).

Lemma lookup_with_cell_eq b (f : Cell → Cell) ws :
  cells (with_cell b f ws) !! b = Some (f (cell_at ws b)).
Proof. simpl. by rewrite lookup_insert_eq. Qed.

Lemma cell_at_with_cell_eq b (f : Cell → Cell) ws :
  cell_at (with_cell b f ws) b = f (cell_at ws b).
Proof. unfold cell_at at 1. by rewrite lookup_with_cell_eq. Qed.

Lemma exec_then (m1 m2 : M unit) ws :
  outcome m1 ws = inr tt → exec (m1;; m2) ws = exec m2 (exec m1 ws).
Proof. intros H. by rewrite exec_bind, H. Qed.



(** The two sides of the threshold: a delta of 9.9999 is shown as a
    percentage, a delta of 10 as a plain number. *)
Example delta_format_at_threshold :
  let ws := exec (_add_quarterly_data 8 (Some threshold_table)
                    "Total Assets" "E" "F" "G" "H" "I" "J") new_worksheet in
  (∃ q, c_value <$> cells ws !! ("F", 8%N) = Some (VNum (Num q))
        ∧ (q == 99999 # 10000)%Q)
  ∧ c_number_format <$> cells ws !! ("F", 8%N) = Some "0.00%"
  ∧ (∃ q, c_value <$> cells ws !! ("H", 8%N) = Some (VNum (Num q))
          ∧ (q == 10)%Q)
  ∧ c_number_format <$> cells ws !! ("H", 8%N) = Some "0.0".
Proof.
  split; [|split; [|split]].
  - eexists. split; [vm_compute; reflexivity | reflexivity].
  - vm_compute. reflexivity.
  - eexists. split; [vm_compute; reflexivity | reflexivity].
  - vm_compute. reflexivity.
Qed.




(** The halves of a derived metric do not raise. *)
Lemma current_ratio_block_outcome row t cols ws :
  outcome (current_ratio_block row t cols) ws = inr tt.
Proof. by destruct t. Qed.

Lemma quick_ratio_block_outcome row t cols ws :
  outcome (quick_ratio_block row t cols) ws = inr tt.
Proof. by destruct t. Qed.

Lemma gross_margin_block_outcome row t cols ws :
  outcome (gross_margin_block row t cols) ws = inr tt.
Proof. by destruct t. Qed.

Lemma net_cash_flow_block_outcome row t cols ws :
  outcome (net_cash_flow_block row t cols) ws = inr tt.
Proof. by destruct t. Qed.

Lemma NoDup_EGI : NoDup ["E"; "G"; "I"].
Proof. compute_done. Qed.

Lemma NoDup_KMO : NoDup ["K"; "M"; "O"].
Proof. compute_done. Qed.

Lemma EGI_not_KMO j col :
  ["E"; "G"; "I"] !! j = Some col → col ∉ ["K"; "M"; "O"].
Proof.
  destruct j as [|[|[|]]]; intros [= <-]; compute_done.
Qed.

Lemma KMO_not_EGI j col :
  ["K"; "M"; "O"] !! j = Some col → col ∉ ["E"; "G"; "I"].
Proof.
  destruct j as [|[|[|]]]; intros [= <-]; compute_done.
Qed.

Lemma lookup_three_lt (cols : list string) j col :
  length cols = 3%nat → cols !! j = Some col → (j < 3)%nat.
Proof. intros <- H. apply lookup_lt_is_Some. eauto. Qed.

Lemma cell_at_preserved a {A : Type} (m : M A) ws :
  preserves a m → cell_at (exec m ws) a = cell_at ws a.
Proof. intros H. unfold cell_at. by rewrite H. Qed.

(** A derived metric made of a quarterly half on columns E, G, I and an
    annual half on columns K, M, O: the cell of a period is decided by the
    half it belongs to. *)
Lemma two_halves (half : N → option DataFrame → list string → M unit)
    (tq ta : option DataFrame) row ws
    (written : Cell → option Cell) cols j col t :
  (∀ r t cs w, outcome (half r t cs) w = inr tt) →
  (∀ a r t cs, a.2 ≠ r ∨ a.1 ∉ cs → preserves a (half r t cs)) →
  (t = tq ∧ cols = ["E"; "G"; "I"]) ∨ (t = ta ∧ cols = ["K"; "M"; "O"]) →
  cols !! j = Some col →
  (∀ w, cells (exec (half row t cols) w) !! (col, row)
        = match written (cell_at w (col, row)) with
          | Some c => Some c
          | None => cells w !! (col, row)
          end) →
  cells (exec (half row tq ["E"; "G"; "I"];;
               half row ta ["K"; "M"; "O"]) ws) !! (col, row)
  = match written (cell_at ws (col, row)) with
    | Some c => Some c
    | None => cells ws !! (col, row)
    end.
Proof.
  intros Hout Hpres Hhalf Hcol Hslot. rewrite exec_then by apply Hout.
  destruct Hhalf as [[-> ->] | [-> ->]].
  - rewrite Hpres by (right; by eapply EGI_not_KMO). apply Hslot.
  - rewrite Hslot.
    assert (Hp : preserves (col, row) (half row tq ["E"; "G"; "I"])).
    { apply Hpres. right. by eapply KMO_not_EGI. }
    by rewrite (cell_at_preserved _ _ _ Hp), Hp.
Qed.

End Cells.

(** ** Ratios, margin and net cash flow *)

Section Derived.

Implicit Types (df : DataFrame) (ws : Worksheet) (row : N).

Lemma half_cols_NoDup (cols : list string) :
  cols = ["E"; "G"; "I"] ∨ cols = ["K"; "M"; "O"] → NoDup cols.
Proof. intros [-> | ->]; [apply NoDup_EGI | apply NoDup_KMO]. Qed.

Lemma half_cols_length (cols : list string) :
  cols = ["E"; "G"; "I"] ∨ cols = ["K"; "M"; "O"] → length cols = 3%nat.
Proof. by intros [-> | ->]. Qed.

Lemma value_neqb_eqb (v : value) :
  value_neqb v zero = negb (value_eqb v zero).
Proof. reflexivity. Qed.

(** The current ratio cell of a period, after [_calculate_current_ratio]. *)
Lemma calculate_current_ratio_slot self row ws t cols df cas cls j ca cl col :
  (t = quarterly_balance_sheet self ∧ cols = ["E"; "G"; "I"])
  ∨ (t = annual_balance_sheet self ∧ cols = ["K"; "M"; "O"]) →
  t = Some df →
  rows df !! "Total Current Assets" = Some cas →
  rows df !! "Total Current Liabilities" = Some cls →
  cas !! j = Some ca → cls !! j = Some cl → cols !! j = Some col →
  cells (exec (_calculate_current_ratio self row) ws) !! (col, row)
  = if value_eqb cl zero then cells ws !! (col, row)
    else Some (set_value (VNum (round2 (value_div ca cl)))
                 (cell_at ws (col, row))).
Proof.
  intros Hhalf Ht Hcas Hcls Hca Hcl Hcol.
  assert (Hcols : cols = ["E"; "G"; "I"] ∨ cols = ["K"; "M"; "O"]).
  { destruct Hhalf as [[_ ?]|[_ ?]]; auto. }
  pose proof (half_cols_NoDup _ Hcols) as Hnd.
  pose proof (half_cols_length _ Hcols) as Hlen.
  pose proof (lookup_three_lt _ _ _ Hlen Hcol) as Hj.
  unfold _calculate_current_ratio.
  rewrite (two_halves current_ratio_block _ _ row ws
             (λ c, if value_eqb cl zero then None
                   else Some (set_value (VNum (round2 (value_div ca cl))) c))
             cols j col t).
  - by destruct (value_eqb cl zero).
  - apply current_ratio_block_outcome.
  - intros. by apply preserves_current_ratio_block.
  - destruct Hhalf as [[-> ->]|[-> ->]]; auto.
  - done.
  - intros w. rewrite Ht.
    rewrite (current_ratio_block_slot row df cols cas cls w j ca cl col)
      by (done || lia).
    rewrite value_neqb_eqb. by destruct (value_eqb cl zero).
Qed.

(** The quick ratio cell of a period, after [_calculate_quick_ratio]. *)
Lemma calculate_quick_ratio_slot self row ws t cols df cas cls j ca inv cl
    col :
  (t = quarterly_balance_sheet self ∧ cols = ["E"; "G"; "I"])
  ∨ (t = annual_balance_sheet self ∧ cols = ["K"; "M"; "O"]) →
  t = Some df →
  rows df !! "Total Current Assets" = Some cas →
  rows df !! "Total Current Liabilities" = Some cls →
  cas !! j = Some ca → leading_or_zeros df "Inventory" !! j = Some inv →
  cls !! j = Some cl → cols !! j = Some col →
  cells (exec (_calculate_quick_ratio self row) ws) !! (col, row)
  = if value_eqb cl zero then cells ws !! (col, row)
    else Some (set_value
                 (VNum (round2 (value_div (value_sub ca inv) cl)))
                 (cell_at ws (col, row))).
Proof.
  intros Hhalf Ht Hcas Hcls Hca Hinv Hcl Hcol.
  assert (Hcols : cols = ["E"; "G"; "I"] ∨ cols = ["K"; "M"; "O"]).
  { destruct Hhalf as [[_ ?]|[_ ?]]; auto. }
  pose proof (half_cols_NoDup _ Hcols) as Hnd.
  pose proof (half_cols_length _ Hcols) as Hlen.
  pose proof (lookup_three_lt _ _ _ Hlen Hcol) as Hj.
  unfold _calculate_quick_ratio.
  rewrite (two_halves quick_ratio_block _ _ row ws
             (λ c, if value_eqb cl zero then None
                   else Some (set_value
                     (VNum (round2 (value_div (value_sub ca inv) cl))) c))
             cols j col t).
  - by destruct (value_eqb cl zero).
  - apply quick_ratio_block_outcome.
  - intros. by apply preserves_quick_ratio_block.
  - destruct Hhalf as [[-> ->]|[-> ->]]; auto.
  - done.
  - intros w. rewrite Ht.
    rewrite (quick_ratio_block_slot row df cols cas cls w j ca inv cl col)
      by (done || lia).
    rewrite value_neqb_eqb. by destruct (value_eqb cl zero).
Qed.

(** The gross margin cell of a period, after [_calculate_gross_margin]. *)
Lemma calculate_gross_margin_slot self row ws t cols df revs gps j rev gp
    col :
  (t = quarterly_income self ∧ cols = ["E"; "G"; "I"])
  ∨ (t = annual_income self ∧ cols = ["K"; "M"; "O"]) →
  t = Some df →
  rows df !! "Total Revenue" = Some revs →
  rows df !! "Gross Profit" = Some gps →
  revs !! j = Some rev → gps !! j = Some gp → cols !! j = Some col →
  cells (exec (_calculate_gross_margin self row) ws) !! (col, row)
  = if value_eqb rev zero then cells ws !! (col, row)
    else Some (set_number_format "0.0%"
                 (set_value (VNum (value_div gp rev))
                    (cell_at ws (col, row)))).
Proof.
  intros Hhalf Ht Hrevs Hgps Hrev Hgp Hcol.
  assert (Hcols : cols = ["E"; "G"; "I"] ∨ cols = ["K"; "M"; "O"]).
  { destruct Hhalf as [[_ ?]|[_ ?]]; auto. }
  pose proof (half_cols_NoDup _ Hcols) as Hnd.
  pose proof (half_cols_length _ Hcols) as Hlen.
  pose proof (lookup_three_lt _ _ _ Hlen Hcol) as Hj.
  unfold _calculate_gross_margin.
  rewrite (two_halves gross_margin_block _ _ row ws
             (λ c, if value_eqb rev zero then None
                   else Some (set_number_format "0.0%"
                                (set_value (VNum (value_div gp rev)) c)))
             cols j col t).
  - by destruct (value_eqb rev zero).
  - apply gross_margin_block_outcome.
  - intros. by apply preserves_gross_margin_block.
  - destruct Hhalf as [[-> ->]|[-> ->]]; auto.
  - done.
  - intros w. rewrite Ht.
    rewrite (gross_margin_block_slot row df cols revs gps w j rev gp col)
      by (done || lia).
    rewrite value_neqb_eqb. by destruct (value_eqb rev zero).
Qed.

(** The net cash flow cell of a period, after
    [_calculate_net_cash_flow]. *)
Lemma calculate_net_cash_flow_slot self row ws t cols df j op inv fin col :
  (t = quarterly_cashflow self ∧ cols = ["E"; "G"; "I"])
  ∨ (t = annual_cashflow self ∧ cols = ["K"; "M"; "O"]) →
  t = Some df →
  leading_or_zeros df "Operating Cash Flow" !! j = Some op →
  leading_or_zeros df "Investing Cash Flow" !! j = Some inv →
  leading_or_zeros df "Financing Cash Flow" !! j = Some fin →
  cols !! j = Some col →
  cells (exec (_calculate_net_cash_flow self row) ws) !! (col, row)
  = Some (set_value
            (VStr (_format_currency (value_add (value_add op inv) fin)))
            (cell_at ws (col, row))).
Proof.
  intros Hhalf Ht Hop Hinv Hfin Hcol.
  assert (Hcols : cols = ["E"; "G"; "I"] ∨ cols = ["K"; "M"; "O"]).
  { destruct Hhalf as [[_ ?]|[_ ?]]; auto. }
  pose proof (half_cols_NoDup _ Hcols) as Hnd.
  pose proof (half_cols_length _ Hcols) as Hlen.
  unfold _calculate_net_cash_flow.
  rewrite (two_halves net_cash_flow_block _ _ row ws
             (λ c, Some (set_value (VStr (_format_currency
                      (value_add (value_add op inv) fin))) c))
             cols j col t).
  - done.
  - apply net_cash_flow_block_outcome.
  - intros. by apply preserves_net_cash_flow_block.
  - destruct Hhalf as [[-> ->]|[-> ->]]; auto.
  - done.
  - intros w. rewrite Ht.
    by rewrite (net_cash_flow_block_slot row df cols w j op inv fin col)
      by (done || lia).
Qed.

Lemma current_ratio_run b ws a0 a1 a2 l0 l1 l2 :
  total_current_assets b = [a0; a1; a2] →
  total_current_liabilities b = [l0; l1; l2] →
  current_ratio b ws
  = (inr [ if value_eqb l0 zero then zero else value_div a0 l0;
           if value_eqb l1 zero then zero else value_div a1 l1;
           if value_eqb l2 zero then zero else value_div a2 l2 ], ws).
Proof.
  intros Ha Hl. unfold current_ratio, for_range3. rewrite Ha, Hl.
  unfold value_neqb, getitem, of_option. simpl.
  cbv [mbind mret M_bind M_ret].
  by destruct (value_eqb l0 zero), (value_eqb l1 zero), (value_eqb l2 zero).
Qed.

Lemma quick_ratio_run b ws q0 q1 q2 l0 l1 l2 :
  total_current_liabilities b = [l0; l1; l2] →
  quick_ratio b [q0; q1; q2] ws
  = (inr [ if value_eqb l0 zero then zero else value_div q0 l0;
           if value_eqb l1 zero then zero else value_div q1 l1;
           if value_eqb l2 zero then zero else value_div q2 l2 ], ws).
Proof.
  intros Hl. unfold quick_ratio, for_range3. rewrite Hl.
  unfold value_neqb, getitem, of_option. simpl.
  cbv [mbind mret M_bind M_ret].
  by destruct (value_eqb l0 zero), (value_eqb l1 zero), (value_eqb l2 zero).
Qed.

(** C2 (as stated, refuted).  In [financial_report_generator.py] a current
    or quick ratio whose denominator is zero is the number 0: with current
    liabilities of 0 in the latest period, both ratio lists start with 0,
    and the Current Ratio cell F25 of the report holds the number 0. *)
Lemma ratio_of_zero_denominator_is_zero :
  ∃ b i c,
    get_balance_sheet_data (Some zero_liabilities_balance_sheet) = Some b
    ∧ get_income_statement_data (Some sample_income) = Some i
    ∧ get_cash_flow_data (Some sample_cashflow) = Some c
    ∧ total_current_liabilities b = [Num 0; NaN; Num 40]
    ∧ outcome (current_ratio b) new_worksheet
      = inr [Num 0; NaN; Num (80 / 40)]
    ∧ outcome (quick_ratio b [Num 90; Num 80; Num 60]) new_worksheet
      = inr [Num 0; NaN; Num (60 / 40)]
    ∧ c_value <$> cells (exec (create_report b i c) new_worksheet)
                    !! ("C", 25%N)
      = Some (VStr "Current Ratio")
    ∧ c_value <$> cells (exec (create_report b i c) new_worksheet)
                    !! ("F", 25%N)
      = Some (VNum (round2 (Num 0)))
    ∧ same_value (round2 (Num 0)) (Num 0).
Proof.
  do 3 eexists. split; [reflexivity|]. split; [reflexivity|].
  split; [reflexivity|]. repeat split; by vm_compute.
Qed.

(** C2 (as amended).  In [Colab_Q_A_fin_re.py] the cell of a period of the
    Current Ratio, the Quick Ratio or the Gross Margin is left unwritten
    when the denominator of the period equals zero, holds [NaN] when the
    denominator is missing, and holds the quotient (rounded to two places
    for the ratios, with format ["0.0%"] for the margin) otherwise; it is
    never the number 0 put in for an undefined ratio.  In
    [financial_report_generator.py] the current and the quick ratio of a
    period are the number 0 when the denominator equals zero, [NaN] when
    it is missing, and the quotient otherwise. *)
Theorem ratio_with_zero_or_missing_denominator :
  (∀ self row ws t cols df cas cls j ca cl col,
     (t = quarterly_balance_sheet self ∧ cols = ["E"; "G"; "I"])
     ∨ (t = annual_balance_sheet self ∧ cols = ["K"; "M"; "O"]) →
     t = Some df →
     rows df !! "Total Current Assets" = Some cas →
     rows df !! "Total Current Liabilities" = Some cls →
     cas !! j = Some ca → cls !! j = Some cl → cols !! j = Some col →
     let after :=
       cells (exec (_calculate_current_ratio self row) ws) !! (col, row) in
     (value_eqb cl zero = true → after = cells ws !! (col, row))
     ∧ (isna cl = true → c_value <$> after = Some (VNum NaN))
     ∧ (value_eqb cl zero = false →
        c_value <$> after = Some (VNum (round2 (value_div ca cl)))))
  ∧ (∀ self row ws t cols df cas cls j ca inv cl col,
     (t = quarterly_balance_sheet self ∧ cols = ["E"; "G"; "I"])
     ∨ (t = annual_balance_sheet self ∧ cols = ["K"; "M"; "O"]) →
     t = Some df →
     rows df !! "Total Current Assets" = Some cas →
     rows df !! "Total Current Liabilities" = Some cls →
     cas !! j = Some ca → leading_or_zeros df "Inventory" !! j = Some inv →
     cls !! j = Some cl → cols !! j = Some col →
     let after :=
       cells (exec (_calculate_quick_ratio self row) ws) !! (col, row) in
     (value_eqb cl zero = true → after = cells ws !! (col, row))
     ∧ (isna cl = true → c_value <$> after = Some (VNum NaN))
     ∧ (value_eqb cl zero = false →
        c_value <$> after
        = Some (VNum (round2 (value_div (value_sub ca inv) cl)))))
  ∧ (∀ self row ws t cols df revs gps j rev gp col,
     (t = quarterly_income self ∧ cols = ["E"; "G"; "I"])
     ∨ (t = annual_income self ∧ cols = ["K"; "M"; "O"]) →
     t = Some df →
     rows df !! "Total Revenue" = Some revs →
     rows df !! "Gross Profit" = Some gps →
     revs !! j = Some rev → gps !! j = Some gp → cols !! j = Some col →
     let after :=
       cells (exec (_calculate_gross_margin self row) ws) !! (col, row) in
     (value_eqb rev zero = true → after = cells ws !! (col, row))
     ∧ (isna rev = true → c_value <$> after = Some (VNum NaN))
     ∧ (value_eqb rev zero = false →
        c_value <$> after = Some (VNum (value_div gp rev))
        ∧ c_number_format <$> after = Some "0.0%"))
  ∧ (∀ b ws a0 a1 a2 l0 l1 l2,
     total_current_assets b = [a0; a1; a2] →
     total_current_liabilities b = [l0; l1; l2] →
     current_ratio b ws
     = (inr [ if value_eqb l0 zero then zero else value_div a0 l0;
              if value_eqb l1 zero then zero else value_div a1 l1;
              if value_eqb l2 zero then zero else value_div a2 l2 ], ws))
  ∧ (∀ b ws q0 q1 q2 l0 l1 l2,
     total_current_liabilities b = [l0; l1; l2] →
     quick_ratio b [q0; q1; q2] ws
     = (inr [ if value_eqb l0 zero then zero else value_div q0 l0;
              if value_eqb l1 zero then zero else value_div q1 l1;
              if value_eqb l2 zero then zero else value_div q2 l2 ], ws))
  ∧ (∀ a, value_div a NaN = NaN ∧ round2 NaN = NaN).
Proof.
  split; [|split; [|split; [|split; [|split]]]].
  - intros self row ws t cols df cas cls j ca cl col Hh Ht Hcas Hcls Hca Hcl
      Hcol after.
    unfold after.
    rewrite (calculate_current_ratio_slot self row ws t cols df cas cls j
               ca cl col) by done.
    split; [by intros ->|]. split.
    + destruct cl; [|done]. intros _. by destruct ca.
    + by intros ->.
  - intros self row ws t cols df cas cls j ca inv cl col Hh Ht Hcas Hcls Hca
      Hinv Hcl Hcol after.
    unfold after.
    rewrite (calculate_quick_ratio_slot self row ws t cols df cas cls j
               ca inv cl col) by done.
    split; [by intros ->|]. split.
    + destruct cl; [|done]. intros _. by destruct (value_sub ca inv).
    + by intros ->.
  - intros self row ws t cols df revs gps j rev gp col Hh Ht Hrevs Hgps Hrev
      Hgp Hcol after.
    unfold after.
    rewrite (calculate_gross_margin_slot self row ws t cols df revs gps j
               rev gp col) by done.
    split; [by intros ->|]. split.
    + destruct rev; [|done]. intros _. by destruct gp.
    + by intros ->.
  - apply current_ratio_run.
  - apply quick_ratio_run.
  - intros a. by destruct a.
Qed.

Lemma ratio_with_zero_or_missing_denominator_witness :
  (cells (exec (_calculate_current_ratio
                  (mkGenerator (Some zero_liabilities_balance_sheet)
                     None None None None None) 25) new_worksheet)
     !! ("E", 25%N) = cells new_worksheet !! ("E", 25%N))
  ∧ (c_value <$>
       cells (exec (_calculate_quick_ratio
                      (mkGenerator None (Some zero_liabilities_balance_sheet)
                         None None None None) 26) new_worksheet)
         !! ("M", 26%N) = Some (VNum NaN))
  ∧ (c_value <$>
       cells (exec (_calculate_gross_margin sample 51) new_worksheet)
         !! ("G", 51%N) = Some (VNum (value_div (Num 40) (Num 100)))
     ∧ c_number_format <$>
         cells (exec (_calculate_gross_margin sample 51) new_worksheet)
           !! ("G", 51%N) = Some "0.0%").
Proof.
  pose proof ratio_with_zero_or_missing_denominator as (Hc & Hq & Hg & _).
  split; [|split].
  - eapply (Hc (mkGenerator (Some zero_liabilities_balance_sheet)
                  None None None None None) 25%N new_worksheet
              (Some zero_liabilities_balance_sheet) ["E"; "G"; "I"]
              zero_liabilities_balance_sheet
              [Num 100; Num 90; Num 80; Num 70]
              [Num 0; NaN; Num 40; Num 35]
              0%nat (Num 100) (Num 0) "E");
      first [ by left | by vm_compute | reflexivity ].
  - eapply (Hq (mkGenerator None (Some zero_liabilities_balance_sheet)
                  None None None None) 26%N new_worksheet
              (Some zero_liabilities_balance_sheet) ["K"; "M"; "O"]
              zero_liabilities_balance_sheet
              [Num 100; Num 90; Num 80; Num 70]
              [Num 0; NaN; Num 40; Num 35]
              1%nat (Num 90) (Num 10) NaN "M");
      first [ by right | by vm_compute | reflexivity ].
  - eapply (Hg sample 51%N new_worksheet (Some sample_income)
              ["E"; "G"; "I"] sample_income
              [Num 0; Num 100; Num 100; Num 100]
              [Num 0; Num 40; Num 50; Num 50]
              1%nat (Num 100) (Num 40) "G");
      first [ by left | by vm_compute | reflexivity ].
Defined.

Lemma net_cash_flow_run c ws o0 o1 o2 i0 i1 i2 f0 f1 f2 :
  operating_cash_flow c = [o0; o1; o2] →
  investing_cash_flow c = [i0; i1; i2] →
  financing_cash_flow c = [f0; f1; f2] →
  net_cash_flow c ws
  = (inr [ value_add (value_add o0 i0) f0;
           value_add (value_add o1 i1) f1;
           value_add (value_add o2 i2) f2 ], ws).
Proof.
  intros Ho Hi Hf. unfold net_cash_flow, for_range3. by rewrite Ho, Hi, Hf.
Qed.

Lemma value_add_isna (a b : value) :
  isna (value_add a b) = true ↔ isna a = true ∨ isna b = true.
Proof. destruct a, b; simpl; intuition discriminate. Qed.

(** C5 (as stated, refuted).  Scenario C of the specification: with the
    operating cash flow missing in the latest period and the other two
    components there (-10 and 5), the sum is missing, and the Net Cash Flow
    cell E84 shows ["$0"], not the ["$(5)"] of the sum of what is there;
    [financial_report_generator.py] gets the same missing sum. *)
Lemma net_cash_flow_with_missing_component :
  leading_or_zeros sample_cashflow "Operating Cash Flow" !! 0%nat = Some NaN
  ∧ leading_or_zeros sample_cashflow "Investing Cash Flow" !! 0%nat
    = Some (Num (-10))
  ∧ leading_or_zeros sample_cashflow "Financing Cash Flow" !! 0%nat
    = Some (Num 5)
  ∧ value_add (value_add NaN (Num (-10))) (Num 5) = NaN
  ∧ c_value <$>
      cells (exec (create_excel_report sample 2026) new_worksheet)
        !! ("B", 84%N) = Some (VStr "Net Cash Flow")
  ∧ c_value <$>
      cells (exec (create_excel_report sample 2026) new_worksheet)
        !! ("E", 84%N) = Some (VStr "$0")
  ∧ _format_currency (value_add (value_add zero (Num (-10))) (Num 5))
    = "$(5)"
  ∧ (c ← get_cash_flow_data (Some sample_cashflow);
     Some (outcome (net_cash_flow c) new_worksheet))
    = Some (inr [NaN; Num (50 + -10 + 5); Num (60 + -10 + 5)]).
Proof. repeat split; by vm_compute. Qed.

(** C5 (as amended).  The Net Cash Flow cell of a period holds the
    currency form of Operating + Investing + Financing, where a component
    whose line item is absent from the table counts as zero in every
    period.  The sum is a plain sum: it is the number [a + b + c] when the
    three components are numbers, and it is missing as soon as one of them
    is missing in that period, in which case [_format_currency] shows
    ["$0"] and [format_currency] of [financial_report_generator.py] shows
    ["$nan"]. *)
Theorem net_cash_flow_is_plain_sum :
  (∀ self row ws t cols df j op inv fin col,
     (t = quarterly_cashflow self ∧ cols = ["E"; "G"; "I"])
     ∨ (t = annual_cashflow self ∧ cols = ["K"; "M"; "O"]) →
     t = Some df →
     leading_or_zeros df "Operating Cash Flow" !! j = Some op →
     leading_or_zeros df "Investing Cash Flow" !! j = Some inv →
     leading_or_zeros df "Financing Cash Flow" !! j = Some fin →
     cols !! j = Some col →
     c_value <$>
       cells (exec (_calculate_net_cash_flow self row) ws) !! (col, row)
     = Some (VStr (_format_currency (value_add (value_add op inv) fin))))
  ∧ (∀ df name, rows df !! name = None →
       leading_or_zeros df name = [zero; zero; zero])
  ∧ (∀ df name l, rows df !! name = Some l →
       leading_or_zeros df name = take 3 l)
  ∧ (∀ op inv fin,
       (isna (value_add (value_add op inv) fin) = true
        ↔ isna op = true ∨ isna inv = true ∨ isna fin = true)
       ∧ (isna (value_add (value_add op inv) fin) = true →
          _format_currency (value_add (value_add op inv) fin) = "$0"
          ∧ format_currency (value_add (value_add op inv) fin) = "$nan")
       ∧ (∀ a b c, op = Num a → inv = Num b → fin = Num c →
          value_add (value_add op inv) fin = Num (a + b + c)))
  ∧ (∀ c ws o0 o1 o2 i0 i1 i2 f0 f1 f2,
       operating_cash_flow c = [o0; o1; o2] →
       investing_cash_flow c = [i0; i1; i2] →
       financing_cash_flow c = [f0; f1; f2] →
       net_cash_flow c ws
       = (inr [ value_add (value_add o0 i0) f0;
                value_add (value_add o1 i1) f1;
                value_add (value_add o2 i2) f2 ], ws)).
Proof.
  split; [|split; [|split; [|split]]].
  - intros self row ws t cols df j op inv fin col Hh Ht Hop Hinv Hfin Hcol.
    by rewrite (calculate_net_cash_flow_slot self row ws t cols df j
                  op inv fin col).
  - intros df name H. unfold leading_or_zeros. by rewrite H.
  - intros df name l H. unfold leading_or_zeros. by rewrite H.
  - intros op inv fin. split; [|split].
    + rewrite !value_add_isna. tauto.
    + intros H. destruct (value_add (value_add op inv) fin); done.
    + by intros a b c -> -> ->.
  - apply net_cash_flow_run.
Qed.

Lemma net_cash_flow_is_plain_sum_witness :
  c_value <$>
    cells (exec (_calculate_net_cash_flow sample 84) new_worksheet)
      !! ("G", 84%N)
  = Some (VStr (_format_currency
                  (value_add (value_add (Num 50) (Num (-10))) (Num 5))))
  ∧ leading_or_zeros sample_income "Operating Cash Flow"
    = [zero; zero; zero]
  ∧ (_format_currency (value_add (value_add NaN (Num (-10))) (Num 5)) = "$0"
     ∧ format_currency (value_add (value_add NaN (Num (-10))) (Num 5))
       = "$nan").
Proof.
  pose proof net_cash_flow_is_plain_sum as (Hcell & Habsent & _ & Hsum & _).
  split; [|split].
  - apply (Hcell sample 84%N new_worksheet (Some sample_cashflow)
             ["E"; "G"; "I"] sample_cashflow 1%nat
             (Num 50) (Num (-10)) (Num 5) "G");
      first [ by left | by vm_compute | reflexivity ].
  - apply Habsent. by vm_compute.
  - apply (Hsum NaN (Num (-10)) (Num 5)). reflexivity.
Defined.

End Derived.

(** ** The report never raises, and what the fiscal-year cells hold *)

Section Succeeds.

Lemma succeeds_ret {A : Type} (x : A) : succeeds (mret x).
Proof. intros ws. by exists x. Qed.

Lemma succeeds_bind {A B : Type} (m : M A) (k : A → M B) :
  succeeds m → (∀ x, succeeds (k x)) → succeeds (m ≫= k).
Proof.
  intros Hm Hk ws. destruct (Hm ws) as [x Hx].
  rewrite outcome_bind, Hx. apply Hk.
Qed.

Lemma succeeds_try_except (m : M unit) : succeeds (try_except m).
Proof. intros ws. by exists tt. Qed.

Lemma succeeds_with_cell {A : Type} (x : A) (f : Worksheet → Worksheet) :
  succeeds (λ ws, (inr x, f ws)).
Proof. intros ws. by exists x. Qed.

Lemma succeeds_for_rows {A : Type} (l : list A) (row : N)
    (body : N → A → M unit) :
  (∀ r x, succeeds (body r x)) → succeeds (for_rows l row body).
Proof.
  intros Hb. revert row. induction l as [|x l IH]; intros row; simpl.
  - apply succeeds_ret.
  - apply succeeds_bind; [apply Hb | intros _; apply IH].
Qed.

Lemma succeeds_add_quarterly_data row t field c1 c2 c3 c4 c5 c6 :
  succeeds (_add_quarterly_data row t field c1 c2 c3 c4 c5 c6).
Proof.
  unfold _add_quarterly_data. destruct t as [df|]; [|apply succeeds_ret].
  destruct (in_index field df); [apply succeeds_try_except|].
  apply succeeds_ret.
Qed.

Lemma succeeds_add_annual_data row t field c1 c2 c3 c4 c5 :
  succeeds (_add_annual_data row t field c1 c2 c3 c4 c5).
Proof.
  unfold _add_annual_data. destruct t as [df|]; [|apply succeeds_ret].
  destruct (in_index field df); [apply succeeds_try_except|].
  apply succeeds_ret.
Qed.

(** The date headers read three dates only after checking that there are
    three. *)
Lemma succeeds_date_headers t c1 c2 c3 : succeeds (date_headers t c1 c2 c3).
Proof.
  unfold date_headers. destruct t as [df|]; [|apply succeeds_ret].
  case_bool_decide as Hlen; [|apply succeeds_ret].
  destruct (columns df) as [|d0 [|d1 [|d2 rest]]]; simpl in Hlen; try lia.
  intros ws. by exists tt.
Qed.

End Succeeds.

Create HintDb succeeds discriminated.

#[local] Hint Resolve succeeds_ret succeeds_try_except
  succeeds_add_quarterly_data succeeds_add_annual_data
  succeeds_date_headers : succeeds.

#[local] Hint Extern 1 (succeeds (ws_set _ _)) =>
  apply succeeds_with_cell : succeeds.
#[local] Hint Extern 1 (succeeds (ws_set_number_format _ _)) =>
  apply succeeds_with_cell : succeeds.
#[local] Hint Extern 1 (succeeds (ws_set_font _ _)) =>
  apply succeeds_with_cell : succeeds.
#[local] Hint Extern 1 (succeeds (ws_set_alignment _ _)) =>
  apply succeeds_with_cell : succeeds.
#[local] Hint Extern 1 (succeeds (ws_set_title _)) =>
  apply succeeds_with_cell : succeeds.
#[local] Hint Extern 1 (succeeds (ws_merge_cells _)) =>
  apply succeeds_with_cell : succeeds.
#[local] Hint Extern 1 (succeeds (ws_set_width _ _)) =>
  apply succeeds_with_cell : succeeds.

Ltac succeeds_auto :=
  lazymatch goal with
  | |- succeeds (_ ≫= _) =>
      apply succeeds_bind; [succeeds_auto | intros ?; succeeds_auto]
  | |- succeeds (for_rows _ _ _) =>
      apply succeeds_for_rows; intros ? [? ?]; succeeds_auto
  | |- succeeds (if ?b then _ else _) => destruct b; succeeds_auto
  | |- succeeds (match ?x with _ => _ end) => destruct x; succeeds_auto
  | |- _ => solve [eauto with succeeds]
  end.

Section SucceedsReport.

Variable self : TeslaFinancialReportGenerator.

Lemma succeeds_block (half : N → option DataFrame → list string → M unit)
    row (tq ta : option DataFrame) cq ca :
  (∀ r t cs w, outcome (half r t cs) w = inr tt) →
  succeeds (half row tq cq;; half row ta ca).
Proof.
  intros H. apply succeeds_bind; intros; intros ws; exists tt; apply H.
Qed.

Lemma working_capital_block_outcome row t cols pct_cols ws :
  outcome (working_capital_block row t cols pct_cols) ws = inr tt.
Proof. by destruct t. Qed.

Lemma succeeds_calculate_working_capital row :
  succeeds (_calculate_working_capital self row).
Proof.
  apply succeeds_bind; intros; intros ws; exists tt;
    apply working_capital_block_outcome.
Qed.

Lemma succeeds_calculate_current_ratio row :
  succeeds (_calculate_current_ratio self row).
Proof. apply succeeds_block, current_ratio_block_outcome. Qed.

Lemma succeeds_calculate_quick_ratio row :
  succeeds (_calculate_quick_ratio self row).
Proof. apply succeeds_block, quick_ratio_block_outcome. Qed.

Lemma succeeds_calculate_gross_margin row :
  succeeds (_calculate_gross_margin self row).
Proof. apply succeeds_block, gross_margin_block_outcome. Qed.

Lemma succeeds_calculate_net_cash_flow row :
  succeeds (_calculate_net_cash_flow self row).
Proof. apply succeeds_block, net_cash_flow_block_outcome. Qed.

Hint Resolve succeeds_calculate_working_capital
  succeeds_calculate_current_ratio succeeds_calculate_quick_ratio
  succeeds_calculate_gross_margin succeeds_calculate_net_cash_flow
  : succeeds.

Lemma succeeds_add_item q a row item : succeeds (add_item q a row item).
Proof. unfold add_item. destruct item. succeeds_auto. Qed.

Hint Resolve succeeds_add_item : succeeds.

Lemma succeeds_add_balance_sheet_items start_row :
  succeeds (_add_balance_sheet_items self start_row).
Proof.
  unfold _add_balance_sheet_items. succeeds_auto.
  all: apply succeeds_for_rows; intros; apply succeeds_add_item.
Qed.

Lemma succeeds_add_income_statement_items start_row :
  succeeds (_add_income_statement_items self start_row).
Proof. unfold _add_income_statement_items. succeeds_auto. Qed.

Lemma succeeds_add_cash_flow_items start_row :
  succeeds (_add_cash_flow_items self start_row).
Proof.
  unfold _add_cash_flow_items. succeeds_auto.
  all: apply succeeds_for_rows; intros; apply succeeds_add_item.
Qed.

Hint Resolve succeeds_add_balance_sheet_items
  succeeds_add_income_statement_items succeeds_add_cash_flow_items
  : succeeds.

(** [create_excel_report] never raises, whatever the tables. *)
Lemma succeeds_create_excel_report (now_year : Z) :
  succeeds (create_excel_report self now_year).
Proof. unfold create_excel_report. succeeds_auto. Qed.

End SucceedsReport.

(** ** Cells above the rows a section writes *)

Section Rows.

Lemma for_rows_outcome {A : Type} (l : list A) (row : N)
    (body : N → A → M unit) ws r :
  outcome (for_rows l row body) ws = inr r →
  r = (row + N.of_nat (length l))%N.
Proof.
  revert row ws. induction l as [|x l IH]; intros row ws; simpl.
  - intros [= <-]. lia.
  - rewrite outcome_bind. destruct (outcome (body row x) ws); [done|].
    intros H%IH. lia.
Qed.

Lemma preserves_bind_post a {A B : Type} (m : M A) (k : A → M B)
    (Q : A → Prop) :
  preserves a m →
  (∀ ws x, outcome m ws = inr x → Q x) →
  (∀ x, Q x → preserves a (k x)) →
  preserves a (m ≫= k).
Proof.
  intros Hm HQ Hk ws. rewrite exec_bind.
  destruct (outcome m ws) as [e|x] eqn:E; [apply Hm|].
  rewrite (Hk x (HQ _ _ E)). apply Hm.
Qed.

End Rows.

(** The cell written lies in another row than the cell watched. *)
Ltac other_row :=
  first [ discriminate
        | let E := fresh in
          intros E; injection E; intros; subst; simpl in *; lia
        | left; simpl in *; lia ].

Ltac preserves_rows :=
  lazymatch goal with
  | |- preserves _ (mret _) => apply preserves_ret
  | |- preserves _ (for_rows ?l ?r _ ≫= _) =>
      eapply (preserves_bind_post _ _ _
                (λ x, x = (r + N.of_nat (length l))%N));
        [ preserves_rows
        | intros ? ? ?; by eapply for_rows_outcome
        | intros ? ->; preserves_rows ]
  | |- preserves _ (for_rows _ _ _) =>
      apply preserves_for_rows; intros ? [? ?] ?; preserves_rows
  | |- preserves _ (_ ≫= _) =>
      apply preserves_bind; [preserves_rows | intros ?; preserves_rows]
  | |- preserves _ (ws_set _ _) => apply preserves_ws_set; other_row
  | |- preserves _ (ws_set_number_format _ _) =>
      apply preserves_ws_set_number_format; other_row
  | |- preserves _ (ws_set_font _ _) =>
      apply preserves_ws_set_font; other_row
  | |- preserves _ (ws_set_alignment _ _) =>
      apply preserves_ws_set_alignment; other_row
  | |- preserves _ (_add_quarterly_data _ _ _ _ _ _ _ _ _) =>
      apply preserves_add_quarterly_data; other_row
  | |- preserves _ (_add_annual_data _ _ _ _ _ _ _ _) =>
      apply preserves_add_annual_data; other_row
  | |- preserves _ (working_capital_block _ _ _ _) =>
      apply preserves_working_capital_block; other_row
  | |- preserves _ (current_ratio_block _ _ _) =>
      apply preserves_current_ratio_block; other_row
  | |- preserves _ (quick_ratio_block _ _ _) =>
      apply preserves_quick_ratio_block; other_row
  | |- preserves _ (gross_margin_block _ _ _) =>
      apply preserves_gross_margin_block; other_row
  | |- preserves _ (net_cash_flow_block _ _ _) =>
      apply preserves_net_cash_flow_block; other_row
  | |- preserves _ (if ?b then _ else _) => destruct b; preserves_rows
  | |- preserves _ (match ?x with _ => _ end) => destruct x; preserves_rows
  | |- _ => solve [eauto with preserves]
  end.

Section RowsReport.

Variable self : TeslaFinancialReportGenerator.
Implicit Types (a : string * N) (start_row : N).

Lemma preserves_add_item a q an row item :
  a.2 ≠ row → preserves a (add_item q an row item).
Proof.
  intros Ha. destruct a as [ac ar]. simpl in Ha. unfold add_item.
  destruct item. preserves_rows.
Qed.

Lemma preserves_add_balance_sheet_items a start_row :
  (a.2 < start_row)%N → preserves a (_add_balance_sheet_items self start_row).
Proof.
  intros Ha. destruct a as [ac ar]. simpl in Ha.
  unfold _add_balance_sheet_items, _calculate_working_capital,
    _calculate_current_ratio, _calculate_quick_ratio, add_item.
  preserves_rows.
Qed.

Lemma preserves_add_income_statement_items a start_row :
  (a.2 < start_row)%N →
  preserves a (_add_income_statement_items self start_row).
Proof.
  intros Ha. destruct a as [ac ar]. simpl in Ha.
  unfold _add_income_statement_items, _calculate_gross_margin.
  preserves_rows.
Qed.

Lemma preserves_add_cash_flow_items a start_row :
  (a.2 < start_row)%N → preserves a (_add_cash_flow_items self start_row).
Proof.
  intros Ha. destruct a as [ac ar]. simpl in Ha.
  unfold _add_cash_flow_items, _calculate_net_cash_flow, add_item.
  preserves_rows.
Qed.

Lemma preserves_date_headers a t c1 c2 c3 :
  a.2 ≠ 6%N → preserves a (date_headers t c1 c2 c3).
Proof.
  intros Ha. destruct a as [ac ar]. simpl in Ha. unfold date_headers.
  preserves_rows.
Qed.

End RowsReport.

(** ** The fiscal-year labels *)

Section FiscalYear.

Lemma ends_with_skip a v {A B : Type} (m : M A) (k : A → M B) :
  succeeds m → (∀ x, ends_with a v (k x)) → ends_with a v (m ≫= k).
Proof.
  intros Hm Hk ws. destruct (Hm ws) as [x Hx].
  rewrite exec_bind, Hx. apply Hk.
Qed.

Lemma ends_with_set a v {B : Type} (k : unit → M B) :
  (∀ x, preserves a (k x)) → ends_with a v (ws_set a v ≫= k).
Proof.
  intros Hk ws. rewrite exec_bind. simpl. rewrite Hk.
  unfold exec, ws_set. simpl. by rewrite lookup_insert_eq.
Qed.

End FiscalYear.

#[local] Hint Extern 1 (preserves _ (_add_balance_sheet_items _ _)) =>
  apply preserves_add_balance_sheet_items; simpl; lia : preserves.
#[local] Hint Extern 1 (preserves _ (_add_income_statement_items _ _)) =>
  apply preserves_add_income_statement_items; simpl; lia : preserves.
#[local] Hint Extern 1 (preserves _ (_add_cash_flow_items _ _)) =>
  apply preserves_add_cash_flow_items; simpl; lia : preserves.
#[local] Hint Extern 1 (preserves _ (date_headers _ _ _ _)) =>
  apply preserves_date_headers; simpl; lia : preserves.

#[local] Hint Resolve succeeds_add_balance_sheet_items
  succeeds_add_income_statement_items succeeds_add_cash_flow_items
  : succeeds.

(** Walk down the report to the assignment of the watched cell, then show
    that the rest leaves the cell alone. *)
Ltac ends_with_auto :=
  lazymatch goal with
  | |- ends_with ?a ?v (ws_set ?a ?v ≫= _) =>
      apply ends_with_set; intros ?; preserves_rows
  | |- ends_with _ _ (_ ≫= _) =>
      apply ends_with_skip; [succeeds_auto | intros ?; ends_with_auto]
  end.

(** Each fiscal-year cell ends with the label of its year. *)
Lemma fiscal_year_cells_end_with self (now_year : Z) col row k :
  (col, row, k) ∈ fiscal_year_labels →
  ends_with (col, row) (VStr (fiscal_year now_year k))
    (create_excel_report self now_year).
Proof.
  unfold fiscal_year_labels. rewrite !elem_of_cons, elem_of_nil.
  intros H. unfold create_excel_report.
  repeat (destruct H as [H|H]; [injection H as -> -> ->; ends_with_auto|]).
  done.
Qed.

(** ** The report as a whole *)

Section Report.

Lemma lift_rel_eq {A : Type} (r1 r2 : exception + A) :
  lift_rel eq r1 r2 → r1 = r2.
Proof. destruct r1, r2; simpl; intros H; by subst. Qed.

(** C8 (as stated, refuted).  The same tables give different grids in
    different years: the fiscal-year headers are computed from the clock. *)
Lemma report_differs_between_years :
  exec (create_excel_report sample 2025) new_worksheet
  ≠ exec (create_excel_report sample 2026) new_worksheet.
Proof.
  intros H.
  apply (f_equal (λ ws, c_value <$> cells ws !! ("K", 5%N))) in H.
  vm_compute in H. discriminate H.
Qed.

(** C8 (as amended).  The grid is a function of the tables and of the
    current year.  The run never raises.  For the same tables, two runs in
    whatever years agree on the sheet title, the merged ranges, the column
    widths and every cell other than the nine fiscal-year header cells
    K5, M5, O5, K32, M32, O32, K57, M57 and O57; these hold the labels
    ["FY"] of the current year minus 1, 2 and 3, so that runs in different
    years give different grids. *)
Theorem report_depends_on_clock_only_in_fiscal_year_cells
    (self : TeslaFinancialReportGenerator) (y1 y2 : Z) :
  outcome (create_excel_report self y1) new_worksheet = inr tt
  ∧ agree_off fiscal_year_cells
      (exec (create_excel_report self y1) new_worksheet)
      (exec (create_excel_report self y2) new_worksheet)
  ∧ (∀ col row k, (col, row, k) ∈ fiscal_year_labels →
       c_value <$>
         cells (exec (create_excel_report self y1) new_worksheet)
           !! (col, row)
       = Some (VStr (fiscal_year y1 k)))
  ∧ (y1 ≠ y2 →
       exec (create_excel_report self y1) new_worksheet
       ≠ exec (create_excel_report self y2) new_worksheet).
Proof.
  split; [|split; [|split]].
  - destruct (succeeds_create_excel_report self y1 new_worksheet)
      as [x H]. destruct x. exact H.
  - by destruct (agree_create_excel_report self y1 y2 new_worksheet
                   new_worksheet (agree_off_refl _ _)) as [Hs _].
  - intros col row k Hk. by apply fiscal_year_cells_end_with.
  - intros Hy Heq.
    assert (Hk : ("K", 5%N, 1%Z) ∈ fiscal_year_labels) by compute_done.
    pose proof (fiscal_year_cells_end_with self y1 _ _ _ Hk new_worksheet)
      as H1.
    pose proof (fiscal_year_cells_end_with self y2 _ _ _ Hk new_worksheet)
      as H2.
    pose proof (eq_trans (eq_sym H1)
                  (eq_trans (f_equal
                     (λ ws, c_value <$> cells ws !! ("K", 5%N)) Heq) H2))
      as [= E].
    change (pretty (y1 - 1)%Z = pretty (y2 - 1)%Z) in E.
    apply (inj (pretty : Z → string)) in E. lia.
Qed.

Lemma report_depends_on_clock_only_in_fiscal_year_cells_witness :
  c_value <$>
    cells (exec (create_excel_report sample 2026) new_worksheet)
      !! ("M", 32%N)
  = Some (VStr (fiscal_year 2026 2))
  ∧ exec (create_excel_report sample 2026) new_worksheet
    ≠ exec (create_excel_report sample 2027) new_worksheet.
Proof.
  pose proof (report_depends_on_clock_only_in_fiscal_year_cells
                sample 2026 2027) as (_ & _ & Hlabel & Hdiff).
  split.
  - apply Hlabel. compute_done.
  - apply Hdiff. discriminate.
Defined.

(** C6 (as stated, refuted).  A line item absent from its table leaves the
    cells of its row unwritten: without the inventory line, cell E11 does
    not exist. *)
Lemma report_cells_differ_without_inventory :
  dom (cells (exec (create_excel_report sample 2026) new_worksheet))
  ≠ dom (cells (exec (create_excel_report sample_without_inventory 2026)
                  new_worksheet)).
Proof.
  intros H.
  assert (Hin : ("E", 11%N) ∈
    dom (cells (exec (create_excel_report sample 2026) new_worksheet))).
  { apply elem_of_dom. eexists. vm_compute. reflexivity. }
  rewrite H in Hin. apply elem_of_dom in Hin as [c Hc].
  vm_compute in Hc. discriminate Hc.
Qed.

(** C6 (as amended).  The set of cells of the report depends on the shape
    of the input only: which tables are there, whether each has three
    dated columns, which line items each has, how many of the three leading
    periods each line item has, and where the denominators (current
    liabilities, revenue) are zero.  Inputs of the same shape give the same
    set of cells, whatever their values, missing or not. *)
Theorem report_cells_depend_on_shape
    (g1 g2 : TeslaFinancialReportGenerator) (y1 y2 : Z) :
  same_shape g1 g2 = true →
  dom (cells (exec (create_excel_report g1 y1) new_worksheet))
  = dom (cells (exec (create_excel_report g2 y2) new_worksheet)).
Proof.
  unfold same_shape. rewrite !andb_true_iff.
  intros [[[[[Hqb Hab] Hqi] Hai] Hqc] Hac].
  by destruct (shape_create_excel_report g1 g2 Hqb Hab Hqi Hai Hqc Hac y1 y2
                 new_worksheet new_worksheet eq_refl) as [Hs _].
Qed.

Lemma report_cells_depend_on_shape_witness :
  dom (cells (exec (create_excel_report sample 2026) new_worksheet))
  = dom (cells (exec (create_excel_report sample_with_gaps 2025)
                  new_worksheet)).
Proof.
  apply (report_cells_depend_on_shape sample sample_with_gaps 2026 2025).
  vm_compute. reflexivity.
Defined.

End Report.

(** ** The rows and columns of the report *)

Section Grid.

(** A loop over rows, with the position of each item at hand. *)
Lemma preserves_for_rows_lookup a {A : Type} (l : list A) (row : N)
    (body : N → A → M unit) :
  (∀ j x, l !! j = Some x → preserves a (body (row + N.of_nat j)%N x)) →
  preserves a (for_rows l row body).
Proof.
  revert row. induction l as [|x l IH]; intros row Hb; simpl.
  - apply preserves_ret.
  - apply preserves_bind.
    + specialize (Hb 0%nat x eq_refl). by rewrite N.add_0_r in Hb.
    + intros _. apply IH. intros j y Hj. specialize (Hb (S j) y Hj).
      by replace (row + 1 + N.of_nat j)%N
        with (row + N.of_nat (S j))%N by lia.
Qed.

Lemma not_elem_of_sub (c : string) (small big : list string) :
  forallb (λ x, bool_decide (x ∈ big)) small = true →
  c ∉ big → c ∉ small.
Proof.
  intros Hsub Hc Hin. apply Hc.
  rewrite forallb_forall in Hsub.
  eapply bool_decide_eq_true_1, Hsub.
  by apply list_elem_of_In.
Qed.

Lemma not_elem_of_other (c : string) (here there : list string) :
  forallb (λ x, bool_decide (x ∉ there)) here = true →
  c ∈ here → c ∉ there.
Proof.
  intros Hsub Hin. rewrite forallb_forall in Hsub.
  eapply bool_decide_eq_true_1, Hsub. by apply list_elem_of_In.
Qed.

End Grid.

(** The cell written is not the cell watched: the rows differ by the
    bounds at hand, or the column written is a column of the report and the
    watched one is not. *)
Ltac off_cell :=
  let E := fresh in
  intros E;
  first [ discriminate E
        | congruence
        | injection E; intros; subst; simpl in *;
          first [ lia
                | match goal with
                  | H : _ ∉ _ |- _ => apply H; compute_done
                  | H : _ ∈ _ |- _ => revert H; compute_done
                  end ] ].

Ltac off_block :=
  simpl in *;
  first [ left; lia
        | right; compute_done
        | right;
          match goal with
          | H : ?c ∉ _ |- ?c ∉ _ =>
              eapply not_elem_of_sub; [|exact H]; vm_compute; reflexivity
          | H : ?c ∈ _ |- ?c ∉ _ =>
              eapply not_elem_of_other; [|exact H]; vm_compute; reflexivity
          end ].

Ltac preserves_grid :=
  lazymatch goal with
  | |- preserves _ (mret _) => apply preserves_ret
  | |- preserves _ (for_rows ?l ?r _ ≫= _) =>
      eapply (preserves_bind_post _ _ _
                (λ x, x = (r + N.of_nat (length l))%N));
        [ preserves_grid
        | intros ? ? ?; by eapply for_rows_outcome
        | intros ? ->; preserves_grid ]
  | |- preserves _ (for_rows _ _ _) =>
      apply preserves_for_rows_lookup;
      let Hj := fresh "Hj" in
      intros ? [? ?] Hj; apply lookup_lt_Some in Hj; simpl in Hj;
      preserves_grid
  | |- preserves _ (_ ≫= _) =>
      apply preserves_bind; [preserves_grid | intros ?; preserves_grid]
  | |- preserves _ (ws_set _ _) => apply preserves_ws_set; off_cell
  | |- preserves _ (ws_set_number_format _ _) =>
      apply preserves_ws_set_number_format; off_cell
  | |- preserves _ (ws_set_font _ _) =>
      apply preserves_ws_set_font; off_cell
  | |- preserves _ (ws_set_alignment _ _) =>
      apply preserves_ws_set_alignment; off_cell
  | |- preserves _ (_add_quarterly_data _ _ _ _ _ _ _ _ _) =>
      apply preserves_add_quarterly_data; off_block
  | |- preserves _ (_add_annual_data _ _ _ _ _ _ _ _) =>
      apply preserves_add_annual_data; off_block
  | |- preserves _ (working_capital_block _ _ _ _) =>
      apply preserves_working_capital_block; off_block
  | |- preserves _ (current_ratio_block _ _ _) =>
      apply preserves_current_ratio_block; off_block
  | |- preserves _ (quick_ratio_block _ _ _) =>
      apply preserves_quick_ratio_block; off_block
  | |- preserves _ (gross_margin_block _ _ _) =>
      apply preserves_gross_margin_block; off_block
  | |- preserves _ (net_cash_flow_block _ _ _) =>
      apply preserves_net_cash_flow_block; off_block
  | |- preserves _ (date_headers _ _ _ _) =>
      unfold date_headers; preserves_grid
  | |- preserves _ (if ?b then _ else _) => destruct b; preserves_grid
  | |- preserves _ (match ?x with _ => _ end) => destruct x; preserves_grid
  | |- _ => solve [eauto with preserves]
  end.

Section GridMetrics.

Variable self : TeslaFinancialReportGenerator.
Implicit Types (a : string * N) (row : N).

Lemma preserves_calculate_working_capital a row :
  a.2 ≠ row ∨ a.1 ∉ data_columns →
  preserves a (_calculate_working_capital self row).
Proof.
  intros Ha. destruct a as [ac ar]. simpl in Ha.
  unfold _calculate_working_capital. destruct Ha; preserves_grid.
Qed.

Lemma preserves_calculate_current_ratio a row :
  a.2 ≠ row ∨ a.1 ∉ data_columns →
  preserves a (_calculate_current_ratio self row).
Proof.
  intros Ha. destruct a as [ac ar]. simpl in Ha.
  unfold _calculate_current_ratio. destruct Ha; preserves_grid.
Qed.

Lemma preserves_calculate_quick_ratio a row :
  a.2 ≠ row ∨ a.1 ∉ data_columns →
  preserves a (_calculate_quick_ratio self row).
Proof.
  intros Ha. destruct a as [ac ar]. simpl in Ha.
  unfold _calculate_quick_ratio. destruct Ha; preserves_grid.
Qed.

Lemma preserves_calculate_gross_margin a row :
  a.2 ≠ row ∨ a.1 ∉ data_columns →
  preserves a (_calculate_gross_margin self row).
Proof.
  intros Ha. destruct a as [ac ar]. simpl in Ha.
  unfold _calculate_gross_margin. destruct Ha; preserves_grid.
Qed.

Lemma preserves_calculate_net_cash_flow a row :
  a.2 ≠ row ∨ a.1 ∉ data_columns →
  preserves a (_calculate_net_cash_flow self row).
Proof.
  intros Ha. destruct a as [ac ar]. simpl in Ha.
  unfold _calculate_net_cash_flow. destruct Ha; preserves_grid.
Qed.

End GridMetrics.

(** The same, with the derived metrics taken as a whole. *)
Ltac preserves_rows_of_report :=
  lazymatch goal with
  | |- preserves _ (mret _) => apply preserves_ret
  | |- preserves _ (for_rows ?l ?r _ ≫= _) =>
      eapply (preserves_bind_post _ _ _
                (λ x, x = (r + N.of_nat (length l))%N));
        [ preserves_rows_of_report
        | intros ? ? ?; by eapply for_rows_outcome
        | intros ? ->; preserves_rows_of_report ]
  | |- preserves _ (for_rows _ _ _) =>
      apply preserves_for_rows_lookup;
      let Hj := fresh "Hj" in
      intros ? [? ?] Hj; apply lookup_lt_Some in Hj; simpl in Hj;
      cbv beta iota; unfold add_item; preserves_rows_of_report
  | |- preserves _ (_ ≫= _) =>
      apply preserves_bind;
        [preserves_rows_of_report | intros ?; preserves_rows_of_report]
  | |- preserves _ (_calculate_working_capital _ _) =>
      apply preserves_calculate_working_capital; off_block
  | |- preserves _ (_calculate_current_ratio _ _) =>
      apply preserves_calculate_current_ratio; off_block
  | |- preserves _ (_calculate_quick_ratio _ _) =>
      apply preserves_calculate_quick_ratio; off_block
  | |- preserves _ (_calculate_gross_margin _ _) =>
      apply preserves_calculate_gross_margin; off_block
  | |- preserves _ (_calculate_net_cash_flow _ _) =>
      apply preserves_calculate_net_cash_flow; off_block
  | |- preserves _ (if ?b then _ else _) =>
      destruct b; preserves_rows_of_report
  | |- preserves _ (match ?x with _ => _ end) =>
      destruct x; preserves_rows_of_report
  | |- _ => preserves_grid
  end.

Section GridReport.

Variable self : TeslaFinancialReportGenerator.

(** The rows below a section are left alone by it. *)
Lemma preserves_add_balance_sheet_items_below a start_row :
  (start_row + 18 < a.2)%N →
  preserves a (_add_balance_sheet_items self start_row).
Proof.
  intros Ha. destruct a as [ac ar]. simpl in Ha.
  unfold _add_balance_sheet_items, _calculate_working_capital,
    _calculate_current_ratio, _calculate_quick_ratio, add_item.
  preserves_grid.
Qed.

Lemma preserves_add_income_statement_items_below a start_row :
  (start_row + 16 < a.2)%N →
  preserves a (_add_income_statement_items self start_row).
Proof.
  intros Ha. destruct a as [ac ar]. simpl in Ha.
  unfold _add_income_statement_items, _calculate_gross_margin.
  preserves_grid.
Qed.

Lemma preserves_add_cash_flow_items_below a start_row :
  (start_row + 22 < a.2)%N →
  preserves a (_add_cash_flow_items self start_row).
Proof.
  intros Ha. destruct a as [ac ar]. simpl in Ha.
  unfold _add_cash_flow_items, _calculate_net_cash_flow, add_item.
  preserves_grid.
Qed.

Lemma create_excel_report_off_grid (now_year : Z) col row :
  ¬ ((col ∈ report_columns ∧ report_row row) ∨ (col, row) = ("J", 7%N)) →
  preserves (col, row) (create_excel_report self now_year).
Proof.
  intros Hoff.
  assert (Hcases : ((col ∉ report_columns) ∧ (col, row) ≠ ("J", 7%N))
                   ∨ (¬ report_row row ∧ (col, row) ≠ ("J", 7%N))).
  { destruct (decide (col ∈ report_columns)); [right|left]; tauto. }
  clear Hoff.
  unfold create_excel_report, _add_balance_sheet_items,
    _add_income_statement_items, _add_cash_flow_items,
    _calculate_working_capital, _calculate_current_ratio,
    _calculate_quick_ratio, _calculate_gross_margin,
    _calculate_net_cash_flow, add_item.
  destruct Hcases as [[Hc HJ] | [Hr HJ]].
  - preserves_grid.
  - unfold report_row in Hr. preserves_grid.
Qed.

End GridReport.

#[local] Hint Extern 2 (preserves _ (_add_balance_sheet_items _ _)) =>
  apply preserves_add_balance_sheet_items_below; simpl in *; lia : preserves.
#[local] Hint Extern 2 (preserves _ (_add_income_statement_items _ _)) =>
  apply preserves_add_income_statement_items_below; simpl in *; lia
  : preserves.
#[local] Hint Extern 2 (preserves _ (_add_cash_flow_items _ _)) =>
  apply preserves_add_cash_flow_items_below; simpl in *; lia : preserves.

(** ** Worksheets alike on a set of cells *)

Section Alike.

Variable P : string * N → Prop.

Lemma alike_refl ws : alike P ws ws.
Proof. by repeat split. Qed.

Lemma alike_sym ws1 ws2 : alike P ws1 ws2 → alike P ws2 ws1.
Proof.
  intros (Ht & Hm & Hw & Hc). repeat split; try done.
  intros a Ha. symmetry. by apply Hc.
Qed.

Lemma alike_trans ws1 ws2 ws3 :
  alike P ws1 ws2 → alike P ws2 ws3 → alike P ws1 ws3.
Proof.
  intros (Ht & Hm & Hw & Hc) (Ht' & Hm' & Hw' & Hc').
  repeat split; try congruence.
  intros a Ha. rewrite Hc by done. by apply Hc'.
Qed.

Lemma cell_at_alike ws1 ws2 a :
  alike P ws1 ws2 → P a → cell_at ws1 a = cell_at ws2 a.
Proof. intros (_ & _ & _ & H) Ha. unfold cell_at. by rewrite H. Qed.

(** The same update of the same cell on both sides. *)
Lemma alike_with_cell ws1 ws2 a (f : Cell → Cell) :
  alike P ws1 ws2 → alike P (with_cell a f ws1) (with_cell a f ws2).
Proof.
  intros Hws. pose proof Hws as (Ht & Hm & Hw & Hc).
  repeat split; try done. simpl. intros b Hb.
  destruct (decide (a = b)) as [->|Hab].
  - rewrite !lookup_insert_eq. f_equal. f_equal. by apply cell_at_alike.
  - rewrite !lookup_insert_ne by done. by apply Hc.
Qed.

Lemma alike_ws_set a v : related (alike P) eq (ws_set a v) (ws_set a v).
Proof. intros ws1 ws2 H. split; [by apply alike_with_cell | done]. Qed.

Lemma alike_ws_set_number_format a fmt :
  related (alike P) eq
    (ws_set_number_format a fmt) (ws_set_number_format a fmt).
Proof. intros ws1 ws2 H. split; [by apply alike_with_cell | done]. Qed.

Lemma alike_ws_set_font a font :
  related (alike P) eq (ws_set_font a font) (ws_set_font a font).
Proof. intros ws1 ws2 H. split; [by apply alike_with_cell | done]. Qed.

Lemma alike_ws_set_alignment a h :
  related (alike P) eq (ws_set_alignment a h) (ws_set_alignment a h).
Proof. intros ws1 ws2 H. split; [by apply alike_with_cell | done]. Qed.

Lemma alike_ws_set_title t :
  related (alike P) eq (ws_set_title t) (ws_set_title t).
Proof. intros ws1 ws2 (Ht & Hm & Hw & Hc). by repeat split. Qed.

Lemma alike_ws_merge_cells range :
  related (alike P) eq (ws_merge_cells range) (ws_merge_cells range).
Proof.
  intros ws1 ws2 (Ht & Hm & Hw & Hc). repeat split; try done.
  simpl. by rewrite Hm.
Qed.

Lemma alike_ws_set_width col w :
  related (alike P) eq (ws_set_width col w) (ws_set_width col w).
Proof.
  intros ws1 ws2 (Ht & Hm & Hw & Hc). repeat split; try done.
  simpl. by rewrite Hw.
Qed.

Lemma alike_of_option {A : Type} (e : exception) (o : option A) :
  related (alike P) eq (of_option e o) (of_option e o).
Proof. apply related_of_option. destruct o; by constructor. Qed.

(** Two computations that both stay off the cells of [P], leave the frame
    alone and do not raise. *)
Lemma alike_both_off (m1 m2 : M unit) :
  keeps_frame m1 → keeps_frame m2 →
  (∀ a, P a → preserves a m1) → (∀ a, P a → preserves a m2) →
  (∀ ws, outcome m1 ws = inr tt) → (∀ ws, outcome m2 ws = inr tt) →
  related (alike P) eq m1 m2.
Proof.
  intros Hf1 Hf2 Hp1 Hp2 Ho1 Ho2 ws1 ws2 (Ht & Hm & Hw & Hc).
  rewrite Ho1, Ho2. split; [|done].
  destruct (Hf1 ws1) as (Ht1 & Hm1 & Hw1), (Hf2 ws2) as (Ht2 & Hm2 & Hw2).
  repeat split; try congruence.
  intros a Ha. rewrite (Hp1 a Ha), (Hp2 a Ha). by apply Hc.
Qed.

End Alike.

Section RelatedRows.

Variable Rs : Worksheet → Worksheet → Prop.

Lemma related_weaken {A B : Type} (Ra Ra' : A → B → Prop)
    (m1 : M A) (m2 : M B) :
  (∀ a b, Ra a b → Ra' a b) → related Rs Ra m1 m2 → related Rs Ra' m1 m2.
Proof.
  intros HR Hm ws1 ws2 Hws. destruct (Hm ws1 ws2 Hws) as [Hs Ho].
  split; [done|].
  destruct (outcome m1 ws1), (outcome m2 ws2); simpl in *; auto.
Qed.

(** Two loops over the same items, with the position of each item at hand
    and the row both return. *)
Lemma related_for_rows_lookup {A : Type} (l : list A) (row : N)
    (body1 body2 : N → A → M unit) :
  (∀ j x, l !! j = Some x →
     related Rs eq (body1 (row + N.of_nat j)%N x)
       (body2 (row + N.of_nat j)%N x)) →
  related Rs (λ r1 r2, r1 = (row + N.of_nat (length l))%N ∧ r2 = r1)
    (for_rows l row body1) (for_rows l row body2).
Proof.
  revert row. induction l as [|x l IH]; intros row Hb; simpl.
  - apply related_ret. split; [lia | done].
  - eapply related_bind.
    + specialize (Hb 0%nat x eq_refl). rewrite N.add_0_r in Hb. exact Hb.
    + intros _ _ _. eapply related_weaken; [|apply IH].
      * intros r1 r2 [-> ->]. split; [lia | done].
      * intros j y Hj. specialize (Hb (S j) y Hj).
        by replace (row + 1 + N.of_nat j)%N
          with (row + N.of_nat (S j))%N by lia.
Qed.

End RelatedRows.

(** ** The frame of the worksheet *)

Section Frame.

Lemma keeps_frame_ret {A : Type} (x : A) : keeps_frame (mret x).
Proof. by intros ws. Qed.

Lemma keeps_frame_of_option {A : Type} (e : exception) (o : option A) :
  keeps_frame (of_option e o).
Proof. intros ws. by destruct o. Qed.

Lemma keeps_frame_bind {A B : Type} (m : M A) (k : A → M B) :
  keeps_frame m → (∀ x, keeps_frame (k x)) → keeps_frame (m ≫= k).
Proof.
  intros Hm Hk ws. rewrite exec_bind.
  destruct (outcome m ws) as [e|x]; [apply Hm|].
  destruct (Hk x (exec m ws)) as (-> & -> & ->). apply Hm.
Qed.

Lemma keeps_frame_fmap {A B : Type} (f : A → B) (m : M A) :
  keeps_frame m → keeps_frame (f <$> m).
Proof.
  intros Hm ws. unfold exec. rewrite run_fmap.
  specialize (Hm ws). by destruct (outcome m ws).
Qed.

Lemma keeps_frame_try_except (m : M unit) :
  keeps_frame m → keeps_frame (try_except m).
Proof. intros Hm ws. apply Hm. Qed.

Lemma keeps_frame_for_enumerate {A : Type} (l : list A) (start : nat)
    (body : nat → A → M unit) :
  (∀ i x, keeps_frame (body i x)) →
  keeps_frame (for_enumerate start l body).
Proof.
  intros Hb. revert start. induction l as [|x l IH]; intros start; simpl.
  - apply keeps_frame_ret.
  - apply keeps_frame_bind; [apply Hb | intros _; apply IH].
Qed.

Lemma keeps_frame_with_cell (a : string * N) (f : Cell → Cell) :
  keeps_frame (λ ws, (inr tt, with_cell a f ws)).
Proof. by intros ws. Qed.

End Frame.

Create HintDb frame discriminated.

#[local] Hint Resolve keeps_frame_ret keeps_frame_of_option : frame.
#[local] Hint Extern 1 (keeps_frame (ws_set _ _)) =>
  apply keeps_frame_with_cell : frame.
#[local] Hint Extern 1 (keeps_frame (ws_set_number_format _ _)) =>
  apply keeps_frame_with_cell : frame.
#[local] Hint Extern 1 (keeps_frame (loc _ _)) =>
  apply keeps_frame_of_option : frame.
#[local] Hint Extern 1 (keeps_frame (getitem _ _)) =>
  apply keeps_frame_of_option : frame.

Ltac frame_auto :=
  lazymatch goal with
  | |- keeps_frame (_ ≫= _) =>
      apply keeps_frame_bind; [frame_auto | intros ?; frame_auto]
  | |- keeps_frame (_ <$> _) => apply keeps_frame_fmap; frame_auto
  | |- keeps_frame (try_except _) => apply keeps_frame_try_except; frame_auto
  | |- keeps_frame (for_enumerate _ _ _) =>
      apply keeps_frame_for_enumerate; intros ? ?; frame_auto
  | |- keeps_frame (if ?b then _ else _) => destruct b; frame_auto
  | |- keeps_frame (match ?x with _ => _ end) => destruct x; frame_auto
  | |- _ => solve [eauto with frame]
  end.

Section FrameBlocks.

Implicit Types (row : N) (t : option DataFrame).

Lemma keeps_frame_add_quarterly_data row t field c1 c2 c3 c4 c5 c6 :
  keeps_frame (_add_quarterly_data row t field c1 c2 c3 c4 c5 c6).
Proof. unfold _add_quarterly_data. frame_auto. Qed.

Lemma keeps_frame_add_annual_data row t field c1 c2 c3 c4 c5 :
  keeps_frame (_add_annual_data row t field c1 c2 c3 c4 c5).
Proof. unfold _add_annual_data. frame_auto. Qed.

Lemma keeps_frame_working_capital_block row t cols pct_cols :
  keeps_frame (working_capital_block row t cols pct_cols).
Proof. unfold working_capital_block. frame_auto. Qed.

Lemma keeps_frame_current_ratio_block row t cols :
  keeps_frame (current_ratio_block row t cols).
Proof. unfold current_ratio_block. frame_auto. Qed.

Lemma keeps_frame_quick_ratio_block row t cols :
  keeps_frame (quick_ratio_block row t cols).
Proof. unfold quick_ratio_block, loc_or_zeros. frame_auto. Qed.

Lemma keeps_frame_gross_margin_block row t cols :
  keeps_frame (gross_margin_block row t cols).
Proof. unfold gross_margin_block. frame_auto. Qed.

Lemma keeps_frame_net_cash_flow_block row t cols :
  keeps_frame (net_cash_flow_block row t cols).
Proof. unfold net_cash_flow_block, loc_or_zeros. frame_auto. Qed.

Lemma keeps_frame_date_headers t c1 c2 c3 :
  keeps_frame (date_headers t c1 c2 c3).
Proof. unfold date_headers. frame_auto. Qed.

End FrameBlocks.

(** ** What the statement tables can change *)

Section Skeleton.

Implicit Types (row : N) (t : option DataFrame) (a : string * N).

Abbreviation fixed := (λ a : string * N, ¬ data_area a).

(** A cell outside the data area is not one of the cells of a data row in
    data columns. *)
Lemma off_data_area a row (cols : list string) :
  data_row row →
  forallb (λ x, bool_decide (x ∈ data_columns)) cols = true →
  ¬ data_area a → a.2 ≠ row ∨ a.1 ∉ cols.
Proof.
  intros Hrow Hcols Ha.
  destruct (decide (a.2 = row)) as [Heq|]; [right | by left].
  intros Hin. apply Ha. split; [|by rewrite Heq].
  rewrite forallb_forall in Hcols.
  eapply bool_decide_eq_true_1, Hcols. by apply list_elem_of_In.
Qed.

Lemma date_headers_outcome t c1 c2 c3 ws :
  outcome (date_headers t c1 c2 c3) ws = inr tt.
Proof.
  destruct (succeeds_date_headers t c1 c2 c3 ws) as [[] H]. exact H.
Qed.

Lemma add_quarterly_data_outcome row t field c1 c2 c3 c4 c5 c6 ws :
  outcome (_add_quarterly_data row t field c1 c2 c3 c4 c5 c6) ws = inr tt.
Proof.
  unfold _add_quarterly_data. destruct t as [df|]; [|done].
  by destruct (in_index field df).
Qed.

Lemma add_annual_data_outcome row t field c1 c2 c3 c4 c5 ws :
  outcome (_add_annual_data row t field c1 c2 c3 c4 c5) ws = inr tt.
Proof.
  unfold _add_annual_data. destruct t as [df|]; [|done].
  by destruct (in_index field df).
Qed.

Lemma fixed_add_quarterly_data row t1 t2 f1 f2 :
  data_row row →
  related (alike fixed) eq
    (_add_quarterly_data row t1 f1 "E" "F" "G" "H" "I" "J")
    (_add_quarterly_data row t2 f2 "E" "F" "G" "H" "I" "J").
Proof.
  intros Hrow. apply alike_both_off;
    auto using keeps_frame_add_quarterly_data, add_quarterly_data_outcome.
  all: intros a Ha; apply preserves_add_quarterly_data;
    by apply off_data_area.
Qed.

Lemma fixed_add_annual_data row t1 t2 f1 f2 :
  data_row row →
  related (alike fixed) eq
    (_add_annual_data row t1 f1 "K" "L" "M" "N" "O")
    (_add_annual_data row t2 f2 "K" "L" "M" "N" "O").
Proof.
  intros Hrow. apply alike_both_off;
    auto using keeps_frame_add_annual_data, add_annual_data_outcome.
  all: intros a Ha; apply preserves_add_annual_data;
    by apply off_data_area.
Qed.

Lemma fixed_working_capital_block row t1 t2 cols pct_cols :
  data_row row →
  forallb (λ x, bool_decide (x ∈ data_columns)) (cols ++ pct_cols) = true →
  related (alike fixed) eq (working_capital_block row t1 cols pct_cols)
    (working_capital_block row t2 cols pct_cols).
Proof.
  intros Hrow Hcols. apply alike_both_off;
    auto using keeps_frame_working_capital_block,
      working_capital_block_outcome.
  all: intros a Ha; apply preserves_working_capital_block;
    by apply off_data_area.
Qed.

Lemma fixed_current_ratio_block row t1 t2 cols :
  data_row row →
  forallb (λ x, bool_decide (x ∈ data_columns)) cols = true →
  related (alike fixed) eq (current_ratio_block row t1 cols)
    (current_ratio_block row t2 cols).
Proof.
  intros Hrow Hcols. apply alike_both_off;
    auto using keeps_frame_current_ratio_block, current_ratio_block_outcome.
  all: intros a Ha; apply preserves_current_ratio_block;
    by apply off_data_area.
Qed.

Lemma fixed_quick_ratio_block row t1 t2 cols :
  data_row row →
  forallb (λ x, bool_decide (x ∈ data_columns)) cols = true →
  related (alike fixed) eq (quick_ratio_block row t1 cols)
    (quick_ratio_block row t2 cols).
Proof.
  intros Hrow Hcols. apply alike_both_off;
    auto using keeps_frame_quick_ratio_block, quick_ratio_block_outcome.
  all: intros a Ha; apply preserves_quick_ratio_block;
    by apply off_data_area.
Qed.

Lemma fixed_gross_margin_block row t1 t2 cols :
  data_row row →
  forallb (λ x, bool_decide (x ∈ data_columns)) cols = true →
  related (alike fixed) eq (gross_margin_block row t1 cols)
    (gross_margin_block row t2 cols).
Proof.
  intros Hrow Hcols. apply alike_both_off;
    auto using keeps_frame_gross_margin_block, gross_margin_block_outcome.
  all: intros a Ha; apply preserves_gross_margin_block;
    by apply off_data_area.
Qed.

Lemma fixed_net_cash_flow_block row t1 t2 cols :
  data_row row →
  forallb (λ x, bool_decide (x ∈ data_columns)) cols = true →
  related (alike fixed) eq (net_cash_flow_block row t1 cols)
    (net_cash_flow_block row t2 cols).
Proof.
  intros Hrow Hcols. apply alike_both_off;
    auto using keeps_frame_net_cash_flow_block, net_cash_flow_block_outcome.
  all: intros a Ha; apply preserves_net_cash_flow_block;
    by apply off_data_area.
Qed.

Lemma preserves_date_headers_cols a t c1 c2 c3 :
  a.2 ≠ 6%N ∨ a.1 ∉ [c1; c2; c3] → preserves a (date_headers t c1 c2 c3).
Proof.
  intros Hoff. unfold date_headers. preserves_auto.
Qed.

Lemma fixed_date_headers t1 t2 c1 c2 c3 :
  forallb (λ x, bool_decide (x ∈ data_columns)) [c1; c2; c3] = true →
  related (alike fixed) eq (date_headers t1 c1 c2 c3)
    (date_headers t2 c1 c2 c3).
Proof.
  intros Hcols. apply alike_both_off;
    auto using keeps_frame_date_headers, date_headers_outcome.
  all: intros a Ha; apply preserves_date_headers_cols;
    apply off_data_area; [by left | done | done].
Qed.

End Skeleton.

Create HintDb alike discriminated.

#[local] Hint Resolve alike_ws_set alike_ws_set_number_format
  alike_ws_set_font alike_ws_set_alignment alike_ws_set_title
  alike_ws_merge_cells alike_ws_set_width alike_of_option : alike.

(** Two runs of the report on different tables: the same headers and
    labels on both sides, and data blocks that stay inside the data
    area. *)
Ltac data_row_here := unfold data_row; simpl in *; lia.

Ltac fixed_auto :=
  lazymatch goal with
  | |- related _ _ (mret _) (mret _) => by apply related_ret
  | |- related _ _ (for_rows _ _ _ ≫= _) (for_rows _ _ _ ≫= _) =>
      eapply related_bind;
        [ apply related_for_rows_lookup;
          let Hj := fresh "Hj" in
          intros ? [? ?] Hj; apply lookup_lt_Some in Hj; simpl in Hj;
          fixed_auto
        | intros ? ? [-> ->]; fixed_auto ]
  | |- related _ _ (_ ≫= _) (_ ≫= _) =>
      eapply (related_bind _ eq); [fixed_auto | intros ? ? <-; fixed_auto]
  | |- related _ _ (_add_quarterly_data _ _ _ _ _ _ _ _ _)
         (_add_quarterly_data _ _ _ _ _ _ _ _ _) =>
      apply fixed_add_quarterly_data; data_row_here
  | |- related _ _ (_add_annual_data _ _ _ _ _ _ _ _)
         (_add_annual_data _ _ _ _ _ _ _ _) =>
      apply fixed_add_annual_data; data_row_here
  | |- related _ _ (working_capital_block _ _ _ _)
         (working_capital_block _ _ _ _) =>
      apply fixed_working_capital_block; [data_row_here | reflexivity]
  | |- related _ _ (current_ratio_block _ _ _) (current_ratio_block _ _ _) =>
      apply fixed_current_ratio_block; [data_row_here | reflexivity]
  | |- related _ _ (quick_ratio_block _ _ _) (quick_ratio_block _ _ _) =>
      apply fixed_quick_ratio_block; [data_row_here | reflexivity]
  | |- related _ _ (gross_margin_block _ _ _) (gross_margin_block _ _ _) =>
      apply fixed_gross_margin_block; [data_row_here | reflexivity]
  | |- related _ _ (net_cash_flow_block _ _ _)
         (net_cash_flow_block _ _ _) =>
      apply fixed_net_cash_flow_block; [data_row_here | reflexivity]
  | |- related _ _ (date_headers _ _ _ _) (date_headers _ _ _ _) =>
      apply fixed_date_headers; reflexivity
  | |- related _ _ (if ?b then _ else _) (if ?b then _ else _) =>
      destruct b; fixed_auto
  | |- _ => solve [eauto with alike]
  end.

Lemma fixed_create_excel_report g1 g2 (now_year : Z) :
  related (alike (λ a, ¬ data_area a)) eq
    (create_excel_report g1 now_year) (create_excel_report g2 now_year).
Proof.
  unfold create_excel_report, _add_balance_sheet_items,
    _add_income_statement_items, _add_cash_flow_items,
    _calculate_working_capital, _calculate_current_ratio,
    _calculate_quick_ratio, _calculate_gross_margin,
    _calculate_net_cash_flow, add_item.
  fixed_auto.
Qed.

(** ** The periods the report reads *)

Section Leading.

Implicit Types (df : DataFrame) (row : N) (t : option DataFrame).

Lemma related_eq_refl {A : Type} (m : M A) : related eq eq m m.
Proof.
  intros ws1 ws2 <-. split; [done|]. by destruct (outcome m ws1).
Qed.

Lemma related_eq_run {A : Type} (m1 m2 : M A) ws :
  related eq eq m1 m2 → m1 ws = m2 ws.
Proof.
  intros H. destruct (H ws ws eq_refl) as [He Ho].
  apply lift_rel_eq in Ho. unfold exec, outcome in *.
  destruct (m1 ws), (m2 ws). simpl in *. congruence.
Qed.

Lemma first3_first3 {A : Type} (l : list A) : first3 (first3 l) = first3 l.
Proof. unfold first3. rewrite take_take. f_equal. Qed.

Lemma lookup_leading3 df name :
  rows (leading3 df) !! name = first3 <$> rows df !! name.
Proof. unfold leading3. simpl. apply lookup_fmap. Qed.

Lemma in_index_leading3 df name :
  in_index name (leading3 df) = in_index name df.
Proof.
  unfold in_index. rewrite lookup_leading3.
  apply bool_decide_ext. apply fmap_is_Some.
Qed.

Lemma leading_loc3 df name :
  related eq eq (first3 <$> loc (leading3 df) name) (first3 <$> loc df name).
Proof.
  intros ws1 ws2 <-. unfold exec, outcome. rewrite !run_fmap.
  unfold loc, outcome, exec. rewrite lookup_leading3.
  destruct (rows df !! name) as [l|]; simpl; [|done].
  by rewrite first3_first3.
Qed.

Lemma leading_loc_or_zeros df name :
  related eq eq (loc_or_zeros (leading3 df) name) (loc_or_zeros df name).
Proof.
  unfold loc_or_zeros. rewrite in_index_leading3.
  destruct (in_index name df); [apply leading_loc3 | apply related_eq_refl].
Qed.

End Leading.

Create HintDb leading discriminated.

#[local] Hint Resolve leading_loc3 leading_loc_or_zeros : leading.

(** Two runs whose tables have the same leading periods: the rows read are
    the same, and so is everything that follows. *)
Ltac leading_auto :=
  lazymatch goal with
  | |- related eq eq ?m ?m => apply related_eq_refl
  | |- related _ _ (_ ≫= _) (_ ≫= _) =>
      eapply (related_bind _ eq); [leading_auto | intros ? ? <-; leading_auto]
  | |- related _ _ (try_except _) (try_except _) =>
      eapply (related_try_except _ eq); leading_auto
  | |- related _ _ (for_rows _ _ _) (for_rows _ _ _) =>
      eapply related_for_rows; intros ? [? ?]; leading_auto
  | |- related _ _ (if ?b then _ else _) (if ?b then _ else _) =>
      destruct b; leading_auto
  | |- _ => solve [eauto with leading]
  end.

Section LeadingBlocks.

Implicit Types (df : DataFrame) (row : N) (t : option DataFrame).

Lemma leading_add_quarterly_data row t field c1 c2 c3 c4 c5 c6 :
  related eq eq
    (_add_quarterly_data row (leading3 <$> t) field c1 c2 c3 c4 c5 c6)
    (_add_quarterly_data row t field c1 c2 c3 c4 c5 c6).
Proof.
  destruct t as [df|]; [|apply related_eq_refl]. simpl.
  unfold _add_quarterly_data. rewrite in_index_leading3. leading_auto.
Qed.

Lemma leading_add_annual_data row t field c1 c2 c3 c4 c5 :
  related eq eq
    (_add_annual_data row (leading3 <$> t) field c1 c2 c3 c4 c5)
    (_add_annual_data row t field c1 c2 c3 c4 c5).
Proof.
  destruct t as [df|]; [|apply related_eq_refl]. simpl.
  unfold _add_annual_data. rewrite in_index_leading3. leading_auto.
Qed.

Lemma leading_working_capital_block row t cols pct_cols :
  related eq eq (working_capital_block row (leading3 <$> t) cols pct_cols)
    (working_capital_block row t cols pct_cols).
Proof.
  destruct t as [df|]; [|apply related_eq_refl]. simpl.
  unfold working_capital_block. leading_auto.
Qed.

Lemma leading_current_ratio_block row t cols :
  related eq eq (current_ratio_block row (leading3 <$> t) cols)
    (current_ratio_block row t cols).
Proof.
  destruct t as [df|]; [|apply related_eq_refl]. simpl.
  unfold current_ratio_block. leading_auto.
Qed.

Lemma leading_quick_ratio_block row t cols :
  related eq eq (quick_ratio_block row (leading3 <$> t) cols)
    (quick_ratio_block row t cols).
Proof.
  destruct t as [df|]; [|apply related_eq_refl]. simpl.
  unfold quick_ratio_block. leading_auto.
Qed.

Lemma leading_gross_margin_block row t cols :
  related eq eq (gross_margin_block row (leading3 <$> t) cols)
    (gross_margin_block row t cols).
Proof.
  destruct t as [df|]; [|apply related_eq_refl]. simpl.
  unfold gross_margin_block. leading_auto.
Qed.

Lemma leading_net_cash_flow_block row t cols :
  related eq eq (net_cash_flow_block row (leading3 <$> t) cols)
    (net_cash_flow_block row t cols).
Proof.
  destruct t as [df|]; [|apply related_eq_refl]. simpl.
  unfold net_cash_flow_block. leading_auto.
Qed.

Lemma leading_date_headers t c1 c2 c3 :
  related eq eq (date_headers (leading3 <$> t) c1 c2 c3)
    (date_headers t c1 c2 c3).
Proof.
  destruct t as [df|]; [|apply related_eq_refl]. simpl.
  unfold date_headers. simpl. rewrite first3_first3.
  assert (bool_decide (3 ≤ length (first3 (columns df)))%nat
          = bool_decide (3 ≤ length (columns df))%nat) as ->.
  { apply bool_decide_ext. unfold first3. rewrite length_take. lia. }
  apply related_eq_refl.
Qed.

End LeadingBlocks.

#[local] Hint Resolve leading_add_quarterly_data leading_add_annual_data
  leading_working_capital_block leading_current_ratio_block
  leading_quick_ratio_block leading_gross_margin_block
  leading_net_cash_flow_block leading_date_headers : leading.

Lemma leading_create_excel_report g (now_year : Z) :
  related eq eq (create_excel_report (leading_periods g) now_year)
    (create_excel_report g now_year).
Proof.
  unfold create_excel_report, _add_balance_sheet_items,
    _add_income_statement_items, _add_cash_flow_items,
    _calculate_working_capital, _calculate_current_ratio,
    _calculate_quick_ratio, _calculate_gross_margin,
    _calculate_net_cash_flow, add_item, leading_periods.
  simpl. leading_auto.
Qed.

(** ** Where the report places its rows *)

Section SameAt.

Variable a : string * N.

Lemma same_at_with_cell b (f : Cell → Cell) ws1 ws2 :
  same_at a ws1 ws2 → same_at a (with_cell b f ws1) (with_cell b f ws2).
Proof.
  unfold same_at. simpl. intros H.
  destruct (decide (b = a)) as [->|Hne].
  - rewrite !lookup_insert_eq. f_equal. f_equal. unfold cell_at.
    by rewrite H.
  - by rewrite !lookup_insert_ne.
Qed.

Lemma local_ws_set b v : related (same_at a) eq (ws_set b v) (ws_set b v).
Proof. intros ws1 ws2 H. split; [by apply same_at_with_cell | done]. Qed.

Lemma local_ws_set_number_format b fmt :
  related (same_at a) eq
    (ws_set_number_format b fmt) (ws_set_number_format b fmt).
Proof. intros ws1 ws2 H. split; [by apply same_at_with_cell | done]. Qed.

Lemma local_of_option {A : Type} (e : exception) (o : option A) :
  related (same_at a) eq (of_option e o) (of_option e o).
Proof. apply related_of_option. destruct o; by constructor. Qed.

End SameAt.

Create HintDb local discriminated.

#[local] Hint Resolve local_ws_set local_ws_set_number_format
  local_of_option : local.

(** A block run on two worksheets with the same cell at [a] leaves the
    same cell at [a]. *)
Ltac local_auto :=
  lazymatch goal with
  | |- related _ _ (mret _) (mret _) => by apply related_ret
  | |- related _ _ (_ ≫= _) (_ ≫= _) =>
      eapply (related_bind _ eq); [local_auto | intros ? ? <-; local_auto]
  | |- related _ _ (_ <$> _) (_ <$> _) =>
      eapply (related_fmap _ eq eq); [local_auto | intros ? ? <-; reflexivity]
  | |- related _ _ (try_except _) (try_except _) =>
      eapply (related_try_except _ eq); local_auto
  | |- related _ _ (for_enumerate _ _ _) (for_enumerate _ _ _) =>
      eapply (related_for_enumerate _ eq);
        [reflexivity | intros ? ? ? <-; local_auto]
  | |- related _ _ (getitem _ _) (getitem _ _) => apply local_of_option
  | |- related _ _ (loc _ _) (loc _ _) => apply local_of_option
  | |- related _ _ (if ?b then _ else _) _ => destruct b; local_auto
  | |- related _ _ (match ?x with _ => _ end) _ => destruct x; local_auto
  | |- _ => solve [eauto with local]
  end.

Section LocalBlocks.

Variable a : string * N.
Implicit Types (row : N) (t : option DataFrame).

Lemma local_add_quarterly_data row t field c1 c2 c3 c4 c5 c6 :
  related (same_at a) eq
    (_add_quarterly_data row t field c1 c2 c3 c4 c5 c6)
    (_add_quarterly_data row t field c1 c2 c3 c4 c5 c6).
Proof. unfold _add_quarterly_data. local_auto. Qed.

Lemma local_add_annual_data row t field c1 c2 c3 c4 c5 :
  related (same_at a) eq
    (_add_annual_data row t field c1 c2 c3 c4 c5)
    (_add_annual_data row t field c1 c2 c3 c4 c5).
Proof. unfold _add_annual_data. local_auto. Qed.

Lemma local_calculate_working_capital self row :
  related (same_at a) eq (_calculate_working_capital self row)
    (_calculate_working_capital self row).
Proof.
  unfold _calculate_working_capital, working_capital_block. local_auto.
Qed.

Lemma local_calculate_current_ratio self row :
  related (same_at a) eq (_calculate_current_ratio self row)
    (_calculate_current_ratio self row).
Proof.
  unfold _calculate_current_ratio, current_ratio_block. local_auto.
Qed.

Lemma local_calculate_quick_ratio self row :
  related (same_at a) eq (_calculate_quick_ratio self row)
    (_calculate_quick_ratio self row).
Proof.
  unfold _calculate_quick_ratio, quick_ratio_block, loc_or_zeros.
  local_auto.
Qed.

Lemma local_calculate_gross_margin self row :
  related (same_at a) eq (_calculate_gross_margin self row)
    (_calculate_gross_margin self row).
Proof.
  unfold _calculate_gross_margin, gross_margin_block. local_auto.
Qed.

Lemma local_calculate_net_cash_flow self row :
  related (same_at a) eq (_calculate_net_cash_flow self row)
    (_calculate_net_cash_flow self row).
Proof.
  unfold _calculate_net_cash_flow, net_cash_flow_block, loc_or_zeros.
  local_auto.
Qed.

End LocalBlocks.

Section Placed.

Variable a : string * N.
Context {B : Type} (b : M B).

Lemma placed_refl : placed a b b.
Proof. by intros ws. Qed.

Lemma placed_inside_post {A C : Type} (m : M A) (k : A → M C)
    (Q : A → Prop) :
  placed a b m →
  (∀ ws x, outcome m ws = inr x → Q x) →
  (∀ x, Q x → preserves a (k x)) →
  placed a b (m ≫= k).
Proof.
  intros Hm HQ Hk ws. rewrite exec_bind.
  destruct (outcome m ws) as [e|x] eqn:E; [apply Hm|].
  rewrite (Hk x (HQ _ _ E)). apply Hm.
Qed.

Lemma placed_inside {A C : Type} (m : M A) (k : A → M C) :
  placed a b m → (∀ x, preserves a (k x)) → placed a b (m ≫= k).
Proof.
  intros Hm Hk. apply (placed_inside_post m k (λ _, True)); auto.
Qed.

Lemma placed_skip_post {A C : Type} (m : M A) (k : A → M C)
    (Q : A → Prop) :
  succeeds m → preserves a m →
  related (same_at a) eq b b →
  (∀ ws x, outcome m ws = inr x → Q x) →
  (∀ x, Q x → placed a b (k x)) →
  placed a b (m ≫= k).
Proof.
  intros Hs Hp Hl HQ Hk ws. destruct (Hs ws) as [x Hx].
  rewrite exec_bind, Hx. rewrite (Hk x (HQ _ _ Hx)).
  apply (Hl (exec m ws) ws). apply Hp.
Qed.

Lemma placed_skip {A C : Type} (m : M A) (k : A → M C) :
  succeeds m → preserves a m →
  related (same_at a) eq b b →
  (∀ x, placed a b (k x)) →
  placed a b (m ≫= k).
Proof.
  intros Hs Hp Hl Hk. apply (placed_skip_post m k (λ _, True)); auto.
Qed.

(** The row of one item of a loop: the other items leave it alone. *)
Lemma placed_for_rows {A : Type} (l : list A) (row : N)
    (body : N → A → M unit) (i : nat) (x : A) :
  l !! i = Some x →
  (∀ r y, succeeds (body r y)) →
  related (same_at a) eq b b →
  placed a b (body (row + N.of_nat i)%N x) →
  (∀ j y, l !! j = Some y → j ≠ i →
     preserves a (body (row + N.of_nat j)%N y)) →
  placed a b (for_rows l row body).
Proof.
  intros Hi Hs Hl. revert row i Hi.
  induction l as [|x0 l IH]; intros row i Hi Hb Hp; [done|].
  simpl. destruct i as [|i].
  - injection Hi as ->. rewrite N.add_0_r in Hb.
    apply placed_inside; [done|]. intros _.
    apply preserves_for_rows_lookup. intros j y Hj.
    specialize (Hp (S j) y Hj ltac:(lia)).
    by replace (row + 1 + N.of_nat j)%N
      with (row + N.of_nat (S j))%N by lia.
  - apply placed_skip; [apply Hs | | done |].
    + specialize (Hp 0%nat x0 eq_refl ltac:(lia)).
      by rewrite N.add_0_r in Hp.
    + intros _. apply (IH (row + 1)%N i Hi).
      * by replace (row + 1 + N.of_nat i)%N
          with (row + N.of_nat (S i))%N by lia.
      * intros j y Hj Hne. specialize (Hp (S j) y Hj ltac:(lia)).
        by replace (row + 1 + N.of_nat j)%N
          with (row + N.of_nat (S j))%N by lia.
Qed.

End Placed.

#[local] Hint Resolve local_add_quarterly_data local_add_annual_data
  local_calculate_working_capital local_calculate_current_ratio
  local_calculate_quick_ratio local_calculate_gross_margin
  local_calculate_net_cash_flow : local.

#[local] Hint Resolve succeeds_calculate_working_capital
  succeeds_calculate_current_ratio succeeds_calculate_quick_ratio
  succeeds_calculate_gross_margin succeeds_calculate_net_cash_flow
  succeeds_add_item : succeeds.

(** Walk down a computation to the block that fills the watched cell: what
    comes before leaves the cell alone and does not raise, what comes after
    leaves it alone. *)
Ltac solve_local := solve [eauto with local].

Ltac placed_walk :=
  lazymatch goal with
  | |- placed _ _ (for_rows ?l ?r _ ≫= _) =>
      first
        [ eapply (placed_inside_post _ _ _ _
                    (λ x, x = (r + N.of_nat (length l))%N));
            [ eapply placed_for_rows;
                [ eassumption
                | intros ? [? ?]; cbv beta iota; succeeds_auto
                | solve_local
                | cbv beta iota; unfold add_item;
                  repeat match goal with
                         | H : _ = true |- _ => rewrite H
                         end;
                  placed_walk
                | let Hj := fresh "Hj" in
                  intros ? [? ?] Hj ?; apply lookup_lt_Some in Hj;
                  simpl in Hj; cbv beta iota; unfold add_item;
                  preserves_rows_of_report ]
            | intros ? ? ?; by eapply for_rows_outcome
            | intros ? ->; preserves_rows_of_report ]
        | eapply (placed_skip_post _ _ _ _
                    (λ x, x = (r + N.of_nat (length l))%N));
            [ succeeds_auto
            | unfold add_item; preserves_rows_of_report
            | solve_local
            | intros ? ? ?; by eapply for_rows_outcome
            | intros ? ->; placed_walk ] ]
  | |- placed _ _ (for_rows _ _ _) =>
      eapply placed_for_rows;
        [ eassumption
        | intros ? [? ?]; cbv beta iota; succeeds_auto
        | solve_local
        | cbv beta iota; unfold add_item;
          repeat match goal with
                 | H : _ = true |- _ => rewrite H
                 end;
          placed_walk
        | let Hj := fresh "Hj" in
          intros ? [? ?] Hj ?; apply lookup_lt_Some in Hj;
          simpl in Hj; cbv beta iota; unfold add_item;
          preserves_rows_of_report ]
  | |- placed _ _ (_ ≫= _) =>
      first [ apply placed_inside;
                [ first [apply placed_refl | assumption]
                | intros ?; preserves_rows_of_report ]
            | apply placed_skip;
                [ succeeds_auto | preserves_rows_of_report | solve_local
                | intros ?; placed_walk ] ]
  | |- placed _ _ _ => first [apply placed_refl | assumption]
  end.

Section PlacedReport.

Variables (self : TeslaFinancialReportGenerator) (now_year : Z).
Context {B : Type} (b : M B).
Variables (col : string) (row : N).
Hypothesis Hlocal : related (same_at (col, row)) eq b b.

Local Hint Resolve Hlocal : local.

Lemma placed_in_balance_sheet :
  (8 ≤ row ≤ 26)%N →
  placed (col, row) b (_add_balance_sheet_items self 8) →
  placed (col, row) b (create_excel_report self now_year).
Proof.
  intros Hrow Hsec. unfold create_excel_report. placed_walk.
Qed.

Lemma placed_in_income_statement :
  (35 ≤ row ≤ 51)%N →
  placed (col, row) b (_add_income_statement_items self 35) →
  placed (col, row) b (create_excel_report self now_year).
Proof.
  intros Hrow Hsec. unfold create_excel_report. placed_walk.
Qed.

Lemma placed_in_cash_flow :
  (62 ≤ row ≤ 84)%N →
  placed (col, row) b (_add_cash_flow_items self 62) →
  placed (col, row) b (create_excel_report self now_year).
Proof.
  intros Hrow Hsec. unfold create_excel_report. placed_walk.
Qed.

End PlacedReport.

(** ** The rows of the line items *)

Section ItemFields.

(** The field names of the item lists are not empty, and none is the
    name of a derived metric. *)
Lemma balance_sheet_items_fields i name f :
  balance_sheet_items !! i = Some (name, Some f) →
  truthy (Some f) && negb (bool_decide (Some f = Some "Working Capital"))
  = true.
Proof.
  do 7 (destruct i as [|i]; [by intros [= <- <-] || by intros [=]|]).
  done.
Qed.

Lemma liability_items_fields i name f :
  liability_items !! i = Some (name, Some f) → truthy (Some f) = true.
Proof.
  do 7 (destruct i as [|i]; [by intros [= <- <-] || by intros [=]|]).
  done.
Qed.

Lemma income_items_fields i name f :
  income_items !! i = Some (name, Some f) → truthy (Some f) = true.
Proof.
  do 17 (destruct i as [|i]; [by intros [= <- <-] || by intros [=]|]).
  done.
Qed.

Lemma operating_items_fields i name f :
  operating_items !! i = Some (name, Some f) → truthy (Some f) = true.
Proof.
  do 5 (destruct i as [|i]; [by intros [= <- <-] || by intros [=]|]).
  done.
Qed.

Lemma investing_items_fields i name f :
  investing_items !! i = Some (name, Some f) → truthy (Some f) = true.
Proof.
  do 4 (destruct i as [|i]; [by intros [= <- <-] || by intros [=]|]).
  done.
Qed.

Lemma financing_items_fields i name f :
  financing_items !! i = Some (name, Some f) → truthy (Some f) = true.
Proof.
  do 4 (destruct i as [|i]; [by intros [= <- <-] || by intros [=]|]).
  done.
Qed.

End ItemFields.

Section PlacedItems.

Variables (self : TeslaFinancialReportGenerator) (now_year : Z).

Lemma placed_balance_sheet_item i name field :
  balance_sheet_items !! i = Some (name, field) →
  item_placed (create_excel_report self now_year) "C" (8 + N.of_nat i)%N name field
    (quarterly_balance_sheet self) (annual_balance_sheet self).
Proof.
  intros Hi. pose proof Hi as Hlt. apply lookup_lt_Some in Hlt.
  simpl in Hlt. split; [|intros f ->; split; intros c Hc].
  all: try pose proof (balance_sheet_items_fields _ _ _ Hi) as Hf.
  all: apply placed_in_balance_sheet; [solve_local | lia |].
  all: unfold _add_balance_sheet_items; placed_walk.
Qed.

Lemma placed_liability_item i name field :
  liability_items !! i = Some (name, field) →
  item_placed (create_excel_report self now_year) "C" (17 + N.of_nat i)%N name field
    (quarterly_balance_sheet self) (annual_balance_sheet self).
Proof.
  intros Hi. pose proof Hi as Hlt. apply lookup_lt_Some in Hlt.
  simpl in Hlt. split; [|intros f ->; split; intros c Hc].
  all: try pose proof (liability_items_fields _ _ _ Hi) as Hf.
  all: apply placed_in_balance_sheet; [solve_local | lia |].
  all: unfold _add_balance_sheet_items; placed_walk.
Qed.

Lemma placed_income_item i name field :
  income_items !! i = Some (name, field) →
  item_placed (create_excel_report self now_year) "C" (35 + N.of_nat i)%N name field
    (quarterly_income self) (annual_income self).
Proof.
  intros Hi. pose proof Hi as Hlt. apply lookup_lt_Some in Hlt.
  simpl in Hlt. split; [|intros f ->; split; intros c Hc].
  all: try pose proof (income_items_fields _ _ _ Hi) as Hf.
  all: apply placed_in_income_statement; [solve_local | lia |].
  all: unfold _add_income_statement_items.
  all: placed_walk.
Qed.

Lemma placed_operating_item i name field :
  operating_items !! i = Some (name, field) →
  item_placed (create_excel_report self now_year) "C" (63 + N.of_nat i)%N
    name field (quarterly_cashflow self) (annual_cashflow self).
Proof.
  intros Hi. pose proof Hi as Hlt. apply lookup_lt_Some in Hlt.
  simpl in Hlt. split; [|intros f ->; split; intros c Hc].
  all: try pose proof (operating_items_fields _ _ _ Hi) as Hf.
  all: apply placed_in_cash_flow; [solve_local | lia |].
  all: unfold _add_cash_flow_items; placed_walk.
Qed.

Lemma placed_investing_item i name field :
  investing_items !! i = Some (name, field) →
  item_placed (create_excel_report self now_year) "C" (71 + N.of_nat i)%N
    name field (quarterly_cashflow self) (annual_cashflow self).
Proof.
  intros Hi. pose proof Hi as Hlt. apply lookup_lt_Some in Hlt.
  simpl in Hlt. split; [|intros f ->; split; intros c Hc].
  all: try pose proof (investing_items_fields _ _ _ Hi) as Hf.
  all: apply placed_in_cash_flow; [solve_local | lia |].
  all: unfold _add_cash_flow_items; placed_walk.
Qed.

Lemma placed_financing_item i name field :
  financing_items !! i = Some (name, field) →
  item_placed (create_excel_report self now_year) "C" (78 + N.of_nat i)%N
    name field (quarterly_cashflow self) (annual_cashflow self).
Proof.
  intros Hi. pose proof Hi as Hlt. apply lookup_lt_Some in Hlt.
  simpl in Hlt. split; [|intros f ->; split; intros c Hc].
  all: try pose proof (financing_items_fields _ _ _ Hi) as Hf.
  all: apply placed_in_cash_flow; [solve_local | lia |].
  all: unfold _add_cash_flow_items; placed_walk.
Qed.

(** The three rows of net cash flows by activity. *)
Lemma placed_net_row (row : N) label field :
  (row, label, field)
    ∈ [ (68%N, "Net Cash Flow-Operating", "Operating Cash Flow");
        (75%N, "Net Cash Flows-Investing", "Investing Cash Flow");
        (82%N, "Net Cash Flows-Financing", "Financing Cash Flow") ] →
  item_placed (create_excel_report self now_year) "B" row label
    (Some field) (quarterly_cashflow self) (annual_cashflow self).
Proof.
  rewrite !elem_of_cons, elem_of_nil.
  intros [[= -> -> ->] | [[= -> -> ->] | [[= -> -> ->] | []]]].
  all: split; [|intros f [= <-]; split; intros c Hc].
  all: apply placed_in_cash_flow; [solve_local | lia |].
  all: unfold _add_cash_flow_items; placed_walk.
Qed.

(** The rows of the derived metrics. *)
Lemma placed_derived_row (row : N) label_col label (m : M unit) :
  (row, (label_col, label), m) ∈ derived_rows self →
  placed (label_col, row) (ws_set (label_col, row) (VStr label))
    (create_excel_report self now_year)
  ∧ ∀ c, c ∈ data_columns →
      placed (c, row) m (create_excel_report self now_year).
Proof.
  unfold derived_rows. rewrite !elem_of_cons, elem_of_nil.
  assert (Hwc : balance_sheet_items !! 6%nat
                = Some ("Working Capital", None)) by reflexivity.
  assert (Hgm : income_items !! 16%nat = Some ("Gross Margin", None))
    by reflexivity.
  intros [[= -> -> -> ->] | [[= -> -> -> ->] | [[= -> -> -> ->]
    | [[= -> -> -> ->] | [[= -> -> -> ->] | []]]]]].
  all: split; [|intros c Hc].
  1-6: apply placed_in_balance_sheet; [solve_local | lia |];
    unfold _add_balance_sheet_items; placed_walk.
  1-2: apply placed_in_income_statement; [solve_local | lia |];
    unfold _add_income_statement_items; placed_walk.
  all: apply placed_in_cash_flow; [solve_local | lia |];
    unfold _add_cash_flow_items; placed_walk.
Qed.

End PlacedItems.

Section ItemValues.

Implicit Types (df : DataFrame) (ws : Worksheet) (row : N).

(** The five cells of a line item with three leading periods, after the
    quarterly or the annual block. *)
Lemma line_item_values row df field cols (m : M unit) vals v0 v1 v2 ws :
  (m = _add_quarterly_data row (Some df) field "E" "F" "G" "H" "I" "J"
   ∧ cols = ["E"; "F"; "G"; "H"; "I"])
  ∨ (m = _add_annual_data row (Some df) field "K" "L" "M" "N" "O"
     ∧ cols = ["K"; "L"; "M"; "N"; "O"]) →
  rows df !! field = Some vals →
  first3 vals = [v0; v1; v2] →
  (λ c, c_value <$> cells (exec m ws) !! (c, row)) <$> cols
  = Some <$> line_item_cells v0 v1 v2.
Proof.
  intros Hm Hrow Hvals. unfold exec.
  destruct Hm as [[-> ->] | [-> ->]]; [|rewrite add_annual_data_run].
  all: rewrite (add_quarterly_data_run _ _ _ _ _ _ _ _ _ _ _ Hrow), Hvals.
  all: cbv [exec mbind M_bind ws_set ws_set_number_format snd fmap
            list_fmap line_item_cells].
  all: repeat f_equal.
  all: repeat first [ rewrite lookup_with_cell_eq
                    | rewrite cell_at_with_cell_eq
                    | rewrite preserves_with_cell by discriminate ].
  all: reflexivity.
Qed.

End ItemValues.

(** ** The layout of the report *)

Section Layout.

Implicit Types (self : TeslaFinancialReportGenerator) (now_year : Z).



(** X2.  Outside the cells that show table data, the report does not
    depend on the tables: two reports of the same year, on whatever
    tables, have the same title, merged ranges and column widths and the
    same cell (value, number format, font, alignment) at every address
    that is not in a data column (E to I, K to O) of the date row or of a
    row of a line item or derived metric. *)
Theorem report_fixed_outside_data_area g1 g2 now_year ws :
  alike (λ a, ¬ data_area a)
    (exec (create_excel_report g1 now_year) ws)
    (exec (create_excel_report g2 now_year) ws).
Proof.
  apply (fixed_create_excel_report g1 g2 now_year ws ws), alike_refl.
Qed.

(** X3.  The report reads the three most recent periods only: two
    generators whose tables have the same three leading dates and, for
    every line item, the same three leading entries, give the same run of
    [create_excel_report] (the same worksheet, and no exception), whatever
    the older periods hold. *)
Theorem report_reads_three_periods g1 g2 now_year ws :
  leading_periods g1 = leading_periods g2 →
  create_excel_report g1 now_year ws = create_excel_report g2 now_year ws.
Proof.
  intros Hlead.
  rewrite <- (related_eq_run _ _ ws (leading_create_excel_report g1 now_year)).
  rewrite <- (related_eq_run _ _ ws (leading_create_excel_report g2 now_year)).
  by rewrite Hlead.
Qed.

Lemma report_reads_three_periods_witness :
  create_excel_report sample 2025 new_worksheet
  = create_excel_report sample_restated 2025 new_worksheet.
Proof.
  apply (report_reads_three_periods sample sample_restated 2025
           new_worksheet).
  vm_compute. reflexivity.
Defined.

Lemma placed_label a v {A : Type} (m : M A) ws :
  placed a (ws_set a v) m →
  c_value <$> cells (exec m ws) !! a = Some v.
Proof.
  intros H. rewrite (H ws). unfold exec, ws_set. simpl.
  by rewrite lookup_insert_eq.
Qed.

Lemma item_placed_in_report self now_year (L : item_list) i name field :
  L ∈ line_item_lists self →
  items L !! i = Some (name, field) →
  item_placed (create_excel_report self now_year) (label_column L)
    (first_row L + N.of_nat i)%N name field (quarterly L) (annual L).
Proof.
  unfold line_item_lists. rewrite !elem_of_cons, elem_of_nil.
  intros [-> | [-> | [-> | [-> | [-> | [-> | [-> | [-> | [-> | []]]]]]]]]];
    cbn [items label_column first_row quarterly annual]; intros Hi.
  - by apply placed_balance_sheet_item.
  - by apply placed_liability_item.
  - by apply placed_income_item.
  - by apply placed_operating_item.
  - destruct i as [|[|]]; [|done..]. injection Hi as <- <-.
    apply placed_net_row. compute_done.
  - by apply placed_investing_item.
  - destruct i as [|[|]]; [|done..]. injection Hi as <- <-.
    apply placed_net_row. compute_done.
  - by apply placed_financing_item.
  - destruct i as [|[|]]; [|done..]. injection Hi as <- <-.
    apply placed_net_row. compute_done.
Qed.

(** X4.  Where the report shows a line item.  For each of the item lists
    (balance sheet from row 8, liabilities from 17, income from 35,
    operating, investing and financing cash flows from 63, 71 and 78, and
    the three net cash flows in rows 68, 75 and 82), the item at position
    [i] has its label in the label column of the row [first_row + i], and
    when it names a field, the cells E to I of that row are the ones
    [_add_quarterly_data] writes for that field of the quarterly table and
    the cells K to O the ones [_add_annual_data] writes for the annual
    table: nothing else in the report touches them. *)
Theorem line_item_rows self now_year ws (L : item_list) i name field :
  L ∈ line_item_lists self →
  items L !! i = Some (name, field) →
  let row := (first_row L + N.of_nat i)%N in
  let final := exec (create_excel_report self now_year) ws in
  c_value <$> cells final !! (label_column L, row) = Some (VStr name)
  ∧ ∀ f, field = Some f →
      (∀ c, c ∈ ["E"; "F"; "G"; "H"; "I"] →
         cells final !! (c, row)
         = cells (exec (_add_quarterly_data row (quarterly L) f
                          "E" "F" "G" "H" "I" "J") ws) !! (c, row))
      ∧ (∀ c, c ∈ ["K"; "L"; "M"; "N"; "O"] →
         cells final !! (c, row)
         = cells (exec (_add_annual_data row (annual L) f
                          "K" "L" "M" "N" "O") ws) !! (c, row)).
Proof.
  intros HL Hi row final.
  destruct (item_placed_in_report self now_year L i name field HL Hi)
    as [Hlabel Hdata].
  split; [by apply placed_label|].
  intros f Hf. destruct (Hdata f Hf) as [Hq Ha].
  split; intros c Hc; [apply (Hq c Hc ws) | apply (Ha c Hc ws)].
Qed.

Lemma line_item_rows_witness :
  let final := exec (create_excel_report sample 2025) new_worksheet in
  c_value <$> cells final !! ("C", 13%N) = Some (VStr "Total Assets")
  ∧ cells final !! ("E", 13%N)
    = cells (exec (_add_quarterly_data 13 (Some sample_balance_sheet)
                     "Total Assets" "E" "F" "G" "H" "I" "J") new_worksheet)
        !! ("E", 13%N).
Proof.
  destruct (line_item_rows sample 2025 new_worksheet
              (mkItemList "C" 8 balance_sheet_items
                 (Some sample_balance_sheet) (Some sample_balance_sheet))
              5%nat "Total Assets" (Some "Total Assets"))
    as [Hlabel Hdata].
  - apply list_elem_of_here.
  - reflexivity.
  - split; [exact Hlabel|].
    apply (proj1 (Hdata "Total Assets" eq_refl) "E"). compute_done.
Defined.

(** X5.  A line item with three leading periods, in the report: the cells
    E, F, G, H, I of its row (K, L, M, N, O for the annual table) hold the
    currency string of the latest value, the change from the second to the
    latest, the currency string of the second value, the change from the
    third to the second, and the currency string of the third value. *)
Theorem line_item_three_periods self now_year ws (L : item_list) i name f
    (t : option DataFrame) cols df vals v0 v1 v2 :
  L ∈ line_item_lists self →
  items L !! i = Some (name, Some f) →
  (t = quarterly L ∧ cols = ["E"; "F"; "G"; "H"; "I"])
  ∨ (t = annual L ∧ cols = ["K"; "L"; "M"; "N"; "O"]) →
  t = Some df →
  rows df !! f = Some vals →
  first3 vals = [v0; v1; v2] →
  let row := (first_row L + N.of_nat i)%N in
  let final := exec (create_excel_report self now_year) ws in
  (λ c, c_value <$> cells final !! (c, row)) <$> cols
  = Some <$> line_item_cells v0 v1 v2.
Proof.
  intros HL Hi Ht Hdf Hrow Hvals row final.
  destruct (item_placed_in_report self now_year L i name (Some f) HL Hi)
    as [_ Hdata].
  destruct (Hdata f eq_refl) as [Hq Ha].
  destruct Ht as [[-> ->] | [-> ->]].
  - rewrite <- (line_item_values row df f _ _ vals v0 v1 v2 ws
                  (or_introl (conj eq_refl eq_refl)) Hrow Hvals).
    apply list_fmap_ext. intros k c Hk. rewrite <- Hdf.
    f_equal. apply (Hq c). by eapply list_elem_of_lookup_2.
  - rewrite <- (line_item_values row df f _ _ vals v0 v1 v2 ws
                  (or_intror (conj eq_refl eq_refl)) Hrow Hvals).
    apply list_fmap_ext. intros k c Hk. rewrite <- Hdf.
    f_equal. apply (Ha c). by eapply list_elem_of_lookup_2.
Qed.

Lemma line_item_three_periods_witness :
  (λ c, c_value <$> cells (exec (create_excel_report sample 2025)
                             new_worksheet) !! (c, 13%N))
    <$> ["K"; "L"; "M"; "N"; "O"]
  = Some <$> line_item_cells (Num 1000) (Num 900) (Num 800).
Proof.
  apply (line_item_three_periods sample 2025 new_worksheet
           (mkItemList "C" 8 balance_sheet_items
              (Some sample_balance_sheet) (Some sample_balance_sheet))
           5%nat "Total Assets" "Total Assets"
           (Some sample_balance_sheet) ["K"; "L"; "M"; "N"; "O"]
           sample_balance_sheet
           [Num 1000; Num 900; Num 800; Num 700]).
  - apply list_elem_of_here.
  - reflexivity.
  - right. split; reflexivity.
  - reflexivity.
  - vm_compute. reflexivity.
  - reflexivity.
Defined.

(** X6.  Where the report shows the derived metrics: Working Capital in
    row 14 (label in C), Current Ratio in row 25 and Quick Ratio in row 26
    (labels in A), Gross Margin in row 51 (label in C) and Net Cash Flow in
    row 84 (label in B).  The label is there for every input, and the
    cells of the data columns of the row are the ones the function of the
    metric writes: nothing else in the report touches them. *)
Theorem derived_metric_rows self now_year ws (row : N) label_col label
    (m : M unit) :
  (row, (label_col, label), m) ∈ derived_rows self →
  let final := exec (create_excel_report self now_year) ws in
  c_value <$> cells final !! (label_col, row) = Some (VStr label)
  ∧ ∀ c, c ∈ data_columns →
      cells final !! (c, row) = cells (exec m ws) !! (c, row).
Proof.
  intros Hrow final.
  destruct (placed_derived_row self now_year row label_col label m Hrow)
    as [Hlabel Hdata].
  split; [by apply placed_label|].
  intros c Hc. apply (Hdata c Hc ws).
Qed.

Lemma derived_metric_rows_witness :
  let final := exec (create_excel_report sample 2025) new_worksheet in
  c_value <$> cells final !! ("A", 25%N) = Some (VStr "Current Ratio")
  ∧ cells final !! ("G", 25%N)
    = cells (exec (_calculate_current_ratio sample 25) new_worksheet)
        !! ("G", 25%N).
Proof.
  destruct (derived_metric_rows sample 2025 new_worksheet 25%N
              "A" "Current Ratio" (_calculate_current_ratio sample 25))
    as [Hlabel Hdata].
  - unfold derived_rows. apply list_elem_of_further, list_elem_of_here.
  - split; [exact Hlabel|]. apply (Hdata "G"). compute_done.
Defined.

End Layout.

(** ** The dates of the periods *)

Section Dates.

Implicit Types (self : TeslaFinancialReportGenerator) (now_year : Z).

Lemma local_date_headers a t c1 c2 c3 :
  related (same_at a) eq (date_headers t c1 c2 c3) (date_headers t c1 c2 c3).
Proof. unfold date_headers. local_auto. Qed.

Lemma placed_date_headers self now_year t c1 c2 c3 c :
  (t = quarterly_balance_sheet self ∧ [c1; c2; c3] = ["E"; "G"; "I"])
  ∨ (t = annual_balance_sheet self ∧ [c1; c2; c3] = ["K"; "M"; "O"]) →
  c ∈ [c1; c2; c3] →
  placed (c, 6%N) (date_headers t c1 c2 c3)
    (create_excel_report self now_year).
Proof.
  pose proof (local_date_headers (c, 6%N)) as Hlocal.
  intros [[-> [= -> -> ->]] | [-> [= -> -> ->]]] Hc;
    unfold create_excel_report; placed_walk.
Qed.

(** What [date_headers] leaves in row 6. *)
Lemma date_headers_run t c1 c2 c3 ws :
  date_headers t c1 c2 c3 ws
  = (inr tt,
     match t with
     | Some df =>
         match columns df with
         | d0 :: d1 :: d2 :: _ =>
             exec (ws_set (c1, 6%N) (VStr (strftime_mdY d0));;
                   ws_set (c2, 6%N) (VStr (strftime_mdY d1));;
                   ws_set (c3, 6%N) (VStr (strftime_mdY d2))) ws
         | _ => ws
         end
     | None => ws
     end).
Proof.
  unfold date_headers. destruct t as [df|]; [|done].
  destruct (columns df) as [|d0 [|d1 [|d2 rest]]]; try done.
Qed.

Lemma date_headers_exec t c1 c2 c3 ws :
  exec (date_headers t c1 c2 c3) ws = (date_headers t c1 c2 c3 ws).2.
Proof. reflexivity. Qed.

(** X7.  The dates of row 6.  When the quarterly balance sheet has at
    least three dated columns, E6, G6 and I6 hold its three leading dates
    as mm/dd/YYYY; when it is absent or has fewer than three columns, the
    three cells are left as they were: with one or two periods no date is
    shown at all.  The same holds for the annual balance sheet and K6, M6
    and O6. *)
Theorem date_header_cells self now_year ws (t : option DataFrame) cols :
  (t = quarterly_balance_sheet self ∧ cols = ["E"; "G"; "I"])
  ∨ (t = annual_balance_sheet self ∧ cols = ["K"; "M"; "O"]) →
  let final := exec (create_excel_report self now_year) ws in
  (∀ df d0 d1 d2 rest,
     t = Some df → columns df = d0 :: d1 :: d2 :: rest →
     (λ c, c_value <$> cells final !! (c, 6%N)) <$> cols
     = [ Some (VStr (strftime_mdY d0)); Some (VStr (strftime_mdY d1));
         Some (VStr (strftime_mdY d2)) ])
  ∧ (t = None ∨ (∃ df, t = Some df ∧ (length (columns df) < 3)%nat) →
     ∀ c, c ∈ cols → cells final !! (c, 6%N) = cells ws !! (c, 6%N)).
Proof.
  intros Ht final.
  assert (Hplaced : ∀ c1 c2 c3 c, cols = [c1; c2; c3] → c ∈ cols →
            cells final !! (c, 6%N)
            = cells (exec (date_headers t c1 c2 c3) ws) !! (c, 6%N)).
  { intros c1 c2 c3 c -> Hc. apply (placed_date_headers self now_year);
      [|done]. destruct Ht as [[-> [= -> -> ->]] | [-> [= -> -> ->]]];
      [by left | by right]. }
  split.
  - intros df d0 d1 d2 rest -> Hcols.
    destruct Ht as [[_ ->] | [_ ->]]; cbn [fmap list_fmap].
    all: rewrite !(Hplaced _ _ _ _ eq_refl) by compute_done.
    all: rewrite !date_headers_exec, !date_headers_run, Hcols.
    all: cbv [exec mbind M_bind ws_set snd].
    all: repeat f_equal.
    all: repeat first [ rewrite lookup_with_cell_eq
                      | rewrite preserves_with_cell by discriminate ].
    all: reflexivity.
  - intros Hshort c Hc.
    assert (∃ c1 c2 c3, cols = [c1; c2; c3]) as (c1 & c2 & c3 & Hcols)
      by (destruct Ht as [[_ ->] | [_ ->]]; by do 3 eexists).
    rewrite (Hplaced c1 c2 c3 c Hcols Hc).
    rewrite date_headers_exec, date_headers_run.
    destruct Hshort as [-> | (df & -> & Hlen)]; [done|].
    by destruct (columns df) as [|d0 [|d1 [|d2 rest]]]; simpl in *; try lia.
Qed.

Lemma date_header_cells_witness :
  (λ c, c_value <$> cells (exec (create_excel_report sample 2025)
                             new_worksheet) !! (c, 6%N))
    <$> ["E"; "G"; "I"]
  = [ Some (VStr "06/30/2025"); Some (VStr "03/31/2025");
      Some (VStr "12/31/2024") ]
  ∧ cells (exec (create_excel_report
                   (mkGenerator (Some short_balance_sheet) None None None
                      None None) 2025) new_worksheet) !! ("E", 6%N)
    = cells new_worksheet !! ("E", 6%N).
Proof.
  split.
  - apply (proj1 (date_header_cells sample 2025 new_worksheet
                    (Some sample_balance_sheet) ["E"; "G"; "I"]
                    (or_introl (conj eq_refl eq_refl)))
             sample_balance_sheet (mkTimestamp 2025 6 30)
             (mkTimestamp 2025 3 31) (mkTimestamp 2024 12 31)
             [mkTimestamp 2024 9 30]); reflexivity.
  - apply (proj2 (date_header_cells
                    (mkGenerator (Some short_balance_sheet) None None None
                       None None) 2025 new_worksheet
                    (Some short_balance_sheet) ["E"; "G"; "I"]
                    (or_introl (conj eq_refl eq_refl)))).
    + right. exists short_balance_sheet. split; [reflexivity | simpl; lia].
    + compute_done.
Defined.

End Dates.

(** ** Working capital and the lines the derived metrics read *)

Section WorkingCapital.

Implicit Types (df : DataFrame) (ws : Worksheet) (row : N)
  (self : TeslaFinancialReportGenerator).

(** What one half of [_calculate_working_capital] leaves behind for three
    leading periods. *)
Lemma working_capital_block_run row df c0 c1 c2 p0 p1 cas cls
    a0 a1 a2 l0 l1 l2 ws :
  rows df !! "Total Current Assets" = Some cas →
  rows df !! "Total Current Liabilities" = Some cls →
  first3 cas = [a0; a1; a2] → first3 cls = [l0; l1; l2] →
  let wc0 := value_sub a0 l0 in
  let wc1 := value_sub a1 l1 in
  let wc2 := value_sub a2 l2 in
  working_capital_block row (Some df) [c0; c1; c2] [p0; p1] ws
  = (inr tt,
     exec (ws_set (c0, row) (VStr (_format_currency wc0));;
           ws_set (c1, row) (VStr (_format_currency wc1));;
           ws_set (p0, row) (VNum (_calculate_pct_change wc1 wc0));;
           ws_set_number_format (p0, row)
             (if value_ltb (value_abs (_calculate_pct_change wc1 wc0))
                   (Num 10)
              then "0.00%" else "0.0");;
           ws_set (c2, row) (VStr (_format_currency wc2));;
           ws_set (p1, row) (VNum (_calculate_pct_change wc2 wc1));;
           ws_set_number_format (p1, row)
             (if value_ltb (value_abs (_calculate_pct_change wc2 wc1))
                   (Num 10)
              then "0.00%" else "0.0")) ws).
Proof.
  intros Hcas Hcls Ha Hl wc0 wc1 wc2. unfold working_capital_block.
  unfold try_except. f_equal.
  rewrite (run_bind_ok _ _ _ _ _ (run_loc3 _ _ _ _ Hcas)).
  rewrite (run_bind_ok _ _ _ _ _ (run_loc3 _ _ _ _ Hcls)).
  rewrite Ha, Hl. reflexivity.
Qed.

Lemma calculate_working_capital_exec self row ws :
  exec (_calculate_working_capital self row) ws
  = exec (working_capital_block row (annual_balance_sheet self)
            ["K"; "M"; "O"] ["L"; "N"])
      (exec (working_capital_block row (quarterly_balance_sheet self)
               ["E"; "G"; "I"] ["F"; "H"]) ws).
Proof.
  unfold _calculate_working_capital.
  by rewrite exec_then by apply working_capital_block_outcome.
Qed.

(** X8.  The Working Capital row.  For a balance sheet with the lines
    [Total Current Assets] and [Total Current Liabilities] over three
    leading periods, the value cells (E, G, I, or K, M, O for the annual
    table) hold the currency strings of assets minus liabilities of the
    three periods, most recent first, and the delta cells (F, H, or L, N)
    hold the change of each period against the more recent one before it
    in the table: [pct_change(wc[1], wc[0])] and [pct_change(wc[2], wc[1])].
    The base is the more recent period, so the first delta is positive
    exactly when working capital was higher in the older period: the
    reverse of the order used for line items. *)
Theorem working_capital_cells self row ws (t : option DataFrame)
    cols pct_cols df cas cls a0 a1 a2 l0 l1 l2 :
  (t = quarterly_balance_sheet self
   ∧ cols = ["E"; "G"; "I"] ∧ pct_cols = ["F"; "H"])
  ∨ (t = annual_balance_sheet self
     ∧ cols = ["K"; "M"; "O"] ∧ pct_cols = ["L"; "N"]) →
  t = Some df →
  rows df !! "Total Current Assets" = Some cas →
  rows df !! "Total Current Liabilities" = Some cls →
  first3 cas = [a0; a1; a2] → first3 cls = [l0; l1; l2] →
  let wc0 := value_sub a0 l0 in
  let wc1 := value_sub a1 l1 in
  let wc2 := value_sub a2 l2 in
  let final := exec (_calculate_working_capital self row) ws in
  (λ c, c_value <$> cells final !! (c, row)) <$> cols
  = Some <$> [ VStr (_format_currency wc0); VStr (_format_currency wc1);
               VStr (_format_currency wc2) ]
  ∧ (λ c, c_value <$> cells final !! (c, row)) <$> pct_cols
    = Some <$> [ VNum (_calculate_pct_change wc1 wc0);
                 VNum (_calculate_pct_change wc2 wc1) ]
  ∧ ∀ x0 x1 : Q, wc0 = Num x0 → wc1 = Num x1 → ¬ (x0 == 0)%Q →
      ∃ d, _calculate_pct_change wc1 wc0 = Num d
        ∧ (0 < d ↔ x0 < x1)%Q ∧ (d < 0 ↔ x1 < x0)%Q.
Proof.
  intros Hhalf Ht Hcas Hcls Ha Hl wc0 wc1 wc2 final.
  split; [|split].
  - unfold final. rewrite calculate_working_capital_exec.
    destruct Hhalf as [(<- & -> & ->) | (<- & -> & ->)]; rewrite Ht.
    + cbn [fmap list_fmap].
      rewrite !(preserves_working_capital_block (_, row) row _
                  ["K"; "M"; "O"] ["L"; "N"]) by (right; compute_done).
      unfold exec at 1 2 3.
      rewrite !(working_capital_block_run row df _ _ _ _ _ cas cls
                  a0 a1 a2 l0 l1 l2 ws Hcas Hcls Ha Hl).
      cbv [exec mbind M_bind ws_set ws_set_number_format snd].
      repeat f_equal.
      all: repeat first [ rewrite lookup_with_cell_eq
                        | rewrite cell_at_with_cell_eq
                        | rewrite preserves_with_cell by discriminate ].
      all: reflexivity.
    + cbn [fmap list_fmap]. unfold exec at 1 3 5.
      rewrite !(working_capital_block_run row df _ _ _ _ _ cas cls
                  a0 a1 a2 l0 l1 l2 _ Hcas Hcls Ha Hl).
      cbv [exec mbind M_bind ws_set ws_set_number_format snd].
      repeat f_equal.
      all: repeat first [ rewrite lookup_with_cell_eq
                        | rewrite cell_at_with_cell_eq
                        | rewrite preserves_with_cell by discriminate ].
      all: reflexivity.
  - unfold final. rewrite calculate_working_capital_exec.
    destruct Hhalf as [(<- & -> & ->) | (<- & -> & ->)]; rewrite Ht.
    + cbn [fmap list_fmap].
      rewrite !(preserves_working_capital_block (_, row) row _
                  ["K"; "M"; "O"] ["L"; "N"]) by (right; compute_done).
      unfold exec at 1 2.
      rewrite !(working_capital_block_run row df _ _ _ _ _ cas cls
                  a0 a1 a2 l0 l1 l2 ws Hcas Hcls Ha Hl).
      cbv [exec mbind M_bind ws_set ws_set_number_format snd].
      repeat f_equal.
      all: repeat first [ rewrite lookup_with_cell_eq
                        | rewrite cell_at_with_cell_eq
                        | rewrite preserves_with_cell by discriminate ].
      all: reflexivity.
    + cbn [fmap list_fmap]. unfold exec at 1 3.
      rewrite !(working_capital_block_run row df _ _ _ _ _ cas cls
                  a0 a1 a2 l0 l1 l2 _ Hcas Hcls Ha Hl).
      cbv [exec mbind M_bind ws_set ws_set_number_format snd].
      repeat f_equal.
      all: repeat first [ rewrite lookup_with_cell_eq
                        | rewrite cell_at_with_cell_eq
                        | rewrite preserves_with_cell by discriminate ].
      all: reflexivity.
  - intros x0 x1 -> -> Hx0. exists ((x1 - x0) / Qabs x0)%Q.
    pose proof (Qabs_pos_lt _ Hx0) as Habs.
    split; [by apply pct_change_Num|]. split.
    + rewrite (Qdiv_pos_iff _ _ Habs). split; intros; lra.
    + rewrite (Qdiv_neg_iff _ _ Habs). split; intros; lra.
Qed.

Lemma working_capital_cells_witness :
  let wc0 := value_sub (Num 100) (Num 50) in
  let wc1 := value_sub (Num 90) (Num 45) in
  let wc2 := value_sub (Num 80) (Num 40) in
  let final := exec (_calculate_working_capital sample 14) new_worksheet in
  (λ c, c_value <$> cells final !! (c, 14%N)) <$> ["E"; "G"; "I"]
  = Some <$> [ VStr (_format_currency wc0); VStr (_format_currency wc1);
               VStr (_format_currency wc2) ]
  ∧ (λ c, c_value <$> cells final !! (c, 14%N)) <$> ["F"; "H"]
    = Some <$> [ VNum (_calculate_pct_change wc1 wc0);
                 VNum (_calculate_pct_change wc2 wc1) ]
  ∧ ∃ d, _calculate_pct_change wc1 wc0 = Num d
      ∧ (0 < d ↔ 100 - 50 < 90 - 45)%Q ∧ (d < 0 ↔ 90 - 45 < 100 - 50)%Q.
Proof.
  destruct (working_capital_cells sample 14 new_worksheet
              (Some sample_balance_sheet) ["E"; "G"; "I"] ["F"; "H"]
              sample_balance_sheet
              [Num 100; Num 90; Num 80; Num 70]
              [Num 50; Num 45; Num 40; Num 35]
              (Num 100) (Num 90) (Num 80) (Num 50) (Num 45) (Num 40))
    as (Hvalues & Hdeltas & Hsign).
  - left. repeat split.
  - reflexivity.
  - vm_compute. reflexivity.
  - vm_compute. reflexivity.
  - reflexivity.
  - reflexivity.
  - split; [exact Hvalues|]. split; [exact Hdeltas|].
    apply (Hsign (100 - 50)%Q (90 - 45)%Q eq_refl eq_refl).
    apply Qeq_bool_neq. reflexivity.
Defined.

End WorkingCapital.

Section TotalLines.

Implicit Types (df : DataFrame) (ws : Worksheet) (row : N)
  (self : TeslaFinancialReportGenerator) (t : option DataFrame).

(** A block that reads the two lines first stops at the first one
    missing, before it has written anything. *)
Lemma lacks_two t (n1 n2 : string) :
  lacks t [n1; n2] →
  t = None
  ∨ (∃ df, t = Some df ∧ rows df !! n1 = None)
  ∨ (∃ df l, t = Some df ∧ rows df !! n1 = Some l ∧ rows df !! n2 = None).
Proof.
  intros [-> | (df & name & -> & Hin & Hnone)]; [by left | right].
  destruct (rows df !! n1) as [l|] eqn:E1; [right | left; eauto].
  exists df, l. split; [done|]. split; [done|].
  rewrite !elem_of_cons, elem_of_nil in Hin.
  destruct Hin as [-> | [-> | []]]; congruence.
Qed.

Lemma working_capital_block_lacks row t cols pct_cols ws :
  lacks t ["Total Current Assets"; "Total Current Liabilities"] →
  exec (working_capital_block row t cols pct_cols) ws = ws.
Proof.
  intros [-> | [(df & -> & H1) | (df & l & -> & H1 & H2)]]%lacks_two;
    [done|..]; unfold working_capital_block, exec, try_except; simpl.
  - by rewrite (run_bind_raise _ _ _ _ _ (run_loc3_missing _ _ _ H1)).
  - rewrite (run_bind_ok _ _ _ _ _ (run_loc3 _ _ _ _ H1)).
    by rewrite (run_bind_raise _ _ _ _ _ (run_loc3_missing _ _ _ H2)).
Qed.

Lemma current_ratio_block_lacks row t cols ws :
  lacks t ["Total Current Assets"; "Total Current Liabilities"] →
  exec (current_ratio_block row t cols) ws = ws.
Proof.
  intros [-> | [(df & -> & H1) | (df & l & -> & H1 & H2)]]%lacks_two;
    [done|..]; unfold current_ratio_block, exec, try_except; simpl.
  - by rewrite (run_bind_raise _ _ _ _ _ (run_loc3_missing _ _ _ H1)).
  - rewrite (run_bind_ok _ _ _ _ _ (run_loc3 _ _ _ _ H1)).
    by rewrite (run_bind_raise _ _ _ _ _ (run_loc3_missing _ _ _ H2)).
Qed.

Lemma quick_ratio_block_lacks row t cols ws :
  lacks t ["Total Current Assets"; "Total Current Liabilities"] →
  exec (quick_ratio_block row t cols) ws = ws.
Proof.
  intros [-> | [(df & -> & H1) | (df & l & -> & H1 & H2)]]%lacks_two;
    [done|..]; unfold quick_ratio_block, exec, try_except; simpl.
  - by rewrite (run_bind_raise _ _ _ _ _ (run_loc3_missing _ _ _ H1)).
  - rewrite (run_bind_ok _ _ _ _ _ (run_loc3 _ _ _ _ H1)).
    rewrite (run_bind_ok _ _ _ _ _ (run_loc_or_zeros _ _ _)).
    by rewrite (run_bind_raise _ _ _ _ _ (run_loc3_missing _ _ _ H2)).
Qed.

Lemma gross_margin_block_lacks row t cols ws :
  lacks t ["Total Revenue"; "Gross Profit"] →
  exec (gross_margin_block row t cols) ws = ws.
Proof.
  intros [-> | [(df & -> & H1) | (df & l & -> & H1 & H2)]]%lacks_two;
    [done|..]; unfold gross_margin_block, exec, try_except; simpl.
  - by rewrite (run_bind_raise _ _ _ _ _ (run_loc3_missing _ _ _ H1)).
  - rewrite (run_bind_ok _ _ _ _ _ (run_loc3 _ _ _ _ H1)).
    by rewrite (run_bind_raise _ _ _ _ _ (run_loc3_missing _ _ _ H2)).
Qed.



End TotalLines.

Section QuickRatio.

Implicit Types (df : DataFrame) (ws : Worksheet) (row : N)
  (self : TeslaFinancialReportGenerator) (t : option DataFrame).

Lemma Qminus_0_r (x : Q) : (x - 0 = x)%Q.
Proof.
  destruct x as [n d]. unfold Qminus, Qplus, Qopp. simpl.
  f_equal; lia.
Qed.

Lemma value_sub_zero_r (v : value) : value_sub v zero = v.
Proof. destruct v as [|x]; [done|]. simpl. by rewrite Qminus_0_r. Qed.

(** Without an inventory line, the quick ratio of a table is computed as
    its current ratio. *)
Lemma quick_ratio_block_no_inventory row t cols ws :
  (∀ df, t = Some df → rows df !! "Inventory" = None) →
  quick_ratio_block row t cols ws = current_ratio_block row t cols ws.
Proof.
  intros Hinv. destruct t as [df|]; [|done].
  specialize (Hinv df eq_refl).
  unfold quick_ratio_block, current_ratio_block, try_except. f_equal.
  destruct (rows df !! "Total Current Assets") as [cas|] eqn:Hcas.
  2: { by rewrite !(run_bind_raise _ _ _ _ _
                      (run_loc3_missing _ _ _ Hcas)). }
  rewrite !(run_bind_ok _ _ _ _ _ (run_loc3 _ _ _ _ Hcas)).
  rewrite (run_bind_ok _ _ _ _ _ (run_loc_or_zeros _ _ _)).
  unfold leading_or_zeros. rewrite Hinv.
  destruct (rows df !! "Total Current Liabilities") as [cls|] eqn:Hcls.
  2: { by rewrite !(run_bind_raise _ _ _ _ _
                      (run_loc3_missing _ _ _ Hcls)). }
  rewrite !(run_bind_ok _ _ _ _ _ (run_loc3 _ _ _ _ Hcls)).
  unfold first3.
  destruct cas as [|a0 [|a1 [|a2 cas]]], cls as [|l0 [|l1 [|l2 cls]]];
    simpl; rewrite ?value_sub_zero_r; reflexivity.
Qed.

(** X10.  Without an inventory line the Quick Ratio is the Current Ratio:
    when neither balance sheet has the line [Inventory], three zeros stand
    in for it and [_calculate_quick_ratio] leaves exactly the worksheet
    [_calculate_current_ratio] leaves in the same row. *)
Theorem quick_ratio_without_inventory self row ws :
  (∀ df, quarterly_balance_sheet self = Some df →
     rows df !! "Inventory" = None) →
  (∀ df, annual_balance_sheet self = Some df →
     rows df !! "Inventory" = None) →
  _calculate_quick_ratio self row ws = _calculate_current_ratio self row ws.
Proof.
  intros Hq Ha. unfold _calculate_quick_ratio, _calculate_current_ratio.
  unfold mbind, M_bind.
  rewrite (quick_ratio_block_no_inventory _ _ _ _ Hq).
  destruct (current_ratio_block row (quarterly_balance_sheet self)
              ["E"; "G"; "I"] ws) as [[e|[]] ws']; [done|].
  by apply quick_ratio_block_no_inventory.
Qed.

Lemma quick_ratio_without_inventory_witness :
  let self := mkGenerator (Some balance_sheet_without_inventory)
                (Some balance_sheet_without_inventory) None None None None in
  _calculate_quick_ratio self 26 new_worksheet
  = _calculate_current_ratio self 26 new_worksheet.
Proof.
  intros self. apply (quick_ratio_without_inventory self 26 new_worksheet).
  - intros df [= <-]. by vm_compute.
  - intros df [= <-]. by vm_compute.
Defined.

End QuickRatio.

(** ** Reading amounts back from currency strings *)

Section Numerals.

Implicit Types (n m : N).

Lemma digits_inj n m : digits n = digits m → n = m.
Proof.
  unfold digits. intros H.
  apply (f_equal string_of_list_ascii) in H.
  rewrite !string_of_list_ascii_of_string in H.
  by apply (inj (pretty : N → string)) in H.
Qed.

(** The grouped numeral determines the number. *)
Lemma thousands_inj n m : thousands n = thousands m → n = m.
Proof.
  intros H. apply digits_inj.
  destruct (thousands_spec n) as [<- _], (thousands_spec m) as [<- _].
  by rewrite H.
Qed.

(** It is made of digits and separators. *)
Lemma thousands_chars n c :
  c ∈ list_ascii_of_string (thousands n) → is_digit c ∨ c = comma.
Proof.
  intros Hc. destruct (decide (c = comma)) as [|Hne]; [by right | left].
  destruct (thousands_spec n) as (Hf & Hd & _).
  rewrite Forall_forall in Hd. apply Hd. rewrite <- Hf.
  by apply list_elem_of_filter.
Qed.

Lemma thousands_not_starting_with n (c : ascii) (s : string) :
  ¬ is_digit c → c ≠ comma → thousands n ≠ String c s.
Proof.
  intros Hd Hc H.
  destruct (thousands_chars n c) as [?|?]; [|done..].
  rewrite H. simpl. apply list_elem_of_here.
Qed.

Lemma not_digit_minus : ¬ is_digit "-"%char.
Proof. unfold is_digit. compute_done. Qed.

Lemma not_digit_paren : ¬ is_digit "("%char.
Proof. unfold is_digit. compute_done. Qed.

End Numerals.

Section NearestInteger.

Local Open Scope Q_scope.

(** The amounts that round to zero. *)
Lemma round_half_even_eq_0 (q : Q) :
  round_half_even q = 0%Z ↔ -(1 # 2) <= q <= 1 # 2.
Proof.
  split.
  - intros H. pose proof (round_half_even_near q) as Hn. rewrite H in Hn.
    apply Qabs_Qle_condition in Hn. unfold inject_Z in Hn.
    split; lra.
  - destruct q as [n d]. unfold Qle, Qopp. cbn [Qnum Qden].
    intros [Hlo Hhi]. unfold round_half_even. cbn [Qnum Qden].
    pose proof (Z.div_mod n (Zpos d) ltac:(lia)) as Hdm.
    pose proof (Z.mod_pos_bound n (Zpos d) ltac:(lia)) as Hb.
    set (f := (n / Zpos d)%Z) in *. set (r := (n mod Zpos d)%Z) in *.
    assert (Hf : (f ≤ -2 ∨ f = -1 ∨ f = 0 ∨ 1 ≤ f)%Z) by lia.
    destruct (Z.ltb_spec (2 * r) (Zpos d));
      [|destruct (Z.ltb_spec (Zpos d) (2 * r))].
    + destruct Hf as [Hf | [Hf | [Hf | Hf]]]; nia.
    + destruct Hf as [Hf | [Hf | [Hf | Hf]]]; nia.
    + destruct Hf as [Hf | [-> | [-> | Hf]]]; [nia | done | done | nia].
Qed.

Lemma rounded_magnitude_eq_0 (q : Q) :
  Z.to_N (round_half_even (Qabs q)) = 0%N ↔ Qabs q <= 1 # 2.
Proof.
  pose proof (round_half_even_nonneg _ (Qabs_nonneg q)) as Hnn.
  pose proof (Qabs_nonneg q).
  rewrite <- (N2Z.inj_iff _ 0%N), Z2N.id by done. simpl.
  rewrite round_half_even_eq_0. split; [by intros [_ ?] | intros; split; lra].
Qed.

(** Two amounts whose magnitudes round to the same number. *)
Lemma same_rounded_magnitude (a b : Q) :
  Z.to_N (round_half_even (Qabs a)) = Z.to_N (round_half_even (Qabs b)) →
  Qabs (Qabs a - Qabs b) <= 1.
Proof.
  intros H. apply (f_equal Z.of_N) in H.
  rewrite !Z2N.id in H
    by (apply round_half_even_nonneg, Qabs_nonneg).
  pose proof (round_half_even_near (Qabs a)) as Ha.
  pose proof (round_half_even_near (Qabs b)) as Hb.
  rewrite H in Ha.
  apply Qabs_Qle_condition in Ha, Hb. apply Qabs_Qle_condition.
  split; lra.
Qed.

End NearestInteger.

Section Strings.

Lemma list_ascii_of_string_app (s t : string) :
  list_ascii_of_string (s ++ t)
  = (list_ascii_of_string s ++ list_ascii_of_string t)%list.
Proof. induction s as [|c s IH]; simpl; [done | by rewrite IH]. Qed.

Lemma list_ascii_of_string_inj (s t : string) :
  list_ascii_of_string s = list_ascii_of_string t → s = t.
Proof.
  intros H. apply (f_equal string_of_list_ascii) in H.
  by rewrite !string_of_list_ascii_of_string in H.
Qed.

Lemma string_app_inv_tail (s t u : string) : s ++ u = t ++ u → s = t.
Proof.
  intros H. apply list_ascii_of_string_inj.
  apply (f_equal list_ascii_of_string) in H.
  rewrite !list_ascii_of_string_app in H. by apply app_inv_tail in H.
Qed.

End Strings.

Section SmallAmounts.

Local Open Scope Q_scope.

(** X11.  The strings of small amounts.  [_format_currency] gives ["$0"]
    exactly for a missing value and for an amount from 0 to one half, the
    half included since it rounds to the even 0; it gives ["$(0)"] exactly
    for a negative amount down to minus one half.  So ["$0"] in a cell does
    not tell a missing value from a zero or from a small positive amount,
    and a small negative amount shows as a zero in parentheses. *)
Theorem format_currency_small_amounts (v : value) :
  (_format_currency v = "$0"
   ↔ isna v = true ∨ ∃ q, v = Num q ∧ 0 <= q <= 1 # 2)
  ∧ (_format_currency v = "$(0)"
     ↔ ∃ q, v = Num q ∧ -(1 # 2) <= q < 0).
Proof.
  destruct v as [|q].
  { split; split; try done.
    - by left.
    - intros (q & ? & _). done. }
  destruct (Q_dec q 0) as [[Hneg | Hpos] | Hzero].
  - rewrite (format_currency_Colab_neg q Hneg). split; split.
    + discriminate.
    + intros [? | (q' & [= <-] & Hq)]; [done | lra].
    + intros H. exists q. split; [done|]. split; [|done].
      change "$(0)"%string with ("$(" ++ thousands 0 ++ ")")%string in H.
      apply (inj (String.app "$(")), string_app_inv_tail in H.
      apply thousands_inj, rounded_magnitude_eq_0 in H.
      rewrite Qabs_neg in H by lra. lra.
    + intros (q' & [= <-] & Hq).
      assert (Z.to_N (round_half_even (Qabs q)) = 0%N) as ->; [|done].
      apply rounded_magnitude_eq_0. rewrite Qabs_neg by lra. lra.
  - rewrite (format_currency_Colab_pos q Hpos). split; split.
    + intros H. right. exists q. split; [done|]. split; [lra|].
      change "$0"%string with ("$" ++ thousands 0)%string in H.
      apply (inj (String.app "$")) in H.
      apply thousands_inj, rounded_magnitude_eq_0 in H.
      rewrite Qabs_pos in H by lra. lra.
    + intros [? | (q' & [= <-] & Hq)]; [done|].
      assert (Z.to_N (round_half_even (Qabs q)) = 0%N) as ->; [|done].
      apply rounded_magnitude_eq_0. rewrite Qabs_pos by lra. lra.
    + intros H. apply (inj (String.app "$")) in H.
      by apply thousands_not_starting_with in H;
        [| apply not_digit_paren | ].
    + intros (q' & [= <-] & Hq). lra.
  - assert (_format_currency (Num q) = "$0"%string) as ->.
    { unfold _format_currency, zero. simpl.
      by rewrite (Qeq_eq_bool _ _ Hzero). }
    split; split; try done.
    + intros _. right. exists q. split; [done|]. lra.
    + intros (q' & [= <-] & Hq). lra.
Qed.

(** X12.  Amounts shown by the same string.  Two numbers that
    [_format_currency] shows by the same string differ by at most one unit
    (one thousand dollars), and the same holds for [format_currency] of
    [financial_report_generator.py]: the string fixes the sign and the
    magnitude to the nearest integer. *)
Theorem same_string_same_amount (a b : Q) :
  (_format_currency (Num a) = _format_currency (Num b) → Qabs (a - b) <= 1)
  ∧ (format_currency (Num a) = format_currency (Num b) →
     Qabs (a - b) <= 1).
Proof.
  assert (Hsame : ∀ x y : Q,
            Z.to_N (round_half_even (Qabs x))
            = Z.to_N (round_half_even (Qabs y)) →
            (0 <= x ∧ 0 <= y) ∨ (x <= 0 ∧ y <= 0) → Qabs (x - y) <= 1).
  { intros x y H%same_rounded_magnitude Hsign.
    apply Qabs_Qle_condition in H. apply Qabs_Qle_condition.
    destruct Hsign as [[Hx Hy] | [Hx Hy]].
    - rewrite !Qabs_pos in H by done. exact H.
    - rewrite !Qabs_neg in H by done. split; lra. }
  assert (Hzero : ∀ x : Q, x == 0 → _format_currency (Num x) = "$0"%string).
  { intros x Hx. unfold _format_currency, zero. simpl.
    by rewrite (Qeq_eq_bool _ _ Hx). }
  split.
  - destruct (Q_dec a 0) as [[Ha | Ha] | Ha], (Q_dec b 0) as [[Hb | Hb] | Hb].
    all: rewrite ?(format_currency_Colab_neg a), ?(format_currency_Colab_pos a),
           ?(format_currency_Colab_neg b), ?(format_currency_Colab_pos b),
           ?(Hzero a), ?(Hzero b) by done.
    all: intros H.
    + apply (inj (String.app "$(")), string_app_inv_tail, thousands_inj in H.
      apply Hsame; [done | right; split; lra].
    + apply (inj (String.app "$")) in H. symmetry in H.
      by apply thousands_not_starting_with in H;
        [| apply not_digit_paren | ].
    + discriminate H.
    + apply (inj (String.app "$")) in H.
      by apply thousands_not_starting_with in H;
        [| apply not_digit_paren | ].
    + apply (inj (String.app "$")), thousands_inj in H.
      apply Hsame; [done | left; split; lra].
    + change "$0"%string with ("$" ++ thousands 0)%string in H.
      apply (inj (String.app "$")), thousands_inj in H.
      apply rounded_magnitude_eq_0 in H. rewrite Qabs_pos in H by lra.
      apply Qabs_Qle_condition. split; lra.
    + discriminate H.
    + change "$0"%string with ("$" ++ thousands 0)%string in H.
      apply (inj (String.app "$")), thousands_inj in H. symmetry in H.
      apply rounded_magnitude_eq_0 in H. rewrite Qabs_pos in H by lra.
      apply Qabs_Qle_condition. split; lra.
    + apply Qabs_Qle_condition. split; lra.
  - unfold format_currency. intros H. apply (inj (String.app "$")) in H.
    destruct (Qlt_le_dec a 0) as [Ha | Ha], (Qlt_le_dec b 0) as [Hb | Hb].
    all: rewrite ?(format_comma_0f_neg a), ?(format_comma_0f_nonneg a),
           ?(format_comma_0f_neg b), ?(format_comma_0f_nonneg b) in H
           by done.
    + apply (inj (String.app "-")), thousands_inj in H.
      apply Hsame; [done | right; split; lra].
    + symmetry in H.
      by apply thousands_not_starting_with in H;
        [| apply not_digit_minus | ].
    + by apply thousands_not_starting_with in H;
        [| apply not_digit_minus | ].
    + apply thousands_inj in H. apply Hsame; [done | left; split; lra].
Qed.

Lemma same_string_same_amount_witness :
  Qabs ((3 # 2) - (5 # 2)) <= 1 ∧ Qabs (-(3 # 2) - -(5 # 2)) <= 1.
Proof.
  split.
  - apply (proj1 (same_string_same_amount (3 # 2) (5 # 2))). reflexivity.
  - apply (proj2 (same_string_same_amount (-(3 # 2)) (-(5 # 2)))).
    reflexivity.
Defined.

End SmallAmounts.

Section Scaling.

Local Open Scope Q_scope.



End Scaling.

(** ** When [create_report] raises *)

Section Needs.

Context {A B : Type}.

Lemma needs_getitem (l : list A) (i : nat) :
  needs (i < length l)%nat (getitem l i).
Proof.
  intros ws x. unfold outcome, getitem, of_option.
  destruct (l !! i) eqn:E; [|done]. intros _.
  apply lookup_lt_is_Some. eauto.
Qed.

Lemma needs_bind_l (P : Prop) (m : M A) (k : A → M B) :
  needs P m → needs P (m ≫= k).
Proof.
  intros Hm ws x. rewrite outcome_bind.
  destruct (outcome m ws) as [e|a] eqn:E; [done|]. intros _.
  by eapply Hm.
Qed.

Lemma needs_bind_r (P : Prop) (m : M A) (k : A → M B) :
  (∀ a, needs P (k a)) → needs P (m ≫= k).
Proof.
  intros Hk ws x. rewrite outcome_bind.
  destruct (outcome m ws) as [e|a] eqn:E; [done|]. apply Hk.
Qed.

Lemma outcome_bind_inr (m : M A) (k : A → M B) ws x :
  outcome (m ≫= k) ws = inr x →
  ∃ a, outcome m ws = inr a ∧ outcome (k a) (exec m ws) = inr x.
Proof.
  rewrite outcome_bind. destruct (outcome m ws) as [e|a]; [done|].
  intros H. by exists a.
Qed.

Lemma index_error_only_ret (x : A) : index_error_only (mret x).
Proof. intros ws. left. by exists x. Qed.

Lemma index_error_only_getitem (l : list A) (i : nat) :
  index_error_only (getitem l i).
Proof.
  intros ws. unfold outcome, getitem, of_option.
  destruct (l !! i) as [x|]; [left; by exists x | by right].
Qed.

Lemma index_error_only_bind (m : M A) (k : A → M B) :
  index_error_only m → (∀ a, index_error_only (k a)) →
  index_error_only (m ≫= k).
Proof.
  intros Hm Hk ws. rewrite outcome_bind.
  destruct (Hm ws) as [[a ->] | ->]; [apply Hk | by right].
Qed.

Lemma index_error_only_succeeds (m : M A) : succeeds m → index_error_only m.
Proof. intros Hm ws. left. apply Hm. Qed.

End Needs.

(** Look for the place where the list is read at index 2. *)
Ltac needs_search :=
  lazymatch goal with
  | |- needs _ (getitem _ _) => apply needs_getitem
  | |- needs _ (_ ≫= _) =>
      first [ apply needs_bind_l; needs_search
            | apply needs_bind_r; intros ?; needs_search ]
  | |- needs _ (if ?b then _ else _) => destruct b; needs_search
  | |- needs _ _ => solve [eauto 2 with needs]
  end.

Ltac index_error_only_auto :=
  lazymatch goal with
  | |- index_error_only (mret _) => apply index_error_only_ret
  | |- index_error_only (getitem _ _) => apply index_error_only_getitem
  | |- index_error_only (_ ≫= _) =>
      apply index_error_only_bind;
        [index_error_only_auto | intros ?; index_error_only_auto]
  | |- index_error_only (if ?b then _ else _) =>
      destruct b; index_error_only_auto
  | |- _ => apply index_error_only_succeeds; solve [eauto with succeeds]
  end.

Section ReportBlocks.

Implicit Types (row : N) (values : list value) (b : BalanceSheetData).

Lemma needs_put_values row values :
  needs (2 < length values)%nat (put_values row values).
Proof. unfold put_values. needs_search. Qed.

Lemma needs_put_detail row label values :
  needs (2 < length values)%nat (put_detail row label values).
Proof. unfold put_detail, put_values. needs_search. Qed.

Lemma needs_put_metric row label values :
  needs (2 < length values)%nat (put_metric row label values).
Proof. unfold put_metric. needs_search. Qed.

Lemma needs_working_capital_assets b :
  needs (2 < length (total_current_assets b))%nat (working_capital b).
Proof. unfold working_capital, for_range3. needs_search. Qed.

Lemma needs_working_capital_liabilities b :
  needs (2 < length (total_current_liabilities b))%nat (working_capital b).
Proof. unfold working_capital, for_range3. needs_search. Qed.

End ReportBlocks.

Create HintDb needs discriminated.

#[local] Hint Resolve needs_put_values needs_put_detail needs_put_metric
  needs_working_capital_assets needs_working_capital_liabilities : needs.

Section CreateReport.

Variables (b : BalanceSheetData) (i : IncomeStatementData)
  (c : CashFlowData).

Ltac open_report :=
  unfold create_report, put_detail, put_values, put_changes, put_metric,
    put_ratio, working_capital, current_ratio, quick_assets, quick_ratio,
    net_cash_flow, for_range3;
  cbn [for_rows].

Lemma create_report_index_error_only :
  index_error_only (create_report b i c).
Proof. open_report. index_error_only_auto. Qed.

Lemma create_report_needs_dates :
  needs (2 < length (dates b))%nat (create_report b i c).
Proof. unfold create_report. needs_search. Qed.

Lemma create_report_needs l :
  l ∈ shown_lists b i c → needs (2 < length l)%nat (create_report b i c).
Proof.
  unfold shown_lists. rewrite !elem_of_cons, elem_of_nil.
  unfold create_report. cbn [for_rows]. intros H.
  repeat (destruct H as [-> | H]; [needs_search|]).
  done.
Qed.

End CreateReport.

(** ** When [create_report] goes through *)

Section Succeeds.

Context {A B : Type}.

Lemma succeeds_getitem (l : list A) (i : nat) :
  (2 < length l)%nat → (i ≤ 2)%nat → succeeds (getitem l i).
Proof.
  intros Hl Hi ws. unfold outcome, getitem, of_option.
  destruct (lookup_lt_is_Some_2 l i) as [x ->]; [lia|]. by exists x.
Qed.

Lemma succeeds_bind_post (Q : A → Prop) (m : M A) (k : A → M B) :
  (∀ ws, ∃ x, outcome m ws = inr x ∧ Q x) → (∀ x, Q x → succeeds (k x)) →
  succeeds (m ≫= k).
Proof.
  intros Hm Hk ws. destruct (Hm ws) as (x & Hx & HQ).
  rewrite outcome_bind, Hx. by apply Hk.
Qed.

Lemma for_range3_length (f : nat → M A) :
  succeeds (f 0%nat) → succeeds (f 1%nat) → succeeds (f 2%nat) →
  ∀ ws, ∃ x, outcome (for_range3 f) ws = inr x ∧ (2 < length x)%nat.
Proof.
  intros H0 H1 H2 ws. unfold for_range3.
  rewrite outcome_bind. destruct (H0 ws) as [x0 ->].
  rewrite outcome_bind. destruct (H1 (exec (f 0%nat) ws)) as [x1 ->].
  rewrite outcome_bind.
  destruct (H2 (exec (f 1%nat) (exec (f 0%nat) ws))) as [x2 ->].
  exists [x0; x1; x2]. rewrite outcome_ret. split; [done | simpl; lia].
Qed.

End Succeeds.

Ltac succeeds_walk :=
  lazymatch goal with
  | |- succeeds (getitem _ _) =>
      apply succeeds_getitem; [assumption | repeat constructor]
  | |- succeeds (for_range3 _ ≫= _) =>
      apply (succeeds_bind_post (λ x, (2 < length x)%nat));
        [ apply for_range3_length; succeeds_walk
        | intros ? ?; succeeds_walk ]
  | |- succeeds (_ ≫= _) =>
      apply succeeds_bind; [succeeds_walk | intros ?; succeeds_walk]
  | |- succeeds (if ?b then _ else _) => destruct b; succeeds_walk
  | |- _ => solve [eauto 3 with succeeds]
  end.

Section ReportBlocksSucceed.

Implicit Types (row : N) (values : list value).

Lemma succeeds_put_values row values :
  (2 < length values)%nat → succeeds (put_values row values).
Proof. intros H. unfold put_values. succeeds_walk. Qed.

Lemma succeeds_put_changes row values :
  (2 < length values)%nat → succeeds (put_changes row values).
Proof. intros H. unfold put_changes. succeeds_walk. Qed.

Lemma succeeds_put_metric row label values :
  (2 < length values)%nat → succeeds (put_metric row label values).
Proof. intros H. unfold put_metric. succeeds_walk. Qed.

Lemma succeeds_put_ratio row label values :
  (2 < length values)%nat → succeeds (put_ratio row label values).
Proof. intros H. unfold put_ratio. succeeds_walk. Qed.

Lemma succeeds_put_detail row label values :
  (2 < length values)%nat → succeeds (put_detail row label values).
Proof.
  intros H. unfold put_detail. apply succeeds_bind; [succeeds_walk|].
  intros _. by apply succeeds_put_values.
Qed.

End ReportBlocksSucceed.

Ltac succeeds_report :=
  lazymatch goal with
  | |- succeeds (getitem _ _) =>
      apply succeeds_getitem; [assumption | repeat constructor]
  | |- succeeds (put_values _ _) => apply succeeds_put_values; assumption
  | |- succeeds (put_changes _ _) => apply succeeds_put_changes; assumption
  | |- succeeds (put_metric _ _ _) => apply succeeds_put_metric; assumption
  | |- succeeds (put_ratio _ _ _) => apply succeeds_put_ratio; assumption
  | |- succeeds (put_detail _ _ _) => apply succeeds_put_detail; assumption
  | |- succeeds (for_range3 _ ≫= _) =>
      apply (succeeds_bind_post (λ x, (2 < length x)%nat));
        [ apply for_range3_length; succeeds_walk
        | intros ? ?; succeeds_report ]
  | |- succeeds (_ ≫= _) =>
      apply succeeds_bind; [succeeds_report | intros ?; succeeds_report]
  | |- succeeds (if ?b then _ else _) => destruct b; succeeds_report
  | |- _ => solve [eauto 3 with succeeds]
  end.

Section CreateReportSucceeds.

Variables (b : BalanceSheetData) (i : IncomeStatementData)
  (c : CashFlowData).

Lemma create_report_succeeds :
  (2 < length (dates b))%nat →
  Forall (λ l, (2 < length l)%nat) (shown_lists b i c) →
  succeeds (create_report b i c).
Proof.
  intros Hd Hl. unfold shown_lists in Hl.
  repeat match type of Hl with
  | Forall _ (_ :: _) =>
      let H := fresh "H" in
      apply Forall_cons in Hl as [H Hl]; cbv beta in H
  end.
  clear Hl.
  unfold create_report, working_capital, current_ratio, quick_assets,
    quick_ratio, net_cash_flow.
  cbn [for_rows].
  succeeds_report.
Qed.

End CreateReportSucceeds.

(** ** The older script: what [create_report] and [generate_report] need *)

Section OlderScript.

Implicit Types (b : BalanceSheetData) (i : IncomeStatementData)
  (c : CashFlowData) (ws : Worksheet).

Lemma create_report_outcome b i c ws :
  outcome (create_report b i c) ws = inr tt
  ∨ outcome (create_report b i c) ws = inl IndexError.
Proof.
  destruct (create_report_index_error_only b i c ws) as [[[] H] | H]; auto.
Qed.

Lemma create_report_outcome_iff b i c ws :
  outcome (create_report b i c) ws = inr tt ↔
  (2 < length (dates b))%nat
  ∧ Forall (λ l, (2 < length l)%nat) (shown_lists b i c).
Proof.
  split.
  - intros H. split.
    + by eapply create_report_needs_dates.
    + apply Forall_forall. intros l Hl. by eapply create_report_needs.
  - intros [Hd Hl].
    destruct (create_report_succeeds b i c Hd Hl ws) as [[] H]. exact H.
Qed.

(** X14: [create_report] writes the whole report exactly when the list of
    dates and each of the 29 lists it shows have at least three entries;
    with a shorter list it raises [IndexError], and it raises nothing
    else. *)
Theorem create_report_needs_three_periods b i c ws :
  (outcome (create_report b i c) ws = inr tt ↔
     (2 < length (dates b))%nat
     ∧ Forall (λ l, (2 < length l)%nat) (shown_lists b i c))
  ∧ (outcome (create_report b i c) ws = inr tt
     ∨ outcome (create_report b i c) ws = inl IndexError).
Proof.
  split; [apply create_report_outcome_iff | apply create_report_outcome].
Qed.

(** X15: the dividends and the free cash flow, which
    [get_cash_flow_data] collects, never reach the report: two cash-flow
    dictionaries that agree on the other six lists give the same run of
    [create_report]. *)
Theorem create_report_ignores_dividends_and_free_cash_flow b i c c' ws :
  operating_cash_flow c = operating_cash_flow c' →
  depreciation c = depreciation c' →
  capex c = capex c' →
  investing_cash_flow c = investing_cash_flow c' →
  debt_repayment c = debt_repayment c' →
  financing_cash_flow c = financing_cash_flow c' →
  create_report b i c ws = create_report b i c' ws.
Proof.
  destruct c, c'. simpl. intros -> -> -> -> -> ->. reflexivity.
Qed.

Lemma create_report_ignores_dividends_and_free_cash_flow_witness :
  create_report sample_balance_sheet_data sample_income_data
    sample_cash_flow_data new_worksheet
  = create_report sample_balance_sheet_data sample_income_data
      sample_cash_flow_data_with_dividends new_worksheet.
Proof.
  apply (create_report_ignores_dividends_and_free_cash_flow
    sample_balance_sheet_data sample_income_data sample_cash_flow_data
    sample_cash_flow_data_with_dividends new_worksheet); reflexivity.
Defined.

Lemma length_first3_of_three {A : Type} (l : list A) :
  (3 ≤ length l)%nat → length (first3 l) = 3%nat.
Proof. intros H. unfold first3. rewrite length_take. lia. Qed.

Lemma item_length (table : DataFrame) (name : string) :
  well_formed table → (3 ≤ length (columns table))%nat →
  length (item table name) = 3%nat.
Proof.
  intros Hwf Hcols. unfold item.
  destruct (rows table !! name) as [values|] eqn:E; [|reflexivity].
  apply length_first3_of_three. by rewrite (Hwf name values E).
Qed.

Lemma generate_report_run (bs inc cf : DataFrame) ws :
  ∃ b i c,
    get_balance_sheet_data (Some bs) = Some b
    ∧ get_income_statement_data (Some inc) = Some i
    ∧ get_cash_flow_data (Some cf) = Some c
    ∧ outcome (generate_report (Some bs) (Some inc) (Some cf)) ws
      = match outcome (create_report b i c) (exec (ws_set_title "Sheet1") ws)
        with
        | inr _ => inr true
        | inl e => inl e
        end.
Proof.
  eexists _, _, _. repeat split. unfold generate_report.
  cbv beta iota zeta.
  unfold get_balance_sheet_data, get_income_statement_data,
    get_cash_flow_data.
  rewrite outcome_bind. cbn [outcome ws_set_title fst].
  rewrite outcome_bind.
  match goal with
  | |- match ?o with _ => _ end = match ?o' with _ => _ end =>
      change o with o'; destruct o'
  end; reflexivity.
Qed.


(** X17: with three well-formed tables of at least three dated columns
    each, [generate_report] returns [True], whichever line items the tables
    hold. *)
Theorem generate_report_three_periods (bs inc cf : DataFrame) ws :
  well_formed bs → well_formed inc → well_formed cf →
  (3 ≤ length (columns bs))%nat → (3 ≤ length (columns inc))%nat →
  (3 ≤ length (columns cf))%nat →
  outcome (generate_report (Some bs) (Some inc) (Some cf)) ws = inr true.
Proof.
  intros Wb Wi Wc Lb Li Lc.
  destruct (generate_report_run bs inc cf ws)
    as (b & i & c & Eb & Ei & Ec & ->).
  injection Eb as <-. injection Ei as <-. injection Ec as <-.
  match goal with
  | |- match outcome ?m ?w with _ => _ end = _ =>
      assert (outcome m w = inr tt) as ->; [|reflexivity]
  end.
  apply create_report_outcome_iff. split.
  - cbn [dates]. rewrite length_first3_of_three; [lia|].
    by rewrite length_fmap.
  - unfold shown_lists.
    cbn [cash_equivalents short_term_investments accounts_receivable
      inventory total_current_assets ppe total_assets accounts_payable
      short_term_debt total_current_liabilities long_term_debt
      total_liabilities total_equity revenue cost_of_revenue gross_profit
      operating_expenses operating_income ebit interest_expense
      pretax_income tax_expense net_income operating_cash_flow
      depreciation capex investing_cash_flow debt_repayment
      financing_cash_flow].
    repeat constructor; rewrite item_length; (assumption || lia).
Qed.

Lemma generate_report_three_periods_witness :
  outcome
    (generate_report (Some sample_balance_sheet) (Some sample_income)
       (Some sample_cashflow)) new_worksheet
  = inr true.
Proof.
  apply (generate_report_three_periods sample_balance_sheet sample_income
    sample_cashflow new_worksheet);
    first [ apply map_Forall_to_list; compute_done | simpl; lia ].
Defined.



End OlderScript.
